(** * PSBE license backends: a shallow embedding and its verification

    The repository holds three independent Express servers:

    - [license-backend.js], the flat-file variant: two JSON documents
      (licenses by code, users by username) rewritten whole on every change;
    - the SQLite variant (tables [users], [devices], [sessions]);
    - [server.js], the security-code variant (a static whitelist).

    Each handler is embedded as a function from the stored state, the
    environment of the call (clock, random bytes, disk behaviour) and the
    request to a response and the next state.  Request bodies carry string
    fields that may be absent.  A JS object used as a dictionary is the
    [gmap] of its own properties; [obj[key]] is [Js.get_property], which
    also finds what the object inherits from [Object.prototype].
    A JS string is the [string] of its UTF-8 bytes, which keeps [===];
    its [.length], a count of UTF-16 code units, is [Js.str_length].
    Strings holding a lone surrogate have no such encoding and are not
    represented.
    [console.log] is left out except in [server.js], where the console is
    the only state the process has. *)

From Stdlib Require Import ZArith String Ascii DecimalString List Lia.
From Stdlib.Strings Require Import Byte.
From stdpp Require Import gmap strings list fin_maps.

Set Warnings "-register-all".
Local Open Scope Z_scope.

(** ** JavaScript values and library functions used by the servers *)
Module Js.

(** The JSON documents sent with [res.json]. *)
Inductive json : Type :=
| JNull
| JBool (b : bool)
| JNum (n : Z)
| JStr (s : string)
| JObj (fields : list (string * json)).

(** [res.status(c).json(b)]; [res.json(b)] alone answers 200. *)
Record response : Type := Response { status : Z; body : json }.

Definition ok_json (b : json) : response := Response 200 b.

(** A body field: [None] is [undefined] (the field is absent). *)
Definition field := option string.

(** [!v] on a string-or-undefined value: only [undefined] and the empty
    string are falsy. *)
Definition falsy (v : field) : bool :=
  match v with
  | None => true
  | Some s => String.eqb s ""
  end.

Definition truthy (v : field) : bool := negb (falsy v).

(** The value of a field that passes the [!field] test of the input
    validation, [None] when the test rejects it. *)
Definition required (v : field) : option string :=
  match v with
  | Some s => if String.eqb s "" then None else Some s
  | None => None
  end.

(** [a || b] on string-or-undefined values. *)
Definition or_else (a b : field) : field := if truthy a then a else b.

(** [arr.includes(s)] for an array of strings and a string [s]. *)
Definition includes_str (arr : list string) (s : string) : bool :=
  existsb (String.eqb s) arr.

(** [arr.includes(v)]: [undefined] is never an element of an array of
    strings. *)
Definition includes (arr : list string) (v : field) : bool :=
  match v with
  | None => false
  | Some s => includes_str arr s
  end.

(** [s.includes(sub)] on strings. *)
Definition str_includes (s sub : string) : bool :=
  match String.index 0 sub s with
  | Some _ => true
  | None => false
  end.

(** [s.length]: the number of UTF-16 code units of a string, counted on
    its UTF-8 bytes.  A byte below 0x80 is a character of one unit, a
    byte from 0x80 to 0xBF continues a character already counted, a lead
    byte from 0xC0 to 0xEF starts a character of the basic plane (one
    unit), and a lead byte from 0xF0 starts a character beyond it, which
    UTF-16 writes as a surrogate pair (two units). *)
Definition utf16_units (c : ascii) : nat :=
  let n := N_of_ascii c in
  if (n <? 128)%N then 1%nat
  else if (n <? 192)%N then 0%nat
  else if (n <? 240)%N then 1%nat
  else 2%nat.

Fixpoint str_length (s : string) : nat :=
  match s with
  | EmptyString => 0%nat
  | String c rest => (utf16_units c + str_length rest)%nat
  end.

(** The names of the properties of [Object.prototype], which every
    object parsed from JSON inherits. *)
Definition object_prototype_keys : list string :=
  ["constructor"; "__defineGetter__"; "__defineSetter__"; "hasOwnProperty";
   "__lookupGetter__"; "__lookupSetter__"; "isPrototypeOf";
   "propertyIsEnumerable"; "toString"; "valueOf"; "__proto__";
   "toLocaleString"].

(** What [obj[key]] finds in an object parsed from JSON whose own
    properties are the entries of a dictionary: an entry; or, when the
    object has no entry of that name, the property of that name of
    [Object.prototype] (a function, or [Object.prototype] itself for
    ["__proto__"]), a truthy value that has none of the properties of an
    entry; or [undefined]. *)
Inductive property (A : Type) : Type :=
| Own (v : A)
| Inherited
| Undefined.
Arguments Own {A} v.
Arguments Inherited {A}.
Arguments Undefined {A}.

Definition get_property {A : Type} (obj : gmap string A) (key : string)
    : property A :=
  match obj !! key with
  | Some v => Own v
  | None =>
    if includes_str object_prototype_keys key then Inherited else Undefined
  end.

(** [obj[k]] where [k] may be [undefined]: the property key is the string
    ["undefined"]. *)
Definition prop_key (k : field) : string :=
  match k with
  | Some s => s
  | None => "undefined"
  end.

(** An integer as a template literal prints it. *)
Definition number_to_string (n : Z) : string :=
  NilZero.string_of_int (Z.to_int n).

(** Lower-case and upper-case hexadecimal digits. *)
Definition hex_digit (n : N) : ascii :=
  match n with
  | 0%N => "0" | 1%N => "1" | 2%N => "2" | 3%N => "3"
  | 4%N => "4" | 5%N => "5" | 6%N => "6" | 7%N => "7"
  | 8%N => "8" | 9%N => "9" | 10%N => "a" | 11%N => "b"
  | 12%N => "c" | 13%N => "d" | 14%N => "e" | _ => "f"
  end%char.

Definition hex_digit_upper (n : N) : ascii :=
  match n with
  | 0%N => "0" | 1%N => "1" | 2%N => "2" | 3%N => "3"
  | 4%N => "4" | 5%N => "5" | 6%N => "6" | 7%N => "7"
  | 8%N => "8" | 9%N => "9" | 10%N => "A" | 11%N => "B"
  | 12%N => "C" | 13%N => "D" | 14%N => "E" | _ => "F"
  end%char.

(** [buf.toString('hex')]. *)
Fixpoint to_hex (buf : list byte) : string :=
  match buf with
  | [] => ""
  | b :: rest =>
      let n := Byte.to_N b in
      String (hex_digit (n / 16)) (String (hex_digit (n mod 16)) (to_hex rest))
  end.

(** [buf.toString('hex').toUpperCase()]. *)
Fixpoint to_hex_upper (buf : list byte) : string :=
  match buf with
  | [] => ""
  | b :: rest =>
      let n := Byte.to_N b in
      String (hex_digit_upper (n / 16))
        (String (hex_digit_upper (n mod 16)) (to_hex_upper rest))
  end.

(** [s.split(sep)] for a one-character separator: the pieces between the
    occurrences of [sep], at least one piece. *)
Fixpoint split_char (sep : ascii) (s : string) : list string :=
  match s with
  | EmptyString => [""]
  | String c rest =>
      if Ascii.eqb c sep then "" :: split_char sep rest
      else match split_char sep rest with
           | piece :: pieces => String c piece :: pieces
           | [] => [String c ""]
           end
  end.

(** The [crypto] module's key derivation, an external collaborator:
    [pbkdf2Sync password salt iterations keylen digest]. *)
Class Crypto : Type :=
  pbkdf2Sync : string -> string -> N -> N -> string -> list byte.

End Js.

(** ** The clock: [Date] in JavaScript, [datetime] in SQLite *)
Module Clock.

(** An instant is the number of milliseconds since 1970-01-01T00:00Z, as
    [Date.now()] returns it. *)
Definition instant := Z.

Definition ms_per_day : Z := 86400000.

(** [30 * 24 * 60 * 60 * 1000], the validity of a session. *)
Definition session_validity_ms : Z := 30 * 24 * 60 * 60 * 1000.

(** The proleptic Gregorian date (year, month, day) of a day counted from
    1970-01-01, on the 400-year cycle that starts on a 1st of March. *)
Definition civil_from_days (z : Z) : Z * Z * Z :=
  let z := z + 719468 in
  let era := z / 146097 in
  let doe := z mod 146097 in
  let yoe := (doe - doe / 1460 + doe / 36524 - doe / 146096) / 365 in
  let doy := doe - (365 * yoe + yoe / 4 - yoe / 100) in
  let mp := (5 * doy + 2) / 153 in
  let d := doy - (153 * mp + 2) / 5 + 1 in
  let m := if mp <? 10 then mp + 3 else mp - 9 in
  let y := yoe + era * 400 + (if m <=? 2 then 1 else 0) in
  (y, m, d).

Definition digit (n : Z) : ascii := ascii_of_N (48 + Z.to_N (n mod 10)).

(** [n] in decimal on exactly [width] digits, zero-padded on the left. *)
Fixpoint pad (width : nat) (n : Z) : string :=
  match width with
  | O => ""
  | S w => pad w (n / 10) +:+ String (digit n) ""
  end.

(** The date part [YYYY-MM-DD] shared by both formats, for a year that
    fits four digits. *)
Definition date_string (days : Z) : string :=
  let '(y, m, d) := civil_from_days days in
  pad 4 y +:+ "-" +:+ pad 2 m +:+ "-" +:+ pad 2 d.

(** The year of [toISOString]: four digits from 0 to 9999, otherwise a
    sign and six digits. *)
Definition iso_year (y : Z) : string :=
  if (0 <=? y) && (y <=? 9999) then pad 4 y
  else (if y <? 0 then "-" else "+") +:+ pad 6 (Z.abs y).

(** [new Date(t).toISOString()]: [YYYY-MM-DDTHH:mm:ss.sssZ]. *)
Definition toISOString (t : instant) : string :=
  let '(y, m, d) := civil_from_days (t / ms_per_day) in
  let ms := t mod ms_per_day in
  iso_year y +:+ "-" +:+ pad 2 m +:+ "-" +:+ pad 2 d +:+ "T"
    +:+ pad 2 (ms / 3600000) +:+ ":" +:+ pad 2 (ms / 60000 mod 60) +:+ ":"
    +:+ pad 2 (ms / 1000 mod 60) +:+ "." +:+ pad 3 (ms mod 1000) +:+ "Z".

(** SQLite's [datetime('now')] and [CURRENT_TIMESTAMP] at instant [t]:
    [YYYY-MM-DD HH:MM:SS] in UTC, the seconds truncated. *)
Definition sqlite_datetime (t : instant) : string :=
  let ms := t mod ms_per_day in
  date_string (t / ms_per_day) +:+ " "
    +:+ pad 2 (ms / 3600000) +:+ ":" +:+ pad 2 (ms / 60000 mod 60) +:+ ":"
    +:+ pad 2 (ms / 1000 mod 60).

(** SQLite's [a > b] on two TEXT values under the BINARY collation: the
    byte strings are compared as [memcmp] does, a proper prefix being
    smaller. *)
Definition text_gt (a b : string) : bool :=
  match String.compare a b with
  | Gt => true
  | _ => false
  end.

End Clock.

(** ** The flat-file variant ([license-backend.js]) *)
Module FlatFile.
Import Js.

(** Valid license codes. *)
Definition VALID_LICENSE_CODES : list string :=
  ["PSYSTUDIO-2024-FULL"; "PSYSTUDIO-2024-PRO"; "PSYSTUDIO-2024-TRIAL"].

(** An entry of [users-database.json]. [u_devices] is [None] for a record
    without a [devices] property. *)
Record User : Type := mkUser {
  u_username : string;
  u_passwordHash : string;
  u_salt : string;
  u_licenseCode : string;
  u_hardwareID : string;
  u_devices : option (list string);
  u_createdAt : string;
  u_lastLogin : string
}.

(** An entry of [license-database.json]. *)
Record License : Type := mkLicense {
  lic_code : string;
  lic_username : string;
  lic_hardwareID : string;
  lic_activatedAt : string;
  lic_status : string
}.

(** The two documents on disk: [licenses] by code, [users] by username. *)
Record Disk : Type := mkDisk {
  licenses : gmap string License;
  users : gmap string User
}.

(** What one call finds around it: the clock, the random bytes it draws,
    and whether each read and write of a document goes through. *)
Record Env : Type := mkEnv {
  now : Clock.instant;
  random16 : list byte;
  random32 : list byte;
  load_licenses_ok : bool;
  load_users_ok : bool;
  save_users_ok : bool;
  save_licenses_ok : bool
}.

(** [loadDatabase]: the parsed document, or [null] when reading fails. *)
Definition loadDatabase {A : Type} (ok : bool) (doc : A) : option A :=
  if ok then Some doc else None.

(** [saveDatabase]: [true] and the document replaced, or [false] and the
    file as it was. *)
Definition saveDatabase {A : Type} (ok : bool) (old new : A) : bool * A :=
  if ok then (true, new) else (false, old).

Definition hashPassword `{Crypto} (password salt : string) : string :=
  to_hex (pbkdf2Sync password salt 10000%N 64%N "sha512").

Definition generateSalt (env : Env) : string := to_hex (random16 env).

Definition verifyPassword `{Crypto} (password salt hash : string) : bool :=
  String.eqb (hashPassword password salt) hash.

Definition licenseType (code : string) : json :=
  JStr (if str_includes code "TRIAL" then "trial" else "full").

Definition fail (st : Z) (msg : string) : response :=
  Response st (JObj [("success", JBool false); ("error", JStr msg)]).

Record ActivateBody : Type := mkActivateBody {
  ab_code : field;
  ab_username : field;
  ab_password : field;
  ab_hardwareID : field
}.

Record LoginBody : Type := mkLoginBody {
  lb_username : field;
  lb_password : field;
  lb_hardwareID : field
}.

Record VerifyBody : Type := mkVerifyBody {
  vb_username : field;
  vb_token : field;
  vb_hardwareID : field
}.

Record CheckBody : Type := mkCheckBody { cb_code : field }.

(** POST /api/activate-license.  [licenseDB.licenses[code]] is read for
    a listed [code] only, none of which names a property of
    [Object.prototype], so it is a lookup among the own entries (lemma
    [listed_code_lookup]); [usersDB.users[username]] is read for any
    username, and what it inherits is truthy like a stored user. *)
Definition activate_license `{Crypto} (d : Disk) (env : Env)
    (req : ActivateBody) : response * Disk :=
  match required (ab_code req), required (ab_username req),
        required (ab_password req), required (ab_hardwareID req) with
  | Some code, Some username, Some password, Some hardwareID =>
    if negb (includes_str VALID_LICENSE_CODES code) then
      (fail 400 "Invalid license code", d)
    else
      match loadDatabase (load_licenses_ok env) (licenses d),
            loadDatabase (load_users_ok env) (users d) with
      | Some licenseDB, Some usersDB =>
        match licenseDB !! code with
        | Some existingLicense =>
          if negb (String.eqb (lic_hardwareID existingLicense) hardwareID) then
            (Response 403 (JObj [
               ("success", JBool false);
               ("error", JStr "License already activated on another device");
               ("activatedBy", JStr (lic_username existingLicense));
               ("activatedAt", JStr (lic_activatedAt existingLicense))]), d)
          else if negb (String.eqb (lic_username existingLicense) username) then
            (fail 403 "License already activated with different username", d)
          else
            (ok_json (JObj [
               ("success", JBool true);
               ("message", JStr "License re-activated");
               ("licenseType", licenseType code);
               ("user", JObj [
                  ("username", JStr (lic_username existingLicense));
                  ("activatedAt", JStr (lic_activatedAt existingLicense))])]), d)
        | None =>
          match get_property usersDB username with
          | Own _ | Inherited => (fail 400 "Username already taken", d)
          | Undefined =>
            let salt := generateSalt env in
            let passwordHash := hashPassword password salt in
            let stamp := Clock.toISOString (now env) in
            let usersDB' :=
              <[username := mkUser username passwordHash salt code hardwareID
                              (Some [hardwareID]) stamp stamp]> usersDB in
            let licenseDB' :=
              <[code := mkLicense code username hardwareID stamp "active"]>
                licenseDB in
            let '(saveResult1, users') :=
              saveDatabase (save_users_ok env) (users d) usersDB' in
            let '(saveResult2, licenses') :=
              saveDatabase (save_licenses_ok env) (licenses d) licenseDB' in
            let d' := mkDisk licenses' users' in
            if negb saveResult1 || negb saveResult2 then
              (fail 500 "Failed to save activation data", d')
            else
              (ok_json (JObj [
                 ("success", JBool true);
                 ("message", JStr "License activated successfully");
                 ("licenseType", licenseType code);
                 ("user", JObj [
                    ("username", JStr username);
                    ("activatedAt", JStr stamp)])]), d')
          end
        end
      | _, _ => (fail 500 "Database error", d)
      end
  | _, _, _, _ => (fail 400 "Missing required fields", d)
  end.

(** The device check of the login handler ("allow up to 3 different
    devices"): the device list to store, or [None] when the limit is
    reached. *)
Definition admit_device (devices : option (list string)) (hardwareID : string)
    : option (list string) :=
  match devices with
  | None => Some [hardwareID]
  | Some devs =>
      if negb (includes_str devs hardwareID) then
        if (3 <=? length devs)%nat then None
        else Some (devs ++ [hardwareID])
      else Some devs
  end.

Definition device_count (devices : option (list string)) : Z :=
  match devices with
  | Some devs => Z.of_nat (length devs)
  | None => 0
  end.

(** POST /api/login.  For a username that is not stored and names a
    property of [Object.prototype], [user] is that inherited value:
    [user.salt] is [undefined], [crypto.pbkdf2Sync] raises a [TypeError]
    on it, and the handler answers 500 from its [catch]. *)
Definition login `{Crypto} (d : Disk) (env : Env) (req : LoginBody)
    : response * Disk :=
  match required (lb_username req), required (lb_password req),
        required (lb_hardwareID req) with
  | Some username, Some password, Some hardwareID =>
    match loadDatabase (load_users_ok env) (users d) with
    | None => (fail 500 "Database error", d)
    | Some usersDB =>
      match get_property usersDB username with
      | Undefined => (fail 401 "Invalid username or password", d)
      | Inherited => (fail 500 "Server error during login", d)
      | Own user =>
        if negb (verifyPassword password (u_salt user) (u_passwordHash user))
        then (fail 401 "Invalid username or password", d)
        else
          match admit_device (u_devices user) hardwareID with
          | None =>
            (Response 403 (JObj [
               ("success", JBool false);
               ("error", JStr "Maximum device limit reached (3 devices)");
               ("devices", JNum (device_count (u_devices user)))]), d)
          | Some devs =>
            let user' :=
              mkUser (u_username user) (u_passwordHash user) (u_salt user)
                (u_licenseCode user) (u_hardwareID user) (Some devs)
                (u_createdAt user) (Clock.toISOString (now env)) in
            let usersDB' := <[username := user']> usersDB in
            let '(_, users') :=
              saveDatabase (save_users_ok env) (users d) usersDB' in
            let sessionToken := to_hex (random32 env) in
            (ok_json (JObj [
               ("success", JBool true);
               ("message", JStr "Login successful");
               ("token", JStr sessionToken);
               ("user", JObj [
                  ("username", JStr (u_username user'));
                  ("licenseCode", JStr (u_licenseCode user'));
                  ("licenseType", licenseType (u_licenseCode user'));
                  ("devicesUsed", JNum (Z.of_nat (length devs)))])]),
             mkDisk (licenses d) users')
          end
      end
    end
  | _, _, _ => (fail 400 "Missing required fields", d)
  end.

(** POST /api/verify-session. The body is not validated: an absent
    username looks up the key ["undefined"], and a failed read of the
    document raises inside the handler, which answers 500.  So does a
    username that is not stored and names a property of
    [Object.prototype]: [user.devices] is [undefined], the device check
    is skipped, and [user.licenseCode.includes] raises. *)
Definition verify_session (d : Disk) (env : Env) (req : VerifyBody)
    : response * Disk :=
  match loadDatabase (load_users_ok env) (users d) with
  | None => (fail 500 "Server error", d)
  | Some usersDB =>
    match get_property usersDB (prop_key (vb_username req)) with
    | Undefined => (fail 401 "Invalid session", d)
    | Inherited => (fail 500 "Server error", d)
    | Own user =>
      if match u_devices user with
         | Some devs => negb (includes devs (vb_hardwareID req))
         | None => false
         end
      then (fail 403 "Device not authorized", d)
      else
        (ok_json (JObj [
           ("success", JBool true);
           ("user", JObj [
              ("username", JStr (u_username user));
              ("licenseType", licenseType (u_licenseCode user))])]), d)
    end
  end.

(** POST /api/check-license.  As in the activation,
    [licenseDB.licenses[code]] is read for a listed [code] only. *)
Definition check_license (d : Disk) (env : Env) (req : CheckBody)
    : response * Disk :=
  match required (cb_code req) with
  | None => (fail 400 "License code required", d)
  | Some code =>
    if negb (includes_str VALID_LICENSE_CODES code) then
      (ok_json (JObj [
         ("success", JBool true); ("valid", JBool false);
         ("available", JBool false);
         ("error", JStr "Invalid license code")]), d)
    else
      match loadDatabase (load_licenses_ok env) (licenses d) with
      | None => (fail 500 "Server error", d)
      | Some licenseDB =>
        let isActivated := bool_decide (is_Some (licenseDB !! code)) in
        (ok_json (JObj [
           ("success", JBool true); ("valid", JBool true);
           ("available", JBool (negb isActivated));
           ("activated",
            match licenseDB !! code with
            | Some l => JStr (lic_activatedAt l)
            | None => JNull
            end)]), d)
      end
  end.

(** The requests of the license API that read or write the two
    documents; the admin listing, /health and / are left out. *)
Inductive request : Type :=
| ActivateLicense (b : ActivateBody)
| Login (b : LoginBody)
| VerifySession (b : VerifyBody)
| CheckLicense (b : CheckBody).

Definition handle `{Crypto} (d : Disk) (call : Env * request)
    : response * Disk :=
  match call with
  | (env, ActivateLicense b) => activate_license d env b
  | (env, Login b) => login d env b
  | (env, VerifySession b) => verify_session d env b
  | (env, CheckLicense b) => check_license d env b
  end.

(** The disk after a sequence of calls handled one after the other:
    each handler runs from its reads to its writes before the next one
    starts.  The handlers are [async] and give way at every [await], so
    calls that overlap in time can also interleave between the read of a
    document and its rewrite; those executions are not runs of this
    function. *)
Definition run `{Crypto} (d : Disk) (calls : list (Env * request)) : Disk :=
  fold_left (fun d call => snd (handle d call)) calls d.

(** [initDatabase] on a fresh directory: both documents empty. *)
Definition empty_disk : Disk := mkDisk ∅ ∅.

End FlatFile.

(** ** The SQLite variant *)
Module Sqlite.
Import Js.

(** A row of [users]. [password_hash] and [last_login] may be NULL. *)
Record UserRow : Type := mkUserRow {
  u_id : Z;
  u_username : string;
  u_password_hash : option string;
  u_license_code : string;
  u_created_at : string;
  u_last_login : option string;
  u_is_activated : Z
}.

(** A row of [devices]. *)
Record DeviceRow : Type := mkDeviceRow {
  dev_id : Z;
  dev_user_id : Z;
  dev_hardware_id : string;
  dev_device_name : option string;
  dev_first_seen : string;
  dev_last_seen : string
}.

(** A row of [sessions]. *)
Record SessionRow : Type := mkSessionRow {
  s_id : Z;
  s_user_id : Z;
  s_session_token : string;
  s_hardware_id : string;
  s_expires_at : string;
  s_created_at : string
}.

(** The database: each table in rowid order, and for each the largest
    rowid handed out so far (AUTOINCREMENT keeps it in [sqlite_sequence]
    and never reuses an id). *)
Record Db : Type := mkDb {
  users : list UserRow;
  devices : list DeviceRow;
  sessions : list SessionRow;
  seq_users : Z;
  seq_devices : Z;
  seq_sessions : Z
}.

(** The tables as [CREATE TABLE IF NOT EXISTS] leaves them on a fresh
    file. *)
Definition empty_db : Db := mkDb [] [] [] 0 0 0.

Record Env : Type := mkEnv {
  now : Clock.instant;
  random16 : list byte;
  random32 : list byte
}.

(** A statement either runs or raises an [SqliteError] with a message. *)
Inductive outcome (A : Type) : Type :=
| Done (a : A)
| Throw (message : string).
Arguments Done {A} a.
Arguments Throw {A} message.

(** [SELECT * FROM users WHERE username = ?], first row. *)
Definition get_user_by_username (db : Db) (username : string)
    : option UserRow :=
  find (fun u => String.eqb (u_username u) username) (users db).

(** [SELECT * FROM users WHERE license_code = ?], first row. *)
Definition get_user_by_license_code (db : Db) (license_code : string)
    : option UserRow :=
  find (fun u => String.eqb (u_license_code u) license_code) (users db).

(** [SELECT * FROM devices WHERE user_id = ?], all rows. *)
Definition all_devices_of (db : Db) (user_id : Z) : list DeviceRow :=
  filter (fun d => dev_user_id d = user_id) (devices db).

(** [INSERT INTO users (username, license_code, is_activated) VALUES (?, ?, 0)]
    under [username UNIQUE] and [license_code UNIQUE]; answers the new
    rowid. *)
Definition insert_user (db : Db) (env : Env) (username license_code : string)
    : outcome (Z * Db) :=
  if existsb (fun u => String.eqb (u_username u) username) (users db) then
    Throw "UNIQUE constraint failed: users.username"
  else if existsb (fun u => String.eqb (u_license_code u) license_code)
            (users db) then
    Throw "UNIQUE constraint failed: users.license_code"
  else
    let id := seq_users db + 1 in
    let row := mkUserRow id username None license_code
                 (Clock.sqlite_datetime (now env)) None 0 in
    Done (id, mkDb (users db ++ [row]) (devices db) (sessions db)
                id (seq_devices db) (seq_sessions db)).

(** [INSERT INTO devices (user_id, hardware_id, device_name) VALUES (?, ?, ?)]
    under [UNIQUE(user_id, hardware_id)]. *)
Definition insert_device (db : Db) (env : Env) (user_id : Z)
    (hardware_id device_name : string) : outcome Db :=
  if existsb (fun d => (dev_user_id d =? user_id)
                       && String.eqb (dev_hardware_id d) hardware_id)
       (devices db) then
    Throw "UNIQUE constraint failed: devices.user_id, devices.hardware_id"
  else
    let id := seq_devices db + 1 in
    let stamp := Clock.sqlite_datetime (now env) in
    let row := mkDeviceRow id user_id hardware_id (Some device_name)
                 stamp stamp in
    Done (mkDb (users db) (devices db ++ [row]) (sessions db)
            (seq_users db) id (seq_sessions db)).

(** [UPDATE devices SET last_seen = CURRENT_TIMESTAMP WHERE id = ?]. *)
Definition touch_device (db : Db) (env : Env) (id : Z) : Db :=
  mkDb (users db)
    (map (fun d =>
            if dev_id d =? id then
              mkDeviceRow (dev_id d) (dev_user_id d) (dev_hardware_id d)
                (dev_device_name d) (dev_first_seen d)
                (Clock.sqlite_datetime (now env))
            else d) (devices db))
    (sessions db) (seq_users db) (seq_devices db) (seq_sessions db).

(** [INSERT INTO sessions (user_id, session_token, hardware_id, expires_at)
    VALUES (?, ?, ?, ?)] under [session_token UNIQUE]. *)
Definition insert_session (db : Db) (env : Env) (user_id : Z)
    (session_token hardware_id expires_at : string) : outcome Db :=
  if existsb (fun s => String.eqb (s_session_token s) session_token)
       (sessions db) then
    Throw "UNIQUE constraint failed: sessions.session_token"
  else
    let id := seq_sessions db + 1 in
    let row := mkSessionRow id user_id session_token hardware_id expires_at
                 (Clock.sqlite_datetime (now env)) in
    Done (mkDb (users db) (devices db) (sessions db ++ [row])
            (seq_users db) (seq_devices db) id).

(** [UPDATE users SET last_login = CURRENT_TIMESTAMP WHERE id = ?]. *)
Definition touch_user (db : Db) (env : Env) (id : Z) : Db :=
  mkDb
    (map (fun u =>
            if u_id u =? id then
              mkUserRow (u_id u) (u_username u) (u_password_hash u)
                (u_license_code u) (u_created_at u)
                (Some (Clock.sqlite_datetime (now env))) (u_is_activated u)
            else u) (users db))
    (devices db) (sessions db) (seq_users db) (seq_devices db)
    (seq_sessions db).

(** [UPDATE users SET password_hash = ?, is_activated = 1 WHERE id = ?]. *)
Definition set_password_and_activate (db : Db) (passwordHash : string)
    (id : Z) : Db :=
  mkDb
    (map (fun u =>
            if u_id u =? id then
              mkUserRow (u_id u) (u_username u) (Some passwordHash)
                (u_license_code u) (u_created_at u) (u_last_login u) 1
            else u) (users db))
    (devices db) (sessions db) (seq_users db) (seq_devices db)
    (seq_sessions db).

(** [DELETE FROM sessions WHERE session_token = ?]. *)
Definition delete_session (db : Db) (session_token : string) : Db :=
  mkDb (users db) (devices db)
    (filter (fun s => s_session_token s ≠ session_token) (sessions db))
    (seq_users db) (seq_devices db) (seq_sessions db).

(** The query of verify-session: the rows of [sessions s JOIN users u ON
    s.user_id = u.id] with the given token and hardware id whose
    [expires_at] is greater, as TEXT, than [datetime('now')]. *)
Definition select_sessions (db : Db) (env : Env)
    (session_token hardware_id : string) : list (SessionRow * UserRow) :=
  s ← sessions db;
  u ← users db;
  if (s_user_id s =? u_id u)
     && String.eqb (s_session_token s) session_token
     && String.eqb (s_hardware_id s) hardware_id
     && Clock.text_gt (s_expires_at s) (Clock.sqlite_datetime (now env))
  then [(s, u)] else [].

(** Helper: hash password with PBKDF2; the salt is drawn by
    [crypto.randomBytes(16)]. *)
Definition hashPassword `{Crypto} (env : Env) (password : string) : string :=
  let salt := to_hex (random16 env) in
  let hash := to_hex (pbkdf2Sync password salt 10000%N 64%N "sha512") in
  salt +:+ ":" +:+ hash.

(** [const [salt, hash] = storedHash.split(':')]: the first two pieces,
    [hash] being [undefined] when there is only one. *)
Definition verifyPassword `{Crypto} (password storedHash : string) : bool :=
  match split_char ":" storedHash with
  | salt :: rest =>
      let verifyHash :=
        to_hex (pbkdf2Sync password salt 10000%N 64%N "sha512") in
      match rest with
      | hash :: _ => String.eqb hash verifyHash
      | [] => false
      end
  | [] => false
  end.

Definition generateSessionToken (env : Env) : string :=
  to_hex (random32 env).

Definition generateLicenseCode (env : Env) : string :=
  to_hex_upper (random16 env).

Definition fail (st : Z) (msg : string) : response :=
  Response st (JObj [("error", JStr msg)]).

Record RegisterBody : Type := mkRegisterBody {
  rb_username : field;
  rb_adminKey : field
}.

Record LoginBody : Type := mkLoginBody {
  lb_username : field;
  lb_password : field;
  lb_hardware_id : field
}.

Record ActivateBody : Type := mkActivateBody {
  ab_license_code : field;
  ab_hardware_id : field;
  ab_password : field
}.

Record VerifyBody : Type := mkVerifyBody {
  vb_session_token : field;
  vb_hardware_id : field
}.

Record LogoutBody : Type := mkLogoutBody { ob_session_token : field }.

(** POST /api/register (admin only - for generating license codes) *)
Definition register (db : Db) (env : Env) (req : RegisterBody)
    : response * Db :=
  if negb (bool_decide (rb_adminKey req = Some "PSYPOWER_ADMIN_2025")) then
    (fail 403 "Unauthorized", db)
  else
    match required (rb_username req) with
    | None => (fail 400 "Username must be at least 3 characters", db)
    | Some username =>
      if (str_length username <? 3)%nat then
        (fail 400 "Username must be at least 3 characters", db)
      else
        let licenseCode := generateLicenseCode env in
        match insert_user db env username licenseCode with
        | Done (id, db') =>
          (ok_json (JObj [
             ("success", JBool true);
             ("username", JStr username);
             ("license_code", JStr licenseCode);
             ("user_id", JNum id)]), db')
        | Throw message =>
          if str_includes message "UNIQUE constraint" then
            (fail 400 "Username already exists", db)
          else (fail 500 "Registration failed", db)
        end
    end.

(** POST /api/login (up to 3 devices). Each statement commits on its
    own: a statement that raises leaves the earlier ones in place, and
    the handler answers 500. *)
Definition login `{Crypto} (db : Db) (env : Env) (req : LoginBody)
    : response * Db :=
  match required (lb_username req), required (lb_password req),
        required (lb_hardware_id req) with
  | Some username, Some password, Some hardware_id =>
    match get_user_by_username db username with
    | None => (fail 401 "Invalid credentials", db)
    | Some user =>
      match required (u_password_hash user) with
      | None => (fail 401 "Invalid credentials", db)
      | Some password_hash =>
        if negb (verifyPassword password password_hash) then
          (fail 401 "Invalid credentials", db)
        else if u_is_activated user =? 0 then
          (fail 401 "License not activated. Please activate first.", db)
        else
          let devices := all_devices_of db (u_id user) in
          let existingDevice :=
            find (fun d => String.eqb (dev_hardware_id d) hardware_id)
              devices in
          let admitted : option (outcome Db) :=
            match existingDevice with
            | None =>
              if (3 <=? length devices)%nat then None
              else
                Some (insert_device db env (u_id user) hardware_id
                        ("Device " +:+
                         number_to_string (Z.of_nat (length devices) + 1)))
            | Some dev => Some (Done (touch_device db env (dev_id dev)))
            end in
          match admitted with
          | None =>
            (Response 403 (JObj [
               ("error", JStr
                  "Maximum device limit reached (3 devices). Please deactivate a device first.");
               ("device_count", JNum (Z.of_nat (length devices)))]), db)
          | Some (Throw _) => (fail 500 "Login failed", db)
          | Some (Done db1) =>
            let sessionToken := generateSessionToken env in
            let expiresAt :=
              Clock.toISOString (now env + Clock.session_validity_ms) in
            match insert_session db1 env (u_id user) sessionToken hardware_id
                    expiresAt with
            | Throw _ => (fail 500 "Login failed", db1)
            | Done db2 =>
              let db3 := touch_user db2 env (u_id user) in
              (ok_json (JObj [
                 ("success", JBool true);
                 ("session_token", JStr sessionToken);
                 ("expires_at", JStr expiresAt);
                 ("username", JStr (u_username user));
                 ("device_count",
                  JNum (match existingDevice with
                        | Some _ => Z.of_nat (length devices)
                        | None => Z.of_nat (length devices) + 1
                        end));
                 ("is_new_device",
                  JBool (match existingDevice with
                         | Some _ => false
                         | None => true
                         end))]), db3)
            end
          end
      end
    end
  | _, _, _ =>
    (fail 400 "Username, password, and hardware ID required", db)
  end.

(** POST /api/activate-license (first time setup) *)
Definition activate_license `{Crypto} (db : Db) (env : Env)
    (req : ActivateBody) : response * Db :=
  match required (ab_license_code req), required (ab_hardware_id req),
        required (ab_password req) with
  | Some license_code, Some hardware_id, Some password =>
    if (str_length password <? 6)%nat then
      (fail 400 "Password must be at least 6 characters", db)
    else
      match get_user_by_license_code db license_code with
      | None => (fail 404 "Invalid license code", db)
      | Some user =>
        if u_is_activated user =? 1 then
          (fail 400 "License already activated. Please use login instead.",
           db)
        else
          let passwordHash := hashPassword env password in
          let db1 := set_password_and_activate db passwordHash (u_id user) in
          match insert_device db1 env (u_id user) hardware_id "Device 1" with
          | Throw _ => (fail 500 "Activation failed", db1)
          | Done db2 =>
            let sessionToken := generateSessionToken env in
            let expiresAt :=
              Clock.toISOString (now env + Clock.session_validity_ms) in
            match insert_session db2 env (u_id user) sessionToken hardware_id
                    expiresAt with
            | Throw _ => (fail 500 "Activation failed", db2)
            | Done db3 =>
              (ok_json (JObj [
                 ("success", JBool true);
                 ("session_token", JStr sessionToken);
                 ("expires_at", JStr expiresAt);
                 ("username", JStr (u_username user));
                 ("message", JStr "License activated successfully")]), db3)
            end
          end
      end
  | _, _, _ =>
    (fail 400 "License code, hardware ID, and password required", db)
  end.

(** POST /api/verify-session *)
Definition verify_session (db : Db) (env : Env) (req : VerifyBody)
    : response * Db :=
  match required (vb_session_token req), required (vb_hardware_id req) with
  | Some session_token, Some hardware_id =>
    match select_sessions db env session_token hardware_id with
    | [] => (fail 401 "Invalid or expired session", db)
    | (s, u) :: _ =>
      (ok_json (JObj [
         ("valid", JBool true);
         ("username", JStr (u_username u));
         ("license_code", JStr (u_license_code u));
         ("expires_at", JStr (s_expires_at s))]), db)
    end
  | _, _ => (fail 400 "Session token and hardware ID required", db)
  end.

(** POST /api/logout *)
Definition logout (db : Db) (env : Env) (req : LogoutBody) : response * Db :=
  (ok_json (JObj [("success", JBool true)]),
   match required (ob_session_token req) with
   | Some session_token => delete_session db session_token
   | None => db
   end).

(** The requests that write to the database or depend on what the
    handlers wrote; /health and /api/user/:username only read. *)
Inductive request : Type :=
| Register (b : RegisterBody)
| Login (b : LoginBody)
| ActivateLicense (b : ActivateBody)
| VerifySession (b : VerifyBody)
| Logout (b : LogoutBody).

Definition handle `{Crypto} (db : Db) (call : Env * request)
    : response * Db :=
  match call with
  | (env, Register b) => register db env b
  | (env, Login b) => login db env b
  | (env, ActivateLicense b) => activate_license db env b
  | (env, VerifySession b) => verify_session db env b
  | (env, Logout b) => logout db env b
  end.

(** The database after a sequence of calls; the handlers are synchronous,
    so calls never interleave. *)
Definition run `{Crypto} (db : Db) (calls : list (Env * request)) : Db :=
  fold_left (fun db call => snd (handle db call)) calls db.

End Sqlite.

(** ** The security-code variant ([server.js]) *)
Module SecurityCode.
Import Js.

(** Security codes - only these codes are accepted. *)
Definition validSecurityCodes : list string :=
  ["020PSY969666POWER900";
   "030PSY969666POWER800";
   "040PSY969666POWER700";
   "050PSY969666POWER600";
   "060PSY969666POWER500";
   "070PSY969666POWER400";
   "080PSY969666POWER300";
   "090PSY969666POWER200";
   "100PSY969666POWER001";
   "200PSY969666POWER002";
   "0a2b0c9x6y9z61626392010";
   "0a2b0c9x6y9z62626392010";
   "0a2b0c9x6z9z62696392010";
   "0a2b0c9x6y9w62626392810";
   "0a2f0c9x6y9z62626390010";
   "0a2bhc9x6y9z62w26392010";
   "0a2x0c9xwy9z6262y392010";
   "⹿⺀⺁⺂⺃⺄⺅⺆⺇⺈⺉⺊⺋⺌⺍⺎⺏⺐⺑⺒⺓⺔⺕⺖⺗⺘⺙⺚⺛⭖⭗⭘⭙⭚⭛⭜⭝⭞⭟⭠⭡⭢⭣⭤⭥⭦⭧⭨⭩⭪⭫⭬⭭⭮⭯⭰⭱⭲⭳⭴⭵⭶⭷⭸⭹⭺⭻⭼⭽⭾⭿⮀⮁⮂⮃⮄⮅⮆⮇⮈⮉⮊⮋⮌⮍⮎⮏⮐⮑⮒⮓⮔⮕⮖⮗⮘⮙⮚⮛⮜⮝⮞⮟⮠⮡⮢⮣⮤⮥⮦⮧⮨⮩⮪⮫⮬⭭⭮⭯⭰⭱⭲⭳⭴⭵⭶⭷⭸⭹⭺⭻⭼⭽⭾⭿⮀⮁⮂⮃⮄⮅⮆⮇⮈⮉⮊⮋⮌⮍⮎⮏⮐⮑⮒⮓⮔⮕⮖⮗⮘⮙⮚⮛⮜⮝⮞⮟⮠⮡⮢⮣⮤⮥⮦⮧⮨⮩⮪⮫⮬⮭⮮⮯⮰⮱⮲⮳⮴⮵⮶⮷⮸⮹⮺⮻⮼⮽⮾⮿ⰀⰁⰂⰃⰄⰅⰆⰇⰈⰉⰊⰋⰌⰍⰎⰏⰐⰑⰒⰓⰔⰕⰖⰗⰘⰙⰚⰛⰜⰝⰞⰟⰠⰡⰢⰣⰤⰥⰦⰧⰨⰩⰪⰫⰬⰭⰮⰰⰱⰲⰳⰴⰵⰶⰷⰸⰹⰺⰻⰼⰽⰾⰿⱀⱁⱂⱃⱄⱅⱆⱇⱈⱉⱊⱋⱌⱍⱎⱏⱐⱑⱒⱓⱔⱕⱖⱗⱘⱙⱚⱛⱜⱝⱞⱟⱠⱡⱢⱣⱤⱥⱦⱧⱨⱩⱪⱫⱬⱭⱮⱯⱰⱱⱲⱳⱴⱵⱶⱷⱸⱹⱺⱻⱼⱽⱾⱿⲀⲁⲂⲃⲄⲅⲆⲇⲈⲉⲊⲋⲌⲍⲎⲏⲐⲑⲒⲓⲔⲕ";
   "⯿ⰀⰁⰂⰃⰄⰅⰆⰇⰈⰉⰊⰋⰌ⭖⭗⭘⭙⭚⭛⭜⭝⭞⭟⭠⭡⭢⭣⭤⭥⭦⭧⭨⭩⭪⭫⭬⭭⭮⭯⭰⭱⭲⭳⭴⭵⭶⭷⭸⭹⭺⭻⭼⭽⭾⭿⮀⮁⮂⮃⮄⮅⮆⮇⮈⮉⮊⮋⮌⮍⮎⮏⮐⮑⮒⮓⮔⮕⮖⮗⮘⮙⮚⮛⮜⮝⮞⮟⮠⮡⮢⮣⮤⮥⮦⮧⮨⮩⮪⮫⮬⮭⮮⮯⮰⮱⮲⮳⮴⮵⮶⮷⮸⮹⮺⮻⮼⮽⮾⮿⯀⯁⯂⯃⯄⯅⯆⯇⯈⯉⯊⯋⯌⯍⯎⯏⯐⯑⯒⯓⯔⯕⯖⯗⯘⯙⯚⯛⯜⯝⯞⯟⯠⯡⯢⯣⯤⯥⯦⯧⯨⯩⯪⯫⯬⯭⯮⯯⯰⯱⯲⯳⯴⯵⯶⯷⯸⯹⯺⯻⯼⯽⯾⯿ⰀⰁⰂⰃⰄⰅⰆⰇⰈⰉⰊⰋⰌⰍⰎⰏⰐⰑⰒⰓⰔⰕⰖⰗⰘⰙⰚⰛⰜⰝⰞⰟⰠⰡⰢⰣⰤⰥⰦⰧⰨⰩⰪⰫⰬⰭⰮⰰⰱⰲⰳⰴⰵⰶⰷⰸⰹⰺⰻⰼⰽⰾⰿⱀⱁⱂⱃⱄⱅⱆⱇⱈⱉⱊⱋⱌⱍⱎⱏⱐⱑⱒⱓⱔⱕⱖⱗⱘⱙⱚⱛⱜⱝⱞⱟⱠⱡⱢⱣⱤⱥⱦⱧⱨⱩⱪⱫⱬⱭⱮⱯⱰⱱⱲⱳⱴⱵⱶⱷⱸⱹⱺⱻⱼⱽⱾⱿⲀⲁⲂⲃⲄⲅⲆⲇⲈⲉⲊⲋⲌⲍⲎⲏⲐⲑⲒⲓⲔⲕ";
   "⺃⺄⺅⺆⺇⺈⺉⺊⺋⺌⺍⺎⺏⺐⺑⺒⺓⺔⺕⺖⺗⺘⺙⺚⺛⭖⭗⭘⭙⭚⭛⭜⭝⭞⭟⭠⭡⭢⭣⭤⭥⭦⭧⭨⭩⭪⭫⭬⭭⭮⭯⭰⭱⭲⭳⭴⭵⭶⭷⭸⭹⭺⭻⭼⭽⭾⭿⮀⮁⮂⮃⮄⮅⮆⮇⮈⮉⮊⮋⮌⮍⮎⮏⮐⮑⮒⮓⮔⮕⮖⮗⮘⮙⮚⮛⮜⮝⮞⮟⮠⮡⮢⮣⮤⮥⮦⮧⮨⮩⮪⮫⮬⮭⮮⮯⮰⮱⮲⮳⮴⮵⮶⭷⭸⭹⭺⭻⭼⭽⭾⭿⮀⮁⮂⮃⮄⮅⮆⮇⮈⮉⮊⮋⮌⮍⮎⮏⮐⮑⮒⮓⮔⮕⮖⮗⮘⮙⮚⮛⮜⮝⮞⮟⮠⮡⮢⮣⮤⮥⮦⮧⮨⮩⮪⮫⮬⮭⮮⮯⮰⮱⮲⮳⮴⮵⮶⮷⮸⮹⮺⮻⮼⮽⮾⮿ⰀⰁⰂⰃⰄⰅⰆⰇⰈⰉⰊⰋⰌⰍⰎⰏⰐⰑⰒⰓⰔⰕⰖⰗⰘⰙⰚⰛⰜⰝⰞⰟⰠⰡⰢⰣⰤⰥⰦⰧⰨⰩⰪⰫⰬⰭⰮⰰⰱⰲⰳⰴⰵⰶⰷⰸⰹⰺⰻⰼⰽⰾⰿⱀⱁⱂⱃⱄⱅⱆⱇⱈⱉⱊⱋⱌⱍⱎⱏⱐⱑⱒⱓⱔⱕⱖⱗⱘⱙⱚⱛⱜⱝⱞⱟⱠⱡⱢⱣⱤⱥⱦⱧⱨⱩⱪⱫⱬⱭⱮⱯⱰⱱⱲⱳⱴⱵⱶⱷⱸⱹⱺⱻⱼⱽⱾⱿⲀⲁⲂⲃⲄⲅⲆⲇⲈⲉⲊⲋⲌⲍⲎⲏⲐⲑⲒⲓⲔⲕ";
   "⮷⮸⮹⮺⮻⮼⮽⮾⮿⯀⯁⯂⯃⯄⯅⯆⯇⯈⯉⯊⯋⯌⯍⯎⯏⯐⯑⯒⯓⯔⯕⯖⯗⯘⯙⯚⯛⯜⯝⯞⯟⯠⯡⯢⯣⯤⯥⯦⯧⯨⯩⯪⯫⯬⯭⯮⯯⯰⯱⯲⯳⯴⯵⯶⯷⯸⯹⯺⯻⯼⯽⯾⯿ⰀⰁⰂⰃⰄⰅⰆⰇⰈⰉⰊⰋⰌⰍⰎⰏⰐⰑⰒⰓⰔⰕⰖⰗⰘⰙⰚⰛⰜⰝⰞⰟⰠⰡⰢⰣⰤⰥⰦⰧⰨⰩⰪⰫⰬⰭⰮⰰⰱⰲⰳⰴⰵⰶⰷⰸⰹⰺⰻⰼⰽⰾⰿⱀⱁⱂⱃⱄⱅⱆⱇⱈⱉⱊⱋⱌⱍⱎⱏⱐⱑⱒⱓⱔⱕⱖⱗⱘⱙⱚⱛⱜⱝⱞⱟⱠⱡⱢⱣⱤⱥⱦⱧⱨⱩⱪⱫⱬⱭⱮⱯⱰⱱⱲⱳⱴⱵⱶⱷⱸⱹⱺⱻⱼⱽⱾⱿⲀⲁⲂⲃⲄⲅⲆⲇⲈⲉⲊⲋⲌⲍⲎⲏⲐⲑⲒⲓⲔⲕ⹿⺀⺁⺂⺃⺄⺅⺆⺇⺈⺉⺊⺋⺌⺍⺎⺏⺐⺑⺒⺓⺔⺕⺖⺗⺘⺙⺚⺛⭖⭗⭘⭙⭚⭛⭜⭝⭞⭟⭠⭡⭢⭣⭤⭥⭦⭧⭨⭩⭪⭫⭬⭭⭮⭯⭰⭱⭲⭳⭴⭵⭶"].

(** The parsed JSON body of a request. *)
Record Body : Type := mkBody {
  b_securityCode : field;
  b_fingerprint : field;
  b_timestamp : field;
  b_code : field
}.

(** A request: [x_security_code] is [req.headers['x-security-code']] and
    [body] is [req.body], [None] when no body was parsed. *)
Record Request : Type := mkRequest {
  method : string;
  path : string;
  x_security_code : field;
  body : option Body
}.

(** What the process holds besides its constants: the lines written
    with [console.log]. *)
Record World : Type := mkWorld { console : list string }.

Record Env : Type := mkEnv { now : Clock.instant }.

Definition log (w : World) (line : string) : World :=
  mkWorld (console w ++ [line]).

(** What a middleware or handler does: pass the request on ([next()]),
    answer, or raise. *)
Inductive step : Type :=
| Next
| Answer (r : response)
| Raise (message : string).

(** [req.body?.securityCode] *)
Definition body_securityCode (req : Request) : field :=
  match body req with
  | Some b => b_securityCode b
  | None => None
  end.

(** Middleware to validate security code on all routes except health
    check. *)
Definition security_middleware (w : World) (req : Request) : step * World :=
  if String.eqb (path req) "/health" then (Next, w)
  else
    let securityCode := or_else (x_security_code req) (body_securityCode req) in
    if falsy securityCode || negb (includes validSecurityCodes securityCode)
    then
      (Answer (Response 401 (JObj [
         ("valid", JBool false);
         ("error", JStr "Unauthorized: Invalid security code")])),
       log w "[Security] Unauthorized access attempt - Invalid or missing security code")
    else (Next, w).

(** GET /health *)
Definition health (w : World) (env : Env) (req : Request) : step * World :=
  (Answer (ok_json (JObj [("status", JStr "Server is running")])), w).

(** POST /validate. Destructuring an absent body raises. *)
Definition validate (w : World) (env : Env) (req : Request) : step * World :=
  match body req with
  | None => (Raise "TypeError: Cannot destructure property of req.body", w)
  | Some b =>
    let code := b_code b in
    let isValid := includes validSecurityCodes code in
    (Answer (ok_json (JObj [("valid", JBool isValid)])),
     log w ("[Security] Validation request - Code valid: " +:+
            (if isValid then "true" else "false")))
  end.

(** POST /authenticate *)
Definition authenticate (w : World) (env : Env) (req : Request)
    : step * World :=
  match body req with
  | None => (Raise "TypeError: Cannot destructure property of req.body", w)
  | Some b =>
    if includes validSecurityCodes (b_code b) then
      (Answer (ok_json (JObj [
         ("authenticated", JBool true);
         ("message", JStr "Authentication successful")])), w)
    else
      (Answer (Response 401 (JObj [
         ("authenticated", JBool false);
         ("error", JStr "Authentication failed: Invalid security code")])), w)
  end.

(** GET /status *)
Definition server_status (w : World) (env : Env) (req : Request)
    : step * World :=
  (Answer (ok_json (JObj [
     ("status", JStr "online");
     ("timestamp", JStr (Clock.toISOString (now env)))])), w).

(** The route table, in registration order. Paths are matched as
    written; Express would also route a trailing slash or another letter
    case to the same handlers. *)
Definition route (req : Request)
    : option (World -> Env -> Request -> step * World) :=
  if String.eqb (method req) "GET" && String.eqb (path req) "/health"
  then Some health
  else if String.eqb (method req) "POST" && String.eqb (path req) "/validate"
  then Some validate
  else if String.eqb (method req) "POST"
          && String.eqb (path req) "/authenticate"
  then Some authenticate
  else if String.eqb (method req) "GET" && String.eqb (path req) "/status"
  then Some server_status
  else None.

(** The application: the middleware, then the matching route. A request
    no route matches is answered 404 and an exception 500, both by
    Express itself. *)
Definition app (w : World) (env : Env) (req : Request) : response * World :=
  match security_middleware w req with
  | (Answer r, w1) => (r, w1)
  | (Raise _, w1) => (Response 500 JNull, w1)
  | (Next, w1) =>
    match route req with
    | None => (Response 404 JNull, w1)
    | Some handler =>
      match handler w1 env req with
      | (Answer r, w2) => (r, w2)
      | (Raise _, w2) => (Response 500 JNull, w2)
      | (Next, w2) => (Response 404 JNull, w2)
      end
    end
  end.

(** The request is handed to the /validate handler. *)
Definition reaches_validate (w : World) (req : Request) : Prop :=
  fst (security_middleware w req) = Next
  /\ method req = "POST" /\ path req = "/validate".

End SecurityCode.

(** ** What the statements observe *)

(** A stand-in for PBKDF2 used to run the handlers on concrete inputs:
    the bytes of the password followed by the bytes of the salt. *)
Definition sample_crypto : Js.Crypto :=
  fun password salt _ _ _ => String.list_byte_of_string (password +:+ salt).

Module FlatFileObs.
Import Js FlatFile.

(** The registered devices of an account, none for an unknown account or
    a record without a device list. *)
Definition devices_of (d : Disk) (username : string) : list string :=
  match users d !! username with
  | Some u => default [] (u_devices u)
  | None => []
  end.

(** No account holds more than three devices. *)
Definition quota_ok (d : Disk) : Prop :=
  forall username, (length (devices_of d username) <= 3)%nat.

(** The login request gets past validation, the read of the users
    document and the credential check, for the stored record [user]. *)
Definition credentials_pass `{Crypto} (d : Disk) (env : Env) (req : LoginBody)
    (username hardwareID : string) (user : User) : Prop :=
  required (lb_username req) = Some username
  /\ required (lb_hardwareID req) = Some hardwareID
  /\ load_users_ok env = true
  /\ users d !! username = Some user
  /\ exists password,
       required (lb_password req) = Some password
       /\ verifyPassword password (u_salt user) (u_passwordHash user) = true.

Definition limit_reached (r : response) : Prop :=
  exists n,
    r = Response 403 (JObj [
          ("success", JBool false);
          ("error", JStr "Maximum device limit reached (3 devices)");
          ("devices", JNum n)]).

Definition already_activated (r : response) : Prop :=
  status r = 403
  /\ exists rest,
       body r = JObj (("success", JBool false)
                      :: ("error",
                          JStr "License already activated on another device")
                      :: rest)
       \/ body r = JObj (("success", JBool false)
                         :: ("error",
                             JStr "License already activated with different username")
                         :: rest).

End FlatFileObs.

Module SqliteObs.
Import Js Sqlite.

(** The fingerprints registered to a user id, in rowid order. *)
Definition fingerprints (db : Db) (user_id : Z) : list string :=
  map dev_hardware_id (all_devices_of db user_id).

(** No user holds more than three device rows. *)
Definition quota_ok (db : Db) : Prop :=
  forall user_id, (length (all_devices_of db user_id) <= 3)%nat.

(** What the schema and the handlers maintain and the quota rests on:
    user ids are unique and were handed out by the sequence, the
    activation flag is 0 or 1, and a device belongs to an activated
    user. *)
Record consistent (db : Db) : Prop := mkConsistent {
  cons_quota : quota_ok db;
  cons_ids : NoDup (map u_id (users db));
  cons_seq : forall u, In u (users db) -> u_id u <= seq_users db;
  cons_flag : forall u, In u (users db) ->
                u_is_activated u = 0 \/ u_is_activated u = 1;
  cons_owner : forall dv, In dv (devices db) ->
                 exists u, In u (users db) /\ u_id u = dev_user_id dv
                           /\ u_is_activated u = 1
}.

(** The login request gets past validation, the credential check and the
    activation check, for the stored row [user]. *)
Definition credentials_pass `{Crypto} (db : Db) (req : LoginBody)
    (username hardware_id : string) (user : UserRow) : Prop :=
  required (lb_username req) = Some username
  /\ required (lb_hardware_id req) = Some hardware_id
  /\ get_user_by_username db username = Some user
  /\ u_is_activated user <> 0
  /\ exists password password_hash,
       required (lb_password req) = Some password
       /\ required (u_password_hash user) = Some password_hash
       /\ verifyPassword password password_hash = true.

Definition limit_reached (r : response) : Prop :=
  exists n,
    r = Response 403 (JObj [
          ("error", JStr
             "Maximum device limit reached (3 devices). Please deactivate a device first.");
          ("device_count", JNum n)]).

(** The token drawn for this call is not the token of a stored session. *)
Definition token_fresh (db : Db) (env : Env) : Prop :=
  forall s, In s (sessions db) ->
    s_session_token s <> generateSessionToken env.

End SqliteObs.

(** ** Calendar facts checked over one 400-year cycle *)
Module ClockObs.
Import Clock.

(** The UTC day of an instant, counted from 1970-01-01. *)
Definition utc_day (t : instant) : Z := t / ms_per_day.

(** 10000-01-01T00:00Z: instants from the epoch up to here have a
    four-digit year. *)
Definition year_10000 : instant := 253402300800000.

(** The date of day [doe] of the cycle that starts on 0000-03-01. *)
Definition cycle_date (doe : Z) : Z * Z * Z :=
  let yoe := (doe - doe / 1460 + doe / 36524 - doe / 146096) / 365 in
  let doy := doe - (365 * yoe + yoe / 4 - yoe / 100) in
  let mp := (5 * doy + 2) / 153 in
  let d := doy - (153 * mp + 2) / 5 + 1 in
  let m := if mp <? 10 then mp + 3 else mp - 9 in
  (yoe + (if m <=? 2 then 1 else 0), m, d).

(** A date as one number, [yyyymmdd]. *)
Definition date_key (date : Z * Z * Z) : Z :=
  let '(y, m, d) := date in y * 10000 + m * 100 + d.

(** Day [doe] of the cycle has a well-formed date, smaller than the
    next day's. *)
Definition cycle_ok (doe : Z) : bool :=
  let '(y, m, d) := cycle_date doe in
  (0 <=? y) && (y <=? 400) && (1 <=? m) && (m <=? 12)
  && (1 <=? d) && (d <=? 31)
  && ((doe =? 146096)
      || (date_key (y, m, d) <? date_key (cycle_date (doe + 1)))).

(** [P] holds of the [n] integers from [z] on. *)
Fixpoint all_from (n : nat) (z : Z) (P : Z -> bool) : bool :=
  match n with
  | O => true
  | S k => P z && all_from k (z + 1) P
  end.

End ClockObs.

(** ** Concrete runs *)
Module Samples.
Import Js.

(** 2025-01-31T10:00:00Z *)
Definition t0 : Clock.instant := 1738317600000.

Definition flat_env (token : list byte) : FlatFile.Env :=
  FlatFile.mkEnv t0 [x01; x02] token true true true true.

Definition flat_activate (password hw : string) : FlatFile.request :=
  FlatFile.ActivateLicense
    (FlatFile.mkActivateBody (Some "PSYSTUDIO-2024-PRO") (Some "alice")
       (Some password) (Some hw)).

Definition flat_login (hw : string) : FlatFile.request :=
  FlatFile.Login
    (FlatFile.mkLoginBody (Some "alice") (Some "secret1") (Some hw)).

(** alice activates on HW1, then logs in from HW2 and from HW1; the
    last login is answered with token ["aa01"]. *)
Definition flat_calls : list (FlatFile.Env * FlatFile.request) :=
  [(flat_env [xaa; x00], flat_activate "secret1" "HW1");
   (flat_env [xaa; x02], flat_login "HW2");
   (flat_env [xaa; x01], flat_login "HW1")].

Definition flat_disk : FlatFile.Disk :=
  FlatFile.run (H := sample_crypto) FlatFile.empty_disk flat_calls.

Definition sql_env (now : Clock.instant) (token : list byte) : Sqlite.Env :=
  Sqlite.mkEnv now [x01; x02] token.

Definition sql_register : Sqlite.request :=
  Sqlite.Register
    (Sqlite.mkRegisterBody (Some "alice") (Some "PSYPOWER_ADMIN_2025")).

Definition sql_activate (password hw : string) : Sqlite.ActivateBody :=
  Sqlite.mkActivateBody (Some "0102") (Some hw) (Some password).

Definition sql_login (hw : string) : Sqlite.LoginBody :=
  Sqlite.mkLoginBody (Some "alice") (Some "secret1") (Some hw).

(** alice is registered (license code ["0102"]) and activates on HW1 at
    [t0]; the session ["aa00"] expires on 2025-03-02 at 10:00:00Z. *)
Definition sql_calls : list (Sqlite.Env * Sqlite.request) :=
  [(sql_env t0 [], sql_register);
   (sql_env t0 [xaa; x00],
    Sqlite.ActivateLicense (sql_activate "secret1" "HW1"))].

Definition sql_db : Sqlite.Db :=
  Sqlite.run (H := sample_crypto) Sqlite.empty_db sql_calls.

Definition sql_expiry : Clock.instant := t0 + Clock.session_validity_ms.

Definition sql_session : Sqlite.SessionRow :=
  Sqlite.mkSessionRow 1 1 "aa00" "HW1" (Clock.toISOString sql_expiry)
    (Clock.sqlite_datetime t0).

Definition sql_alice : Sqlite.UserRow :=
  Sqlite.mkUserRow 1 "alice"
    (Some (Sqlite.hashPassword (H := sample_crypto) (sql_env t0 [xaa; x00])
             "secret1"))
    "0102" (Clock.sqlite_datetime t0) None 1.

Definition flat_alice : FlatFile.User :=
  FlatFile.mkUser "alice"
    (FlatFile.hashPassword (H := sample_crypto) "secret1" "0102") "0102"
    "PSYSTUDIO-2024-PRO" "HW1" (Some ["HW1"; "HW2"])
    (Clock.toISOString t0) (Clock.toISOString t0).

Definition flat_license : FlatFile.License :=
  FlatFile.mkLicense "PSYSTUDIO-2024-PRO" "alice" "HW1"
    (Clock.toISOString t0) "active".

(** The sample stores once alice has logged in from a third device. *)
Definition flat_disk3 : FlatFile.Disk :=
  FlatFile.run (H := sample_crypto) flat_disk
    [(flat_env [xaa; x03], flat_login "HW3")].

Definition flat_alice3 : FlatFile.User :=
  FlatFile.mkUser "alice"
    (FlatFile.hashPassword (H := sample_crypto) "secret1" "0102") "0102"
    "PSYSTUDIO-2024-PRO" "HW1" (Some ["HW1"; "HW2"; "HW3"])
    (Clock.toISOString t0) (Clock.toISOString t0).

Definition sql_db3 : Sqlite.Db :=
  Sqlite.run (H := sample_crypto) sql_db
    [(sql_env t0 [xaa; x02], Sqlite.Login (sql_login "HW2"));
     (sql_env t0 [xaa; x03], Sqlite.Login (sql_login "HW3"))].

Definition sql_alice3 : Sqlite.UserRow :=
  Sqlite.mkUserRow 1 "alice"
    (Some (Sqlite.hashPassword (H := sample_crypto) (sql_env t0 [xaa; x00])
             "secret1"))
    "0102" (Clock.sqlite_datetime t0) (Some (Clock.sqlite_datetime t0)) 1.

Definition code_request (code : field) : SecurityCode.Request :=
  SecurityCode.mkRequest "POST" "/validate" (Some "020PSY969666POWER900")
    (Some (SecurityCode.mkBody None None None code)).

End Samples.

(** ** The remaining routes *)

(** GET /api/admin/activations of the flat-file variant. *)
Module FlatFileAdmin.
Import Js FlatFile.

(** One entry of the [users] array of the listing. *)
Record UserSummary : Type := mkUserSummary {
  us_username : string;
  us_licenseCode : string;
  us_createdAt : string;
  us_lastLogin : string;
  us_devices : Z
}.

(** [u => ({ ..., devices: u.devices ? u.devices.length : 1 })] *)
Definition summary (u : User) : UserSummary :=
  mkUserSummary (u_username u) (u_licenseCode u) (u_createdAt u)
    (u_lastLogin u)
    (match u_devices u with
     | Some devs => Z.of_nat (length devs)
     | None => 1
     end).

(** The answer of the route. In the listing the [users] array, which the
    handler builds with [Object.values(usersDB.users).map], is kept as
    the map from each username to its entry: the order of the array is
    not represented. [Unauthorized] is the 403 with
    [{ error: 'Unauthorized' }], [ServerError] the 500 with
    [{ error: 'Server error' }], and [Listing] the 200 with
    [{ success: true, licenses, users }]. *)
Inductive answer : Type :=
| Unauthorized
| ServerError
| Listing (licenses : gmap string License)
          (users : gmap string UserSummary).

(** [adminKey !== process.env.ADMIN_KEY && adminKey !== 'PSYSTUDIO-ADMIN-2024']
    on a header and an environment variable that are strings or
    [undefined]. *)
Definition key_refused (ADMIN_KEY adminKey : field) : bool :=
  negb (bool_decide (adminKey = ADMIN_KEY))
  && negb (bool_decide (adminKey = Some "PSYSTUDIO-ADMIN-2024")).

(** [ADMIN_KEY] is [process.env.ADMIN_KEY], [adminKey] the header
    [x-admin-key]. A document that cannot be read raises inside the
    handler, which answers 500. *)
Definition admin_activations (d : Disk) (env : Env) (ADMIN_KEY adminKey : field)
    : answer :=
  if key_refused ADMIN_KEY adminKey then Unauthorized
  else
    match loadDatabase (load_licenses_ok env) (licenses d),
          loadDatabase (load_users_ok env) (users d) with
    | Some licenseDB, Some usersDB => Listing licenseDB (summary <$> usersDB)
    | _, _ => ServerError
    end.

End FlatFileAdmin.

(** GET /api/user/:username of the SQLite variant. *)
Module SqliteUser.
Import Js Sqlite.

(** [SELECT user_id FROM sessions WHERE session_token = ? AND
    expires_at > datetime('now')], first row. *)
Definition get_live_session (db : Db) (env : Env) (session_token : string)
    : option SessionRow :=
  find (fun s => String.eqb (s_session_token s) session_token
                 && Clock.text_gt (s_expires_at s)
                      (Clock.sqlite_datetime (now env)))
    (sessions db).

Definition nullable (v : option string) : json :=
  match v with
  | Some s => JStr s
  | None => JNull
  end.

(** The handler, for a request whose [session_token] header is present
    ([username] is the route parameter). *)
Definition get_user (db : Db) (env : Env) (username session_token : string)
    : response :=
  match get_live_session db env session_token with
  | None => fail 401 "Unauthorized"
  | Some _ =>
    match get_user_by_username db username with
    | None => fail 404 "User not found"
    | Some user =>
      ok_json (JObj [
        ("username", JStr (u_username user));
        ("license_code", JStr (u_license_code user));
        ("created_at", JStr (u_created_at user));
        ("last_login", nullable (u_last_login user))])
    end
  end.

End SqliteUser.

(** ** Invariants of the stores *)
Module FlatFileInv.
Import Js FlatFile FlatFileObs.

(** Every stored license sits under its own code, a listed one, and
    every user under their own username. *)
Definition keyed (d : Disk) : Prop :=
  (forall code lic, licenses d !! code = Some lic ->
     In code VALID_LICENSE_CODES /\ lic_code lic = code)
  /\ (forall name u, users d !! name = Some u -> u_username u = name).

(** No device list names a fingerprint twice. *)
Definition devices_distinct (d : Disk) : Prop :=
  forall username, NoDup (devices_of d username).

(** What a record keeps for good: everything but the device list and the
    time of the last login. *)
Definition identity (u : User) : string * string * string * string * string * string :=
  (u_username u, u_passwordHash u, u_salt u, u_licenseCode u, u_hardwareID u,
   u_createdAt u).

(** The record and the license a first activation writes. *)
Definition new_user `{Crypto} (env : Env) (code username password hw : string)
    : User :=
  mkUser username (hashPassword password (generateSalt env))
    (generateSalt env) code hw (Some [hw])
    (Clock.toISOString (now env)) (Clock.toISOString (now env)).

Definition new_license (env : Env) (code username hw : string) : License :=
  mkLicense code username hw (Clock.toISOString (now env)) "active".

End FlatFileInv.

Module SqliteInv.
Import Js Sqlite SqliteObs.

(** The UNIQUE constraints of the schema. *)
Record constraints (db : Db) : Prop := mkConstraints {
  uniq_username : NoDup (map u_username (users db));
  uniq_license_code : NoDup (map u_license_code (users db));
  uniq_token : NoDup (map s_session_token (sessions db));
  uniq_device :
    NoDup (map (fun d => (dev_user_id d, dev_hardware_id d)) (devices db))
}.

(** A user who has not activated has no password. *)
Definition unactivated_without_password (db : Db) : Prop :=
  forall u, In u (users db) -> u_is_activated u = 0 ->
    u_password_hash u = None.

(** What a row keeps for good once activated. *)
Definition identity (u : UserRow) : Z * string * option string * string * Z :=
  (u_id u, u_username u, u_password_hash u, u_license_code u,
   u_is_activated u).

End SqliteInv.

(** ** More sample runs *)
Module MoreSamples.
Import Js Samples.

(** A request whose header is not listed while its body carries a listed
    [securityCode]. *)
Definition gate_request : SecurityCode.Request :=
  SecurityCode.mkRequest "POST" "/validate" (Some "letmein")
    (Some (SecurityCode.mkBody (Some "020PSY969666POWER900") None None None)).

(** A listed header with an unlisted [code] in the body. *)
Definition auth_request : SecurityCode.Request :=
  SecurityCode.mkRequest "POST" "/authenticate" (Some "020PSY969666POWER900")
    (Some (SecurityCode.mkBody None None None (Some "letmein"))).

(** The users document can be written, the license document cannot. *)
Definition flat_env_unsaved : FlatFile.Env :=
  FlatFile.mkEnv t0 [x01; x02] [] true true true false.

(** The users document cannot be written. *)
Definition flat_env_users_unsaved : FlatFile.Env :=
  FlatFile.mkEnv t0 [x01; x02] [xaa; x03] true true false true.

Definition flat_activation : FlatFile.ActivateBody :=
  FlatFile.mkActivateBody (Some "PSYSTUDIO-2024-PRO") (Some "alice")
    (Some "secret1") (Some "HW1").

Definition flat_login_body (hw : string) : FlatFile.LoginBody :=
  FlatFile.mkLoginBody (Some "alice") (Some "secret1") (Some hw).

(** alice is registered and has not activated. *)
Definition sql_registered : Sqlite.Db :=
  Sqlite.run (H := sample_crypto) Sqlite.empty_db
    [(sql_env t0 [], sql_register)].

Definition sql_alice0 : Sqlite.UserRow :=
  Sqlite.mkUserRow 1 "alice" None "0102" (Clock.sqlite_datetime t0) None 0.

(** alice and bob are registered (license codes ["0102"] and ["0304"]);
    only alice activates. *)
Definition sql_two_users : Sqlite.Db :=
  Sqlite.run (H := sample_crypto) Sqlite.empty_db
    [(sql_env t0 [], sql_register);
     (Sqlite.mkEnv t0 [x03; x04] [],
      Sqlite.Register
        (Sqlite.mkRegisterBody (Some "bob") (Some "PSYPOWER_ADMIN_2025")));
     (sql_env t0 [xaa; x00],
      Sqlite.ActivateLicense (sql_activate "secret1" "HW1"))].

Definition sql_bob : Sqlite.UserRow :=
  Sqlite.mkUserRow 2 "bob" None "0304" (Clock.sqlite_datetime t0) None 0.

End MoreSamples.

(** ** Lemmas on the JavaScript primitives *)
Section JsFacts.
Import Js.

Lemma required_Some (v : field) (s : string) :
  required v = Some s <-> v = Some s /\ s <> "".
Proof.
  unfold required. destruct v as [t|]; [|split; [discriminate|intros [? _]; discriminate]].
  destruct (String.eqb_spec t "") as [->|Hne]; split.
  - discriminate.
  - intros [[= <-] Hs]. congruence.
  - intros [= <-]. auto.
  - intros [[= <-] _]. reflexivity.
Qed.

Lemma includes_str_In (arr : list string) (s : string) :
  includes_str arr s = true <-> In s arr.
Proof.
  unfold includes_str. rewrite existsb_exists. split.
  - intros (x & Hx & Heq). apply String.eqb_eq in Heq. congruence.
  - intros Hin. exists s. split; [assumption | apply String.eqb_refl].
Qed.

Lemma includes_str_false (arr : list string) (s : string) :
  includes_str arr s = false <-> ~ In s arr.
Proof.
  rewrite <- includes_str_In. destruct (includes_str arr s); split; congruence.
Qed.

Lemma get_property_Own {A : Type} (obj : gmap string A) (key : string)
    (v : A) :
  get_property obj key = Own v <-> obj !! key = Some v.
Proof.
  unfold get_property. destruct (obj !! key) as [w|]; split.
  - by intros [= ->].
  - by intros [= ->].
  - by destruct (includes_str object_prototype_keys key).
  - discriminate.
Qed.

Lemma get_property_Undefined {A : Type} (obj : gmap string A)
    (key : string) :
  get_property obj key = Undefined
  <-> obj !! key = None /\ ~ In key object_prototype_keys.
Proof.
  unfold get_property. rewrite <- includes_str_false.
  destruct (obj !! key) as [w|]; [split; [discriminate | by intros [? _]]|].
  destruct (includes_str object_prototype_keys key); split; try done.
  by intros [_ ?].
Qed.

Lemma get_property_Inherited {A : Type} (obj : gmap string A)
    (key : string) :
  get_property obj key = Inherited
  <-> obj !! key = None /\ In key object_prototype_keys.
Proof.
  unfold get_property. rewrite <- includes_str_In.
  destruct (obj !! key) as [w|]; [split; [discriminate | by intros [? _]]|].
  destruct (includes_str object_prototype_keys key); split; try done.
  by intros [_ ?].
Qed.

End JsFacts.

(** ** The device quota of the flat-file variant *)
Section FlatFileQuota.
Import Js FlatFile FlatFileObs.
Context `{Crypto}.

Lemma admit_device_length (devices : option (list string)) (hw : string)
    (devs : list string) :
  (length (default [] devices) <= 3)%nat ->
  admit_device devices hw = Some devs ->
  (length devs <= 3)%nat.
Proof.
  unfold admit_device. intros Hl Heq.
  destruct devices as [l|]; simpl in Hl; repeat case_match; simplify_eq;
    rewrite ?length_app; simpl; try lia.
  match goal with Hc : (3 <=? _)%nat = false |- _ => apply Nat.leb_gt in Hc end.
  lia.
Qed.

Lemma devices_of_insert (d : Disk) (lics : gmap string License)
    (name other : string) (u : User) :
  devices_of (mkDisk lics (<[name := u]> (users d))) other =
  if decide (name = other) then default [] (u_devices u)
  else devices_of d other.
Proof.
  unfold devices_of. simpl. rewrite lookup_insert.
  destruct (decide (name = other)); reflexivity.
Qed.

Lemma devices_of_same_users (d : Disk) (lics : gmap string License)
    (other : string) :
  devices_of (mkDisk lics (users d)) other = devices_of d other.
Proof. reflexivity. Qed.

Lemma login_quota (d : Disk) (env : Env) (req : LoginBody) :
  quota_ok d -> quota_ok (snd (login d env req)).
Proof.
  intros Hq. unfold login.
  destruct (required (lb_username req)) as [username|]; [|exact Hq].
  repeat (case_match; try exact Hq).
  simpl. unfold saveDatabase in *.
  destruct (save_users_ok env); simplify_eq; [|exact Hq].
  unfold loadDatabase in *. destruct (load_users_ok env); simplify_eq.
  intros other. rewrite devices_of_insert. case_decide; [|apply Hq].
  simpl. eapply admit_device_length; [|eassumption].
  specialize (Hq username). unfold devices_of in Hq.
  match goal with
  | Hu : get_property (users d) _ = Own _ |- _ =>
    apply get_property_Own in Hu; rewrite Hu in Hq
  end.
  exact Hq.
Qed.

Lemma activate_license_quota (d : Disk) (env : Env) (req : ActivateBody) :
  quota_ok d -> quota_ok (snd (activate_license d env req)).
Proof.
  intros Hq. unfold activate_license.
  repeat (case_match; try exact Hq); simpl;
    unfold saveDatabase, loadDatabase in *;
    destruct (save_users_ok env), (save_licenses_ok env),
      (load_users_ok env), (load_licenses_ok env); simplify_eq;
    try exact Hq;
    intros other; rewrite ?devices_of_insert, ?devices_of_same_users;
    try case_decide; simpl; try apply Hq; lia.
Qed.

Lemma handle_quota (d : Disk) (call : Env * request) :
  quota_ok d -> quota_ok (snd (handle d call)).
Proof.
  intros Hq. destruct call as [env [b|b|b|b]]; simpl.
  - by apply activate_license_quota.
  - by apply login_quota.
  - unfold verify_session. repeat case_match; exact Hq.
  - unfold check_license. repeat case_match; exact Hq.
Qed.

Lemma run_quota (calls : list (Env * request)) (d : Disk) :
  quota_ok d -> quota_ok (run d calls).
Proof.
  revert d. induction calls as [|call calls IH]; intros d Hq; [exact Hq|].
  apply IH. by apply handle_quota.
Qed.

Lemma empty_disk_quota : quota_ok empty_disk.
Proof. intros u. unfold devices_of. simpl. rewrite lookup_empty. simpl. lia. Qed.

End FlatFileQuota.

(** ** The device quota of the SQLite variant *)
Section SqliteQuota.
Import Js Sqlite SqliteObs.
Context `{Crypto}.

Lemma find_In {A : Type} (f : A -> bool) (l : list A) (x : A) :
  find f l = Some x -> In x l /\ f x = true.
Proof. apply find_some. Qed.

Lemma all_devices_of_app (db : Db) (us : list UserRow) (ss : list SessionRow)
    (row : DeviceRow) (a b c uid : Z) :
  all_devices_of (mkDb us (devices db ++ [row]) ss a b c) uid =
  all_devices_of db uid ++ (if decide (dev_user_id row = uid) then [row] else []).
Proof.
  unfold all_devices_of. simpl. by rewrite filter_app.
Qed.

Lemma all_devices_of_same (db : Db) (us : list UserRow) (ss : list SessionRow)
    (a b c uid : Z) :
  all_devices_of (mkDb us (devices db) ss a b c) uid = all_devices_of db uid.
Proof. reflexivity. Qed.

Lemma filter_map_user_id (f : DeviceRow -> DeviceRow) (l : list DeviceRow)
    (uid : Z) :
  (forall d, dev_user_id (f d) = dev_user_id d) ->
  filter (fun d => dev_user_id d = uid) (map f l) =
  map f (filter (fun d => dev_user_id d = uid) l).
Proof.
  intros Hf. induction l as [|d l IH]; [reflexivity|].
  simpl. rewrite !filter_cons, Hf. case_decide; simpl; by rewrite IH.
Qed.

Lemma all_devices_of_touch (db : Db) (env : Env) (id uid : Z) :
  all_devices_of (touch_device db env id) uid =
  map (fun d =>
         if dev_id d =? id then
           mkDeviceRow (dev_id d) (dev_user_id d) (dev_hardware_id d)
             (dev_device_name d) (dev_first_seen d)
             (Clock.sqlite_datetime (now env))
         else d) (all_devices_of db uid).
Proof.
  unfold all_devices_of, touch_device. simpl.
  apply filter_map_user_id. intros d. by destruct (dev_id d =? id).
Qed.

Lemma fingerprints_touch (db : Db) (env : Env) (id uid : Z) :
  fingerprints (touch_device db env id) uid = fingerprints db uid.
Proof.
  unfold fingerprints. rewrite all_devices_of_touch, map_map.
  apply map_ext. intros d. by destruct (dev_id d =? id).
Qed.

(** A rewrite of the users table that keeps every id and only raises
    activation flags to 1 keeps the database consistent. *)
Lemma consistent_map_users (db : Db) (f : UserRow -> UserRow) :
  (forall u, u_id (f u) = u_id u) ->
  (forall u, u_is_activated (f u) = u_is_activated u
             \/ u_is_activated (f u) = 1) ->
  consistent db ->
  consistent (mkDb (map f (users db)) (devices db) (sessions db)
                (seq_users db) (seq_devices db) (seq_sessions db)).
Proof.
  intros Hid Hflag [Hq Hids Hseq Hfl Hown]. split; simpl.
  - exact Hq.
  - rewrite map_map. erewrite map_ext; [exact Hids|]. intros u. apply Hid.
  - intros u Hu. apply in_map_iff in Hu as (u0 & <- & Hu0).
    rewrite Hid. by apply Hseq.
  - intros u Hu. apply in_map_iff in Hu as (u0 & <- & Hu0).
    destruct (Hflag u0) as [-> | ->]; [by apply Hfl | by right].
  - intros dv Hdv. destruct (Hown dv Hdv) as (u & Hu & Hi & Ha).
    exists (f u). split; [by apply in_map|]. split; [by rewrite Hid|].
    destruct (Hflag u) as [-> | ->]; [exact Ha | reflexivity].
Qed.

Lemma touch_user_consistent (db : Db) (env : Env) (id : Z) :
  consistent db -> consistent (touch_user db env id).
Proof.
  apply consistent_map_users; intros u; destruct (u_id u =? id); auto.
Qed.

Lemma set_password_and_activate_consistent (db : Db) (h : string) (id : Z) :
  consistent db -> consistent (set_password_and_activate db h id).
Proof.
  apply consistent_map_users; intros u; destruct (u_id u =? id); auto.
Qed.

Lemma touch_device_consistent (db : Db) (env : Env) (id : Z) :
  consistent db -> consistent (touch_device db env id).
Proof.
  intros [Hq Hids Hseq Hfl Hown]. split; try assumption.
  - intros uid. rewrite all_devices_of_touch, length_map. apply Hq.
  - intros dv Hdv. simpl in Hdv. apply in_map_iff in Hdv as (d0 & <- & Hd0).
    destruct (Hown d0 Hd0) as (u & Hu & Hi & Ha). exists u.
    split; [exact Hu|]. split; [|exact Ha]. by destruct (dev_id d0 =? id).
Qed.

Lemma insert_session_consistent (db db' : Db) (env : Env) (uid : Z)
    (tok hw exp : string) :
  insert_session db env uid tok hw exp = Done db' ->
  consistent db -> consistent db'.
Proof.
  unfold insert_session. case_match; [discriminate|]. intros [= <-].
  intros [Hq Hids Hseq Hfl Hown]. split; assumption.
Qed.

Lemma insert_session_devices (db db' : Db) (env : Env) (uid : Z)
    (tok hw exp : string) :
  insert_session db env uid tok hw exp = Done db' ->
  devices db' = devices db /\ users db' = users db.
Proof.
  unfold insert_session. case_match; [discriminate|]. by intros [= <-].
Qed.

Lemma delete_session_consistent (db : Db) (tok : string) :
  consistent db -> consistent (delete_session db tok).
Proof. intros [Hq Hids Hseq Hfl Hown]. split; assumption. Qed.

(** Registering a device for an activated user below the quota. *)
Lemma insert_device_consistent (db db' : Db) (env : Env) (u : UserRow)
    (hw name : string) :
  insert_device db env (u_id u) hw name = Done db' ->
  In u (users db) -> u_is_activated u = 1 ->
  (length (all_devices_of db (u_id u)) < 3)%nat ->
  consistent db -> consistent db'.
Proof.
  unfold insert_device. case_match; [discriminate|]. intros [= <-].
  intros Hu Ha Hlt [Hq Hids Hseq Hfl Hown]. split; try assumption.
  - intros uid. rewrite all_devices_of_app. simpl. case_decide.
    + subst uid. rewrite length_app. simpl. lia.
    + rewrite app_nil_r. apply Hq.
  - simpl. intros dv Hdv. apply in_app_iff in Hdv as [Hdv | [<- | []]].
    + by apply Hown.
    + exists u. by simpl.
Qed.

Lemma insert_device_devices (db db' : Db) (env : Env) (uid : Z)
    (hw name : string) :
  insert_device db env uid hw name = Done db' ->
  exists row,
    devices db' = devices db ++ [row]
    /\ dev_user_id row = uid /\ dev_hardware_id row = hw
    /\ users db' = users db /\ sessions db' = sessions db.
Proof.
  unfold insert_device. case_match; [discriminate|]. intros [= <-].
  eexists. simpl. repeat split; reflexivity.
Qed.

(** Two rows with the same id are the same row. *)
Lemma same_id_same_row (us : list UserRow) (u v : UserRow) :
  NoDup (map u_id us) -> In u us -> In v us -> u_id u = u_id v -> u = v.
Proof.
  induction us as [|w us IH]; [intros _ []|].
  simpl. intros Hnd [-> | Hu] [-> | Hv] Hid; [reflexivity| | |].
  - apply NoDup_cons in Hnd as [Hnotin _]. exfalso. apply Hnotin.
    rewrite Hid. apply list_elem_of_In. by apply in_map.
  - apply NoDup_cons in Hnd as [Hnotin _]. exfalso. apply Hnotin.
    rewrite <- Hid. apply list_elem_of_In. by apply in_map.
  - apply NoDup_cons in Hnd as [_ Hnd]. by apply IH.
Qed.

(** A user that is not activated has no device. *)
Lemma unactivated_no_device (db : Db) (u : UserRow) :
  consistent db -> In u (users db) -> u_is_activated u <> 1 ->
  all_devices_of db (u_id u) = [].
Proof.
  intros [Hq Hids Hseq Hfl Hown] Hu Hna.
  unfold all_devices_of.
  destruct (filter _ (devices db)) as [|dv rest] eqn:Hf; [reflexivity|].
  exfalso.
  assert (Hin : dv ∈ filter (fun d => dev_user_id d = u_id u) (devices db))
    by (rewrite Hf; left).
  apply list_elem_of_filter in Hin as [Hid Hdv].
  apply list_elem_of_In in Hdv.
  destruct (Hown dv Hdv) as (v & Hv & Hvid & Hva).
  assert (u = v) by (eapply same_id_same_row; eauto; congruence).
  congruence.
Qed.

Lemma register_consistent (db : Db) (env : Env) (req : RegisterBody) :
  consistent db -> consistent (snd (register db env req)).
Proof.
  intros Hc. unfold register. repeat (case_match; try exact Hc). simpl.
  match goal with Hi : insert_user _ _ _ _ = Done _ |- _ =>
    unfold insert_user in Hi; repeat case_match; simplify_eq end.
  destruct Hc as [Hq Hids Hseq Hfl Hown]. split; simpl.
  - exact Hq.
  - rewrite map_app. simpl. apply NoDup_app. split; [exact Hids|].
    split; [|apply NoDup_singleton].
    intros x Hx ->%list_elem_of_singleton. apply list_elem_of_In in Hx.
    apply in_map_iff in Hx as (u & Hu & Hin). apply Hseq in Hin. lia.
  - intros u [Hu | [<- | []]]%in_app_iff; simpl; [apply Hseq in Hu|]; lia.
  - intros u [Hu | [<- | []]]%in_app_iff; simpl; [by apply Hfl | by left].
  - intros dv Hdv. destruct (Hown dv Hdv) as (u & Hu & Hr). exists u.
    split; [apply in_app_iff; by left | exact Hr].
Qed.

Lemma login_consistent (db : Db) (env : Env) (req : LoginBody) :
  consistent db -> consistent (snd (login db env req)).
Proof.
  intros Hc. unfold login.
  repeat (case_match; try exact Hc); simplify_eq; simpl.
  all: repeat match goal with
       | Hf : get_user_by_username _ _ = Some _ |- _ =>
           apply find_In in Hf as [? _]
       | Hz : (_ =? 0) = false |- _ => apply Z.eqb_neq in Hz
       | Hl : (3 <=? _)%nat = false |- _ => apply Nat.leb_gt in Hl
       end.
  all: try apply touch_user_consistent.
  all: try (eapply insert_session_consistent; [eassumption|]).
  all: try apply touch_device_consistent; try exact Hc.
  all: eapply insert_device_consistent; try eassumption.
  all: match goal with
       | Hu : In ?u (users ?d), Hd : consistent ?d |- u_is_activated ?u = 1 =>
         destruct (cons_flag d Hd u Hu); [congruence | assumption]
       end.
Qed.

Lemma activate_license_consistent (db : Db) (env : Env)
    (req : ActivateBody) :
  consistent db -> consistent (snd (activate_license db env req)).
Proof.
  intros Hc. unfold activate_license.
  repeat (case_match; try exact Hc); simplify_eq; simpl.
  all: repeat match goal with
       | Hf : get_user_by_license_code _ _ = Some _ |- _ =>
           apply find_In in Hf as [? _]
       | Hz : (_ =? 1) = false |- _ => apply Z.eqb_neq in Hz
       end.
  all: try (eapply insert_session_consistent; [eassumption|]).
  all: try (by apply set_password_and_activate_consistent).
  all: match goal with
       | Hi : insert_device _ _ (u_id ?u) _ _ = Done _,
         Hd : consistent ?d |- _ =>
         pose proof (unactivated_no_device d u Hd ltac:(assumption)
                       ltac:(assumption)) as Hnone;
         eapply (insert_device_consistent _ _ _
                   (mkUserRow (u_id u) (u_username u)
                      (Some (hashPassword env _)) (u_license_code u)
                      (u_created_at u) (u_last_login u) 1));
         [exact Hi | | reflexivity | |
          by apply set_password_and_activate_consistent]
       end.
  all: simpl.
  - apply in_map_iff. eexists. split; [|eassumption]. simpl.
    by rewrite Z.eqb_refl.
  - unfold set_password_and_activate. rewrite all_devices_of_same, Hnone.
    simpl. lia.
  - apply in_map_iff. eexists. split; [|eassumption]. simpl.
    by rewrite Z.eqb_refl.
  - unfold set_password_and_activate. rewrite all_devices_of_same, Hnone.
    simpl. lia.
Qed.

Lemma handle_consistent (db : Db) (call : Env * request) :
  consistent db -> consistent (snd (handle db call)).
Proof.
  intros Hc. destruct call as [env [b|b|b|b|b]]; simpl.
  - by apply register_consistent.
  - by apply login_consistent.
  - by apply activate_license_consistent.
  - unfold verify_session. repeat case_match; exact Hc.
  - case_match; [by apply delete_session_consistent | exact Hc].
Qed.

Lemma run_consistent (calls : list (Env * request)) (db : Db) :
  consistent db -> consistent (run db calls).
Proof.
  revert db. induction calls as [|call calls IH]; intros db Hc; [exact Hc|].
  apply IH. by apply handle_consistent.
Qed.

Lemma empty_db_consistent : consistent empty_db.
Proof.
  split; simpl.
  - intros uid. unfold all_devices_of. simpl. lia.
  - apply NoDup_nil_2.
  - intros u [].
  - intros u [].
  - intros dv [].
Qed.

End SqliteQuota.

(** ** Device admission at login *)
Section FlatFileAdmission.
Import Js FlatFile FlatFileObs.
Context `{Crypto}.
#[local] Arguments Nat.leb : simpl never.

Lemma flat_login_known_device (d : Disk) (env : Env) (req : LoginBody)
    (username hw : string) (user : User) :
  credentials_pass d env req username hw user ->
  In hw (devices_of d username) ->
  status (fst (login d env req)) = 200
  /\ devices_of (snd (login d env req)) username = devices_of d username.
Proof.
  intros (Hn & Hh & Hl & Hu & pw & Hp & Hv) Hin.
  unfold login. rewrite Hn, Hp, Hh, Hl. simpl.
  rewrite (proj2 (get_property_Own _ _ _) Hu), Hv. simpl.
  unfold devices_of in Hin |- *. rewrite Hu in Hin |- *.
  destruct (u_devices user) as [devs|] eqn:Hd; [|destruct Hin].
  simpl in Hin. apply includes_str_In in Hin. simpl. rewrite Hin. simpl.
  unfold saveDatabase. destruct (save_users_ok env); simpl.
  - by rewrite lookup_insert_eq.
  - by rewrite Hu, Hd.
Qed.

Lemma flat_login_limit (d : Disk) (env : Env) (req : LoginBody)
    (username hw : string) (user : User) :
  credentials_pass d env req username hw user ->
  ~ In hw (devices_of d username) ->
  (3 <= length (devices_of d username))%nat ->
  limit_reached (fst (login d env req)) /\ snd (login d env req) = d.
Proof.
  intros (Hn & Hh & Hl & Hu & pw & Hp & Hv) Hin Hlen.
  unfold login. rewrite Hn, Hp, Hh, Hl. simpl.
  rewrite (proj2 (get_property_Own _ _ _) Hu), Hv. simpl.
  unfold devices_of in Hin, Hlen. rewrite Hu in Hin, Hlen.
  destruct (u_devices user) as [devs|] eqn:Hd; simpl in *; [|lia].
  apply includes_str_false in Hin. rewrite Hin. simpl.
  apply Nat.leb_le in Hlen. rewrite Hlen. simpl.
  split; [eexists; reflexivity | reflexivity].
Qed.

Lemma flat_login_new_device (d : Disk) (env : Env) (req : LoginBody)
    (username hw : string) (user : User) :
  credentials_pass d env req username hw user ->
  ~ In hw (devices_of d username) ->
  (length (devices_of d username) < 3)%nat ->
  status (fst (login d env req)) = 200
  /\ (save_users_ok env = true ->
      devices_of (snd (login d env req)) username =
      devices_of d username ++ [hw]).
Proof.
  intros (Hn & Hh & Hl & Hu & pw & Hp & Hv) Hin Hlen.
  unfold login. rewrite Hn, Hp, Hh, Hl. simpl.
  rewrite (proj2 (get_property_Own _ _ _) Hu), Hv. simpl.
  unfold devices_of in Hin, Hlen |- *. rewrite Hu in Hin, Hlen |- *.
  destruct (u_devices user) as [devs|] eqn:Hd; simpl in *.
  - apply includes_str_false in Hin. rewrite Hin. simpl.
    apply Nat.leb_gt in Hlen. rewrite Hlen. simpl.
    unfold saveDatabase. destruct (save_users_ok env); simpl.
    + split; [reflexivity|]. intros _. by rewrite lookup_insert_eq.
    + split; [reflexivity | discriminate].
  - unfold saveDatabase. destruct (save_users_ok env); simpl.
    + split; [reflexivity|]. intros _. by rewrite lookup_insert_eq.
    + split; [reflexivity | discriminate].
Qed.

End FlatFileAdmission.

Section SqliteAdmission.
Import Js Sqlite SqliteObs.
Context `{Crypto}.
#[local] Arguments Nat.leb : simpl never.

Lemma find_fingerprint_Some (l : list DeviceRow) (hw : string) :
  In hw (map dev_hardware_id l) ->
  exists dv, find (fun d => String.eqb (dev_hardware_id d) hw) l = Some dv.
Proof.
  induction l as [|d l IH]; [intros []|]. simpl.
  destruct (String.eqb_spec (dev_hardware_id d) hw) as [_|Hne].
  - intros _. by eexists.
  - intros [Heq | Hin]; [congruence | by apply IH].
Qed.

Lemma find_fingerprint_None (l : list DeviceRow) (hw : string) :
  ~ In hw (map dev_hardware_id l) ->
  find (fun d => String.eqb (dev_hardware_id d) hw) l = None.
Proof.
  induction l as [|d l IH]; [reflexivity|]. simpl. intros Hn.
  destruct (String.eqb_spec (dev_hardware_id d) hw) as [Heq|Hne].
  - exfalso. apply Hn. by left.
  - apply IH. intros Hin. apply Hn. by right.
Qed.

(** The UNIQUE(user_id, hardware_id) check passes for a fingerprint the
    user does not hold. *)
Lemma unique_device_check (db : Db) (uid : Z) (hw : string) :
  ~ In hw (fingerprints db uid) ->
  existsb (fun d => (dev_user_id d =? uid)
                    && String.eqb (dev_hardware_id d) hw) (devices db) = false.
Proof.
  unfold fingerprints, all_devices_of.
  induction (devices db) as [|d l IH]; [reflexivity|].
  rewrite filter_cons. simpl. intros Hn.
  destruct (Z.eqb_spec (dev_user_id d) uid) as [Hu|Hu]; simpl.
  - rewrite decide_True in Hn by exact Hu. simpl in Hn.
    destruct (String.eqb_spec (dev_hardware_id d) hw) as [Hh|Hh].
    + exfalso. apply Hn. by left.
    + apply IH. intros Hin. apply Hn. by right.
  - rewrite decide_False in Hn by exact Hu. by apply IH.
Qed.

Lemma insert_session_fresh (db : Db) (env : Env) (uid : Z)
    (tok hw exp : string) :
  (forall s, In s (sessions db) -> s_session_token s <> tok) ->
  exists db', insert_session db env uid tok hw exp = Done db'.
Proof.
  intros Hfresh. unfold insert_session.
  destruct (existsb _ (sessions db)) eqn:He; [|by eexists].
  apply existsb_exists in He as (s & Hs & Heq).
  apply String.eqb_eq in Heq. by destruct (Hfresh s Hs).
Qed.

Lemma sqlite_login_known_device (db : Db) (env : Env) (req : LoginBody)
    (username hw : string) (user : UserRow) :
  credentials_pass db req username hw user ->
  In hw (fingerprints db (u_id user)) ->
  fingerprints (snd (login db env req)) (u_id user) =
    fingerprints db (u_id user)
  /\ (token_fresh db env -> status (fst (login db env req)) = 200).
Proof.
  intros (Hn & Hh & Hu & Ha & pw & ph & Hp & Hph & Hv) Hin.
  unfold login. rewrite Hn, Hp, Hh, Hu, Hph, Hv. simpl.
  apply Z.eqb_neq in Ha. rewrite Ha.
  destruct (find_fingerprint_Some _ _ Hin) as [dv ->].
  split.
  - destruct (insert_session _ _ _ _ _ _) as [db2|msg] eqn:Hi; simpl.
    + apply insert_session_devices in Hi as [Hd _].
      unfold fingerprints, all_devices_of in *. simpl. rewrite Hd.
      apply (fingerprints_touch db env (dev_id dv) (u_id user)).
    + apply fingerprints_touch.
  - intros Hfresh.
    destruct (insert_session_fresh (touch_device db env (dev_id dv)) env
                (u_id user) (generateSessionToken env) hw
                (Clock.toISOString (now env + Clock.session_validity_ms))
                Hfresh) as [db2 ->].
    reflexivity.
Qed.

Lemma sqlite_login_limit (db : Db) (env : Env) (req : LoginBody)
    (username hw : string) (user : UserRow) :
  credentials_pass db req username hw user ->
  ~ In hw (fingerprints db (u_id user)) ->
  (3 <= length (fingerprints db (u_id user)))%nat ->
  limit_reached (fst (login db env req)) /\ snd (login db env req) = db.
Proof.
  intros (Hn & Hh & Hu & Ha & pw & ph & Hp & Hph & Hv) Hin Hlen.
  unfold login. rewrite Hn, Hp, Hh, Hu, Hph, Hv. simpl.
  apply Z.eqb_neq in Ha. rewrite Ha.
  rewrite (find_fingerprint_None _ _ Hin).
  unfold fingerprints in Hlen. rewrite length_map in Hlen.
  apply Nat.leb_le in Hlen. rewrite Hlen. simpl.
  split; [eexists; reflexivity | reflexivity].
Qed.

Lemma sqlite_login_new_device (db : Db) (env : Env) (req : LoginBody)
    (username hw : string) (user : UserRow) :
  credentials_pass db req username hw user ->
  ~ In hw (fingerprints db (u_id user)) ->
  (length (fingerprints db (u_id user)) < 3)%nat ->
  fingerprints (snd (login db env req)) (u_id user) =
    fingerprints db (u_id user) ++ [hw]
  /\ (token_fresh db env -> status (fst (login db env req)) = 200).
Proof.
  intros (Hn & Hh & Hu & Ha & pw & ph & Hp & Hph & Hv) Hin Hlen.
  unfold login. rewrite Hn, Hp, Hh, Hu, Hph, Hv. simpl.
  apply Z.eqb_neq in Ha. rewrite Ha.
  rewrite (find_fingerprint_None _ _ Hin).
  unfold fingerprints in Hlen. rewrite length_map in Hlen.
  apply Nat.leb_gt in Hlen. rewrite Hlen.
  pose proof (unique_device_check db (u_id user) hw Hin) as Huniq.
  destruct (insert_device db env (u_id user) hw _) as [db1|msg] eqn:Hi;
    [|unfold insert_device in Hi; rewrite Huniq in Hi; discriminate].
  destruct (insert_device_devices _ _ _ _ _ _ Hi)
    as (row & Hd & Hru & Hrh & Hus & Hss).
  assert (Hfp : fingerprints db1 (u_id user) =
                fingerprints db (u_id user) ++ [hw]).
  { unfold fingerprints, all_devices_of. rewrite Hd, filter_app, map_app.
    rewrite filter_cons, decide_True by exact Hru. simpl. by rewrite Hrh. }
  split.
  - destruct (insert_session db1 _ _ _ _ _) as [db2|msg] eqn:Hs; simpl;
      [|exact Hfp].
    apply insert_session_devices in Hs as [Hd2 _].
    unfold fingerprints, all_devices_of in *. simpl. by rewrite Hd2.
  - intros Hfresh.
    destruct (insert_session_fresh db1 env (u_id user)
                (generateSessionToken env) hw
                (Clock.toISOString (now env + Clock.session_validity_ms)))
      as [db2 ->]; [|reflexivity].
    rewrite Hss. exact Hfresh.
Qed.

End SqliteAdmission.

(** ** Activation of a license that is already activated *)
Section FlatFileActivation.
Import Js FlatFile FlatFileObs.
Context `{Crypto}.

(** For a listed code, [licenseDB.licenses[code]] finds an own entry or
    nothing: no listed code names a property of [Object.prototype]. *)
Lemma listed_code_lookup {A : Type} (obj : gmap string A) (code : string) :
  In code VALID_LICENSE_CODES ->
  get_property obj code =
  match obj !! code with
  | Some v => Own v
  | None => Undefined
  end.
Proof.
  intros Hin. unfold get_property. destruct (obj !! code); [reflexivity|].
  simpl in Hin. destruct Hin as [<- | [<- | [<- | []]]]; reflexivity.
Qed.

Lemma flat_reactivation (d : Disk) (env : Env) (req : ActivateBody)
    (code username password hw : string) (lic : License) :
  required (ab_code req) = Some code ->
  required (ab_username req) = Some username ->
  required (ab_password req) = Some password ->
  required (ab_hardwareID req) = Some hw ->
  In code VALID_LICENSE_CODES ->
  load_licenses_ok env = true -> load_users_ok env = true ->
  licenses d !! code = Some lic ->
  lic_hardwareID lic = hw -> lic_username lic = username ->
  activate_license d env req =
  (ok_json (JObj [
     ("success", JBool true);
     ("message", JStr "License re-activated");
     ("licenseType", licenseType code);
     ("user", JObj [
        ("username", JStr username);
        ("activatedAt", JStr (lic_activatedAt lic))])]), d).
Proof.
  intros Hc Hn Hp Hh Hvalid Hll Hlu Hlic <- <-.
  unfold activate_license. rewrite Hc, Hn, Hp, Hh.
  apply includes_str_In in Hvalid. rewrite Hvalid, Hll, Hlu. simpl.
  rewrite Hlic, !String.eqb_refl. reflexivity.
Qed.

Lemma truthy_required (v : field) :
  truthy v = true -> exists s, required v = Some s /\ v = Some s.
Proof.
  unfold truthy, falsy, required. destruct v as [s|]; [|discriminate].
  destruct (String.eqb s ""); [discriminate|]. by exists s.
Qed.

Lemma flat_activation_mismatch (d : Disk) (env : Env) (req : ActivateBody)
    (code : string) (lic : License) :
  ab_code req = Some code ->
  licenses d !! code = Some lic ->
  ab_hardwareID req <> Some (lic_hardwareID lic)
  \/ ab_username req <> Some (lic_username lic) ->
  status (fst (activate_license d env req)) <> 200
  /\ snd (activate_license d env req) = d
  /\ (truthy (ab_username req) = true -> truthy (ab_password req) = true ->
      truthy (ab_hardwareID req) = true -> In code VALID_LICENSE_CODES ->
      load_licenses_ok env = true -> load_users_ok env = true ->
      already_activated (fst (activate_license d env req))).
Proof.
  intros Hc Hlic Hdiff.
  assert (Hab : status (fst (activate_license d env req)) <> 200
                /\ snd (activate_license d env req) = d).
  { unfold activate_license, loadDatabase.
    repeat case_match; simplify_eq; simpl;
      try (split; [discriminate | reflexivity]).
    all: exfalso.
    all: repeat match goal with
           | Hr : required _ = Some _ |- _ =>
               apply required_Some in Hr as [Hr _]
           | He : negb (String.eqb _ _) = false |- _ =>
               apply negb_false_iff, String.eqb_eq in He
           end.
    all: rewrite Hc in *; simplify_eq.
    destruct Hdiff as [Hd|Hd]; apply Hd; congruence. }
  destruct Hab as [Ha Hb]. split; [exact Ha|]. split; [exact Hb|].
  intros Hn Hp Hh Hvalid Hll Hlu. unfold activate_license, already_activated.
  destruct (truthy_required _ Hn) as (username & -> & Hn').
  destruct (truthy_required _ Hp) as (password & -> & _).
  destruct (truthy_required _ Hh) as (hw & -> & Hh').
  assert (Hrc : required (ab_code req) = Some code).
  { rewrite Hc. apply required_Some. split; [reflexivity|]. intros ->.
    simpl in Hvalid. intuition discriminate. }
  rewrite Hrc. apply includes_str_In in Hvalid. rewrite Hvalid, Hll, Hlu.
  simpl. rewrite Hlic.
  destruct (String.eqb_spec (lic_hardwareID lic) hw) as [Hhw|Hhw]; simpl.
  - destruct (String.eqb_spec (lic_username lic) username) as [Hun|Hun]; simpl.
    + exfalso. destruct Hdiff as [Hd|Hd]; apply Hd; congruence.
    + split; [reflexivity|]. eexists. right. reflexivity.
  - split; [reflexivity|]. eexists. left. reflexivity.
Qed.

End FlatFileActivation.

Section SqliteActivation.
Import Js Sqlite SqliteObs.
Context `{Crypto}.

(** An activated license is never activated again, whatever the
    fingerprint and the password. *)
Lemma sqlite_activation_rejected (db : Db) (env : Env) (req : ActivateBody)
    (code : string) (u : UserRow) :
  required (ab_license_code req) = Some code ->
  get_user_by_license_code db code = Some u ->
  u_is_activated u = 1 ->
  status (fst (activate_license db env req)) <> 200
  /\ snd (activate_license db env req) = db
  /\ (forall password,
      truthy (ab_hardware_id req) = true ->
      required (ab_password req) = Some password ->
      (6 <= str_length password)%nat ->
      fst (activate_license db env req) =
      fail 400 "License already activated. Please use login instead.").
Proof.
  intros Hc Hu Ha. unfold activate_license. rewrite Hc.
  split; [|split].
  - repeat case_match; simplify_eq; simpl; try discriminate.
    all: rewrite Ha in *; discriminate.
  - repeat case_match; simplify_eq; simpl; try reflexivity.
    all: rewrite Ha in *; discriminate.
  - intros password Hh Hp Hlen.
    destruct (truthy_required _ Hh) as (hw & Hh' & _).
    rewrite Hh', Hp.
    apply Nat.ltb_ge in Hlen. rewrite Hlen, Hu, Ha. reflexivity.
Qed.

(** A password shorter than 6 characters ([password.length], UTF-16 code
    units) is refused before anything is read or written. *)
Lemma sqlite_weak_password (db : Db) (env : Env) (req : ActivateBody)
    (password : string) :
  truthy (ab_license_code req) = true ->
  truthy (ab_hardware_id req) = true ->
  required (ab_password req) = Some password ->
  (str_length password < 6)%nat ->
  activate_license db env req =
  (fail 400 "Password must be at least 6 characters", db).
Proof.
  intros Hc Hh Hp Hlen. unfold activate_license. rewrite Hp.
  destruct (required (ab_license_code req)) eqn:Hc';
    [|unfold truthy, falsy, required in *; repeat case_match;
      simplify_eq; discriminate].
  destruct (required (ab_hardware_id req)) eqn:Hh';
    [|unfold truthy, falsy, required in *; repeat case_match;
      simplify_eq; discriminate].
  apply Nat.ltb_lt in Hlen. by rewrite Hlen.
Qed.

End SqliteActivation.

(** ** Rejected credentials *)
Section Credentials.
Import Js.
Context `{Crypto}.

Lemma flat_invalid_credentials (d : FlatFile.Disk) (env : FlatFile.Env)
    (req : FlatFile.LoginBody) (username password hw : string) :
  required (FlatFile.lb_username req) = Some username ->
  required (FlatFile.lb_password req) = Some password ->
  required (FlatFile.lb_hardwareID req) = Some hw ->
  FlatFile.load_users_ok env = true ->
  (FlatFile.users d !! username = None
   /\ ~ In username object_prototype_keys
   \/ exists user, FlatFile.users d !! username = Some user
        /\ FlatFile.verifyPassword password (FlatFile.u_salt user)
             (FlatFile.u_passwordHash user) = false) ->
  FlatFile.login d env req =
  (FlatFile.fail 401 "Invalid username or password", d).
Proof.
  intros Hn Hp Hh Hl Hcase. unfold FlatFile.login.
  rewrite Hn, Hp, Hh, Hl. simpl.
  destruct Hcase as [Hu | (user & Hu & Hv)].
  - by rewrite (proj2 (get_property_Undefined _ _) Hu).
  - by rewrite (proj2 (get_property_Own _ _ _) Hu), Hv.
Qed.

(** A username that is not stored and names a property of
    [Object.prototype] is answered from the [catch] of the handler. *)
Lemma flat_inherited_username (d : FlatFile.Disk) (env : FlatFile.Env)
    (req : FlatFile.LoginBody) (username password hw : string) :
  required (FlatFile.lb_username req) = Some username ->
  required (FlatFile.lb_password req) = Some password ->
  required (FlatFile.lb_hardwareID req) = Some hw ->
  FlatFile.load_users_ok env = true ->
  FlatFile.users d !! username = None ->
  In username object_prototype_keys ->
  FlatFile.login d env req =
  (FlatFile.fail 500 "Server error during login", d).
Proof.
  intros Hn Hp Hh Hl Hu Hin. unfold FlatFile.login.
  rewrite Hn, Hp, Hh, Hl. simpl.
  by rewrite (proj2 (get_property_Inherited _ _) (conj Hu Hin)).
Qed.

Lemma sqlite_invalid_credentials (db : Sqlite.Db) (env : Sqlite.Env)
    (req : Sqlite.LoginBody) (username password hw : string) :
  required (Sqlite.lb_username req) = Some username ->
  required (Sqlite.lb_password req) = Some password ->
  required (Sqlite.lb_hardware_id req) = Some hw ->
  (Sqlite.get_user_by_username db username = None
   \/ exists user, Sqlite.get_user_by_username db username = Some user
        /\ match required (Sqlite.u_password_hash user) with
           | Some password_hash =>
               Sqlite.verifyPassword password password_hash = false
           | None => True
           end) ->
  Sqlite.login db env req = (Sqlite.fail 401 "Invalid credentials", db).
Proof.
  intros Hn Hp Hh Hcase. unfold Sqlite.login. rewrite Hn, Hp, Hh.
  destruct Hcase as [-> | (user & -> & Hv)]; [reflexivity|].
  destruct (required (Sqlite.u_password_hash user)); [|reflexivity].
  by rewrite Hv.
Qed.

(** Two logins that differ in the username only, one unknown and one
    known with a password that does not verify, are answered alike even
    when the password or the hardware id is missing; in the flat-file
    variant the unknown username must not name a property of
    [Object.prototype]. *)
Lemma flat_login_hides_usernames (d : FlatFile.Disk)
    (env1 env2 : FlatFile.Env) (name1 name2 : string) (pw hw : field)
    (user : FlatFile.User) :
  name1 <> "" -> name2 <> "" ->
  FlatFile.load_users_ok env1 = FlatFile.load_users_ok env2 ->
  FlatFile.users d !! name1 = None ->
  ~ In name1 object_prototype_keys ->
  FlatFile.users d !! name2 = Some user ->
  (forall password, pw = Some password ->
     FlatFile.verifyPassword password (FlatFile.u_salt user)
       (FlatFile.u_passwordHash user) = false) ->
  FlatFile.login d env1 (FlatFile.mkLoginBody (Some name1) pw hw) =
  FlatFile.login d env2 (FlatFile.mkLoginBody (Some name2) pw hw).
Proof.
  intros Hn1 Hn2 Hl Hu1 Hk1 Hu2 Hv. unfold FlatFile.login.
  cbn [FlatFile.lb_username FlatFile.lb_password FlatFile.lb_hardwareID].
  rewrite (proj2 (required_Some (Some name1) name1)) by auto.
  rewrite (proj2 (required_Some (Some name2) name2)) by auto.
  destruct (required pw) as [password|] eqn:Hp; [|reflexivity].
  destruct (required hw) as [hardwareID|]; [|reflexivity].
  apply required_Some in Hp as [Hp _].
  rewrite <- Hl. unfold FlatFile.loadDatabase.
  destruct (FlatFile.load_users_ok env1); [|reflexivity].
  rewrite (proj2 (get_property_Undefined _ _) (conj Hu1 Hk1)).
  by rewrite (proj2 (get_property_Own _ _ _) Hu2), (Hv password Hp).
Qed.

Lemma sqlite_login_hides_usernames (db : Sqlite.Db)
    (env1 env2 : Sqlite.Env) (name1 name2 : string) (pw hw : field)
    (user : Sqlite.UserRow) :
  name1 <> "" -> name2 <> "" ->
  Sqlite.get_user_by_username db name1 = None ->
  Sqlite.get_user_by_username db name2 = Some user ->
  (forall password password_hash, pw = Some password ->
     required (Sqlite.u_password_hash user) = Some password_hash ->
     Sqlite.verifyPassword password password_hash = false) ->
  Sqlite.login db env1 (Sqlite.mkLoginBody (Some name1) pw hw) =
  Sqlite.login db env2 (Sqlite.mkLoginBody (Some name2) pw hw).
Proof.
  intros Hn1 Hn2 Hu1 Hu2 Hv. unfold Sqlite.login.
  cbn [Sqlite.lb_username Sqlite.lb_password Sqlite.lb_hardware_id].
  rewrite (proj2 (required_Some (Some name1) name1)) by auto.
  rewrite (proj2 (required_Some (Some name2) name2)) by auto.
  destruct (required pw) as [password|] eqn:Hp; [|reflexivity].
  destruct (required hw) as [hardware_id|]; [|reflexivity].
  apply required_Some in Hp as [Hp _].
  rewrite Hu1, Hu2.
  destruct (required (Sqlite.u_password_hash user)) as [ph|] eqn:Hph;
    [|reflexivity].
  by rewrite (Hv password ph Hp eq_refl).
Qed.

End Credentials.

(** ** Session verification in the flat-file variant *)
Section FlatFileSessions.
Import Js FlatFile FlatFileObs.

Lemma flat_verify_ignores_token (d : Disk) (env : Env)
    (username t1 t2 hw : field) :
  verify_session d env (mkVerifyBody username t1 hw) =
  verify_session d env (mkVerifyBody username t2 hw).
Proof. reflexivity. Qed.

Lemma flat_verify_registered (d : Disk) (env : Env) (username hw : string)
    (token : field) (user : User) :
  load_users_ok env = true ->
  users d !! username = Some user ->
  In hw (devices_of d username) ->
  verify_session d env (mkVerifyBody (Some username) token (Some hw)) =
  (ok_json (JObj [
     ("success", JBool true);
     ("user", JObj [
        ("username", JStr (u_username user));
        ("licenseType", licenseType (u_licenseCode user))])]), d).
Proof.
  intros Hl Hu Hin. unfold verify_session, devices_of in *.
  rewrite Hl. simpl. rewrite (proj2 (get_property_Own _ _ _) Hu).
  rewrite Hu in Hin.
  destruct (u_devices user) as [devs|]; [|destruct Hin].
  simpl in *. apply includes_str_In in Hin. by rewrite Hin.
Qed.

Lemma flat_verify_unregistered (d : Disk) (env : Env) (username hw : string)
    (token : field) (user : User) (devs : list string) :
  load_users_ok env = true ->
  users d !! username = Some user ->
  u_devices user = Some devs ->
  ~ In hw devs ->
  verify_session d env (mkVerifyBody (Some username) token (Some hw)) =
  (fail 403 "Device not authorized", d).
Proof.
  intros Hl Hu Hd Hin. unfold verify_session.
  rewrite Hl. simpl. rewrite (proj2 (get_property_Own _ _ _) Hu), Hd. simpl.
  apply includes_str_false in Hin. by rewrite Hin.
Qed.

End FlatFileSessions.

(** ** The security-code variant *)
Section SecurityCodeFacts.
Import Js SecurityCode.

Lemma validate_answer (w : World) (env : Env) (req : Request) (b : Body) :
  body req = Some b ->
  validate w env req =
  (Answer (ok_json (JObj [
     ("valid", JBool (includes validSecurityCodes (b_code b)))])),
   log w ("[Security] Validation request - Code valid: " +:+
          (if includes validSecurityCodes (b_code b)
           then "true" else "false"))).
Proof. intros Hb. unfold validate. by rewrite Hb. Qed.

Lemma app_reaches_validate (w : World) (env : Env) (req : Request) :
  reaches_validate w req ->
  app w env req =
  match validate w env req with
  | (Answer r, w2) => (r, w2)
  | (Raise _, w2) => (Response 500 JNull, w2)
  | (Next, w2) => (Response 404 JNull, w2)
  end.
Proof.
  intros (Hm & Hmeth & Hpath). unfold app, security_middleware in *.
  rewrite Hpath in Hm |- *. simpl in Hm |- *.
  destruct (falsy _ || negb _); [discriminate|].
  unfold route. by rewrite Hmeth, Hpath.
Qed.

End SecurityCodeFacts.

(** ** Password hashing *)
Section Hashing.
Import Js.

Lemma hex_digit_not_colon (n : N) : Ascii.eqb (hex_digit n) ":" = false.
Proof.
  destruct n as [|p]; [reflexivity|].
  do 4 (try destruct p as [p|p|]); reflexivity.
Qed.

Lemma hex_digit_inj (m n : N) :
  (m < 16)%N -> (n < 16)%N -> hex_digit m = hex_digit n -> m = n.
Proof.
  intros Hm Hn.
  destruct m as [|p]; [|do 4 (try destruct p as [p|p|]); try lia];
    (destruct n as [|q]; [|do 4 (try destruct q as [q|q|]); try lia]);
    simpl; intros Heq; (reflexivity || discriminate Heq).
Qed.

Lemma to_N_inj (a b : byte) : Byte.to_N a = Byte.to_N b -> a = b.
Proof.
  intros Heq. pose proof (Byte.of_to_N a) as Ha.
  rewrite Heq, Byte.of_to_N in Ha. congruence.
Qed.

Lemma to_hex_inj (a b : list byte) : to_hex a = to_hex b -> a = b.
Proof.
  revert b. induction a as [|x a IH]; intros [|y b]; simpl;
    try discriminate; [reflexivity|].
  intros [= Hhi Hlo Hrest].
  pose proof (Byte.to_N_bounded x) as Hx.
  pose proof (Byte.to_N_bounded y) as Hy.
  apply hex_digit_inj in Hhi;
    [|apply N.Div0.div_lt_upper_bound; lia..].
  apply hex_digit_inj in Hlo; [|apply N.mod_lt; lia..].
  f_equal; [|by apply IH].
  apply to_N_inj.
  rewrite (N.div_mod (Byte.to_N x) 16), (N.div_mod (Byte.to_N y) 16) by lia.
  by rewrite Hhi, Hlo.
Qed.

Lemma split_char_hex (buf : list byte) :
  split_char ":" (to_hex buf) = [to_hex buf].
Proof.
  induction buf as [|b buf IH]; [reflexivity|].
  simpl. by rewrite !hex_digit_not_colon, IH.
Qed.

Lemma split_char_salted (salt hash : list byte) :
  split_char ":" (to_hex salt +:+ ":" +:+ to_hex hash) =
  [to_hex salt; to_hex hash].
Proof.
  induction salt as [|b salt IH]; simpl.
  - change ("" +:+ to_hex hash) with (to_hex hash). by rewrite split_char_hex.
  - by rewrite !hex_digit_not_colon, IH.
Qed.

Context `{Crypto}.

Lemma flat_verify_own_hash (password salt : string) :
  FlatFile.verifyPassword password salt
    (FlatFile.hashPassword password salt) = true.
Proof. unfold FlatFile.verifyPassword. apply String.eqb_refl. Qed.

Lemma flat_verify_other_hash (password other salt : string) :
  FlatFile.verifyPassword other salt
    (FlatFile.hashPassword password salt) = true
  <-> pbkdf2Sync other salt 10000%N 64%N "sha512" =
      pbkdf2Sync password salt 10000%N 64%N "sha512".
Proof.
  unfold FlatFile.verifyPassword, FlatFile.hashPassword.
  rewrite String.eqb_eq. split; [apply to_hex_inj | by intros ->].
Qed.

Lemma sqlite_verify_other_hash (env : Sqlite.Env) (password other : string) :
  Sqlite.verifyPassword other (Sqlite.hashPassword env password) = true
  <-> pbkdf2Sync other (to_hex (Sqlite.random16 env)) 10000%N 64%N "sha512" =
      pbkdf2Sync password (to_hex (Sqlite.random16 env)) 10000%N 64%N
        "sha512".
Proof.
  unfold Sqlite.verifyPassword, Sqlite.hashPassword.
  rewrite split_char_salted, String.eqb_eq.
  split; [intros Heq; symmetry; by apply to_hex_inj | by intros ->].
Qed.

Lemma sqlite_verify_own_hash (env : Sqlite.Env) (password : string) :
  Sqlite.verifyPassword password (Sqlite.hashPassword env password) = true.
Proof. by apply sqlite_verify_other_hash. Qed.

End Hashing.

Section ClockFacts.
Import Clock ClockObs.

Lemma all_from_spec (P : Z -> bool) (n : nat) (z i : Z) :
  all_from n z P = true -> z <= i < z + Z.of_nat n -> P i = true.
Proof.
  revert z. induction n as [|n IH]; intros z; simpl; [lia|].
  intros [Hz Hrest]%andb_prop Hi.
  destruct (Z.eq_dec i z) as [-> | Hne]; [exact Hz|].
  apply (IH (z + 1)); [exact Hrest | lia].
Qed.

Lemma cycle_checked : all_from (Z.to_nat 146097) 0 cycle_ok = true.
Proof. vm_cast_no_check (eq_refl true). Qed.

Lemma cycle_ok_at (doe : Z) : 0 <= doe < 146097 -> cycle_ok doe = true.
Proof.
  intros Hd. apply (all_from_spec cycle_ok (Z.to_nat 146097) 0);
    [exact cycle_checked | lia].
Qed.


Lemma cycle_facts (doe : Z) :
  0 <= doe < 146097 ->
  forall y m d, cycle_date doe = (y, m, d) ->
  0 <= y <= 400 /\ 1 <= m <= 12 /\ 1 <= d <= 31
  /\ (doe < 146096 ->
      date_key (y, m, d) < date_key (cycle_date (doe + 1))).
Proof.
  intros Hd y m d Hc. pose proof (cycle_ok_at doe Hd) as Hok.
  unfold cycle_ok in Hok. rewrite Hc in Hok.
  repeat match type of Hok with
         | (_ && _) = true => apply andb_prop in Hok as [Hok ?]
         end.
  repeat split; lia.
Qed.

Lemma cycle_key_step (doe : Z) :
  0 <= doe < 146096 ->
  date_key (cycle_date doe) < date_key (cycle_date (doe + 1)).
Proof.
  intros Hd. destruct (cycle_date doe) as [[y m] d] eqn:Hc.
  apply (cycle_facts doe ltac:(lia) y m d Hc). lia.
Qed.

Lemma cycle_key_mono (a b : Z) :
  0 <= a -> a < b -> b < 146097 ->
  date_key (cycle_date a) < date_key (cycle_date b).
Proof.
  intros Ha Hab Hb.
  assert (Hgen : forall n : nat, a + 1 + Z.of_nat n < 146097 ->
            date_key (cycle_date a)
            < date_key (cycle_date (a + 1 + Z.of_nat n))).
  { induction n as [|n IH]; intros Hn.
    - rewrite Z.add_0_r. apply cycle_key_step. lia.
    - eapply Z.lt_trans; [apply IH; lia|].
      replace (a + 1 + Z.of_nat (S n)) with (a + 1 + Z.of_nat n + 1) by lia.
      apply cycle_key_step. lia. }
  replace b with (a + 1 + Z.of_nat (Z.to_nat (b - a - 1))) by lia.
  apply Hgen. lia.
Qed.

Lemma cycle_key_bounds (doe : Z) :
  0 <= doe < 146097 -> 301 <= date_key (cycle_date doe) <= 4000229.
Proof.
  intros Hd. split.
  - destruct (Z.eq_dec doe 0) as [-> | Hne]; [by vm_compute|].
    pose proof (cycle_key_mono 0 doe ltac:(lia) ltac:(lia) ltac:(lia)) as Hm.
    change (date_key (cycle_date 0)) with 301 in Hm. lia.
  - destruct (Z.eq_dec doe 146096) as [-> | Hne]; [by vm_compute|].
    pose proof (cycle_key_mono doe 146096 ltac:(lia) ltac:(lia) ltac:(lia))
      as Hm.
    change (date_key (cycle_date 146096)) with 4000229 in Hm. lia.
Qed.

Lemma civil_from_days_cycle (z : Z) :
  civil_from_days z =
  let '(y, m, d) := cycle_date ((z + 719468) mod 146097) in
  (y + (z + 719468) / 146097 * 400, m, d).
Proof.
  unfold civil_from_days, cycle_date. cbv zeta. do 2 f_equal. lia.
Qed.

Lemma date_key_civil (z : Z) :
  date_key (civil_from_days z) =
  date_key (cycle_date ((z + 719468) mod 146097))
  + (z + 719468) / 146097 * 4000000.
Proof.
  rewrite civil_from_days_cycle.
  destruct (cycle_date _) as [[y m] d]. unfold date_key. lia.
Qed.

(** Later days have larger dates. *)
Lemma date_key_mono (z1 z2 : Z) :
  z1 < z2 ->
  date_key (civil_from_days z1) < date_key (civil_from_days z2).
Proof.
  intros Hlt. rewrite !date_key_civil.
  pose proof (Z.mod_pos_bound (z1 + 719468) 146097 ltac:(lia)) as Hm1.
  pose proof (Z.mod_pos_bound (z2 + 719468) 146097 ltac:(lia)) as Hm2.
  pose proof (Z.div_mod (z1 + 719468) 146097 ltac:(lia)) as Hd1.
  pose proof (Z.div_mod (z2 + 719468) 146097 ltac:(lia)) as Hd2.
  pose proof (cycle_key_bounds _ Hm1) as Hb1.
  pose proof (cycle_key_bounds _ Hm2) as Hb2.
  destruct (Z.eq_dec ((z1 + 719468) / 146097) ((z2 + 719468) / 146097))
    as [He | Hne].
  - rewrite He. apply Z.add_lt_mono_r. apply cycle_key_mono; lia.
  - assert ((z1 + 719468) / 146097 < (z2 + 719468) / 146097).
    { assert ((z1 + 719468) / 146097 <= (z2 + 719468) / 146097)
        by (apply Z.div_le_mono; lia). lia. }
    lia.
Qed.

Lemma date_key_mono_le (z1 z2 : Z) :
  z1 <= z2 ->
  date_key (civil_from_days z1) <= date_key (civil_from_days z2).
Proof.
  intros Hle. destruct (Z.eq_dec z1 z2) as [-> | Hne]; [lia|].
  apply Z.lt_le_incl, date_key_mono. lia.
Qed.

Lemma civil_month_day (z y m d : Z) :
  civil_from_days z = (y, m, d) -> 1 <= m <= 12 /\ 1 <= d <= 31.
Proof.
  rewrite civil_from_days_cycle.
  destruct (cycle_date _) as [[y0 m0] d0] eqn:Hc. intros [= <- <- <-].
  pose proof (Z.mod_pos_bound (z + 719468) 146097 ltac:(lia)) as Hm.
  destruct (cycle_facts _ Hm _ _ _ Hc) as (_ & ? & ? & _). by split.
Qed.

(** From the epoch to the end of year 9999 the year has four digits. *)
Lemma civil_year (z y m d : Z) :
  0 <= z <= 2932896 -> civil_from_days z = (y, m, d) -> 1970 <= y <= 9999.
Proof.
  intros Hz Hc. destruct (civil_month_day z y m d Hc) as [Hm Hd].
  pose proof (date_key_mono_le 0 z ltac:(lia)) as Hlo.
  pose proof (date_key_mono_le z 2932896 ltac:(lia)) as Hhi.
  rewrite Hc in Hlo, Hhi.
  change (date_key (civil_from_days 0)) with 19700101 in Hlo.
  change (date_key (civil_from_days 2932896)) with 99991231 in Hhi.
  unfold date_key in Hlo, Hhi. lia.
Qed.

End ClockFacts.

(** ** Comparing the two timestamp formats as TEXT *)
Section TextOrder.
Import Clock ClockObs.

Lemma compare_refl (s : string) : String.compare s s = Eq.
Proof.
  induction s as [|c s IH]; [reflexivity|]. simpl.
  unfold Ascii.compare. by rewrite N.compare_refl.
Qed.

(** Two strings that start with pieces of the same length are ordered
    by these pieces, and by what follows when the pieces are equal. *)
Lemma compare_app (a b x y : string) :
  String.length a = String.length b ->
  String.compare (a +:+ x) (b +:+ y) =
  match String.compare a b with
  | Eq => String.compare x y
  | c => c
  end.
Proof.
  revert b. induction a as [|c a IH]; intros [|c' b]; simpl;
    try discriminate; [reflexivity|].
  intros [= Hlen]. destruct (Ascii.compare c c'); [by apply IH|reflexivity..].
Qed.

Lemma length_append (a b : string) :
  String.length (a +:+ b) = (String.length a + String.length b)%nat.
Proof. induction a as [|c a IH]; simpl; [reflexivity | by rewrite IH]. Qed.

Lemma append_assoc (a b c : string) : a +:+ b +:+ c = (a +:+ b) +:+ c.
Proof.
  induction a as [|x a IH]; [reflexivity|].
  change (String x (a +:+ b +:+ c) = String x ((a +:+ b) +:+ c)).
  by f_equal.
Qed.

Lemma length_pad (k : nat) (n : Z) : String.length (pad k n) = k.
Proof.
  revert n. induction k as [|k IH]; intros n; [reflexivity|]. simpl.
  rewrite length_append, IH. simpl. lia.
Qed.

Lemma compare_digit (a b : Z) :
  Ascii.compare (digit a) (digit b) = (a mod 10 ?= b mod 10).
Proof.
  unfold Ascii.compare, digit.
  pose proof (Z.mod_pos_bound a 10 ltac:(lia)).
  pose proof (Z.mod_pos_bound b 10 ltac:(lia)).
  rewrite !N_ascii_embedding by lia.
  destruct (Z.compare_spec (a mod 10) (b mod 10)) as [He | Hl | Hg].
  - rewrite He. apply N.compare_refl.
  - apply N.compare_lt_iff. lia.
  - apply N.compare_gt_iff. lia.
Qed.

(** Zero-padded numbers of the same width are ordered as numbers. *)
Lemma compare_pad (k : nat) (a b : Z) :
  0 <= a < 10 ^ Z.of_nat k -> 0 <= b < 10 ^ Z.of_nat k ->
  String.compare (pad k a) (pad k b) = (a ?= b).
Proof.
  revert a b. induction k as [|k IH]; intros a b Ha Hb.
  - simpl in *. assert (a = 0) by lia. assert (b = 0) by lia. by subst.
  - rewrite Nat2Z.inj_succ, Z.pow_succ_r in Ha, Hb by lia.
    simpl. rewrite compare_app by (by rewrite !length_pad).
    rewrite IH by (split; [apply Z.div_pos | apply Z.div_lt_upper_bound]; lia).
    simpl. rewrite compare_digit.
    pose proof (Z.div_mod a 10 ltac:(lia)).
    pose proof (Z.div_mod b 10 ltac:(lia)).
    pose proof (Z.mod_pos_bound a 10 ltac:(lia)).
    pose proof (Z.mod_pos_bound b 10 ltac:(lia)).
    destruct (Z.compare_spec (a / 10) (b / 10)) as [He | Hl | Hg].
    + destruct (Z.compare_spec (a mod 10) (b mod 10)) as [He' | Hl' | Hg'];
        symmetry.
      * apply Z.compare_eq_iff. lia.
      * apply Z.compare_lt_iff. lia.
      * apply Z.compare_gt_iff. lia.
    + symmetry. apply Z.compare_lt_iff. lia.
    + symmetry. apply Z.compare_gt_iff. lia.
Qed.

(** A date with a four-digit year, printed, is ordered as [date_key]. *)
Lemma compare_date (y1 m1 d1 y2 m2 d2 : Z) (x y : string) :
  0 <= y1 <= 9999 -> 1 <= m1 <= 12 -> 1 <= d1 <= 31 ->
  0 <= y2 <= 9999 -> 1 <= m2 <= 12 -> 1 <= d2 <= 31 ->
  String.compare
    (pad 4 y1 +:+ "-" +:+ pad 2 m1 +:+ "-" +:+ pad 2 d1 +:+ x)
    (pad 4 y2 +:+ "-" +:+ pad 2 m2 +:+ "-" +:+ pad 2 d2 +:+ y) =
  match date_key (y1, m1, d1) ?= date_key (y2, m2, d2) with
  | Eq => String.compare x y
  | c => c
  end.
Proof.
  intros Hy1 Hm1 Hd1 Hy2 Hm2 Hd2.
  rewrite (compare_app (pad 4 y1) (pad 4 y2)) by (by rewrite !length_pad).
  rewrite compare_pad by (simpl; lia).
  change ("-" +:+ ?s) with (String "-" s).
  cbn [String.compare]. change (Ascii.compare "-" "-") with Eq. cbv iota.
  rewrite (compare_app (pad 2 m1) (pad 2 m2)) by (by rewrite !length_pad).
  rewrite compare_pad by (simpl; lia).
  change ("-" +:+ ?s) with (String "-" s).
  cbn [String.compare]. change (Ascii.compare "-" "-") with Eq. cbv iota.
  rewrite (compare_app (pad 2 d1) (pad 2 d2)) by (by rewrite !length_pad).
  rewrite compare_pad by (simpl; lia).
  unfold date_key.
  destruct (Z.compare_spec y1 y2) as [He | Hl | Hg].
  - destruct (Z.compare_spec m1 m2) as [He' | Hl' | Hg'].
    + destruct (Z.compare_spec d1 d2) as [He'' | Hl'' | Hg''].
      * subst. by rewrite Z.compare_refl.
      * replace (_ ?= _) with Lt; [reflexivity|].
        symmetry. apply Z.compare_lt_iff. lia.
      * replace (_ ?= _) with Gt; [reflexivity|].
        symmetry. apply Z.compare_gt_iff. lia.
    + replace (_ ?= _) with Lt; [reflexivity|].
      symmetry. apply Z.compare_lt_iff. lia.
    + replace (_ ?= _) with Gt; [reflexivity|].
      symmetry. apply Z.compare_gt_iff. lia.
  - replace (_ ?= _) with Lt; [reflexivity|].
    symmetry. apply Z.compare_lt_iff. lia.
  - replace (_ ?= _) with Gt; [reflexivity|].
    symmetry. apply Z.compare_gt_iff. lia.
Qed.

Lemma utc_day_range (t : instant) :
  0 <= t < year_10000 -> 0 <= utc_day t <= 2932896.
Proof.
  unfold utc_day, year_10000, ms_per_day. intros Ht. split.
  - apply Z.div_pos; lia.
  - assert (t / 86400000 < 2932897)
      by (apply Z.div_lt_upper_bound; lia). lia.
Qed.

(** The TEXT comparison of verify-session sees the dates only: an expiry
    written by [toISOString] is greater than [datetime('now')] exactly
    when its UTC day is not before today. *)
Lemma text_gt_iso_datetime (expiry today : instant) :
  0 <= expiry < year_10000 -> 0 <= today < year_10000 ->
  text_gt (toISOString expiry) (sqlite_datetime today) =
  (utc_day today <=? utc_day expiry).
Proof.
  intros He Ht. unfold text_gt, toISOString, sqlite_datetime, date_string.
  fold (utc_day expiry) (utc_day today).
  pose proof (utc_day_range _ He) as Hde.
  pose proof (utc_day_range _ Ht) as Hdt.
  destruct (civil_from_days (utc_day expiry)) as [[y1 m1] d1] eqn:Hc1.
  destruct (civil_from_days (utc_day today)) as [[y2 m2] d2] eqn:Hc2.
  destruct (civil_month_day _ _ _ _ Hc1) as [Hm1 Hd1].
  destruct (civil_month_day _ _ _ _ Hc2) as [Hm2 Hd2].
  pose proof (civil_year _ _ _ _ Hde Hc1) as Hy1.
  pose proof (civil_year _ _ _ _ Hdt Hc2) as Hy2.
  unfold iso_year.
  replace ((0 <=? y1) && (y1 <=? 9999)) with true by lia.
  rewrite <- !append_assoc.
  rewrite compare_date by lia.
  rewrite <- Hc1, <- Hc2.
  destruct (Z.compare_spec (date_key (civil_from_days (utc_day expiry)))
              (date_key (civil_from_days (utc_day today)))) as [Hk | Hk | Hk].
  - destruct (Z.lt_trichotomy (utc_day today) (utc_day expiry))
      as [Hlt | [Heq | Hgt]].
    + apply date_key_mono in Hlt. lia.
    + rewrite Heq, Z.leb_refl. reflexivity.
    + apply date_key_mono in Hgt. lia.
  - destruct (Z.leb_spec (utc_day today) (utc_day expiry)) as [Hle | Hgt];
      [|reflexivity].
    apply date_key_mono_le in Hle. lia.
  - destruct (Z.leb_spec (utc_day today) (utc_day expiry)) as [Hle | Hgt];
      [reflexivity|].
    apply date_key_mono in Hgt. lia.
Qed.

End TextOrder.

(** ** Session verification in the SQLite variant *)
Section SqliteSessions.
Import Js Sqlite SqliteObs.

Lemma select_sessions_elem (db : Db) (env : Env) (tok hw : string)
    (s : SessionRow) (u : UserRow) :
  (s, u) ∈ select_sessions db env tok hw <->
  In s (sessions db) /\ In u (users db)
  /\ s_user_id s = u_id u /\ s_session_token s = tok
  /\ s_hardware_id s = hw
  /\ Clock.text_gt (s_expires_at s) (Clock.sqlite_datetime (now env)) = true.
Proof.
  unfold select_sessions. rewrite list_elem_of_bind. split.
  - intros (s' & Hin & Hs'). apply list_elem_of_bind in Hin as (u' & Hin & Hu').
    destruct (_ && _) eqn:Hc in Hin; [|by apply elem_of_nil in Hin].
    apply list_elem_of_singleton in Hin as [= <- <-].
    repeat (apply andb_prop in Hc as [Hc ?]).
    repeat split; try (by apply list_elem_of_In); try assumption.
    + by apply Z.eqb_eq.
    + by apply String.eqb_eq.
    + by apply String.eqb_eq.
  - intros (Hs & Hu & Hid & Htok & Hhw & Hexp). exists s.
    split; [|by apply list_elem_of_In]. apply list_elem_of_bind. exists u.
    split; [|by apply list_elem_of_In].
    rewrite Hid, Z.eqb_refl, <- Htok, <- Hhw, !String.eqb_refl, Hexp.
    by apply list_elem_of_singleton.
Qed.

Lemma same_token_same_row (l : list SessionRow) (s s' : SessionRow) :
  NoDup (map s_session_token l) -> In s l -> In s' l ->
  s_session_token s' = s_session_token s -> s' = s.
Proof.
  induction l as [|x l IH]; [intros _ []|].
  simpl. intros [Hx Hnd]%NoDup_cons [-> | Hs] [-> | Hs'] Ht;
    [reflexivity | | | by apply IH].
  - exfalso. apply Hx. rewrite <- Ht. apply list_elem_of_In. by apply in_map.
  - exfalso. apply Hx. rewrite Ht. apply list_elem_of_In. by apply in_map.
Qed.

(** The token of a session presented with another fingerprint selects
    nothing. *)
Lemma sqlite_verify_other_device (db : Db) (env : Env) (req : VerifyBody)
    (s : SessionRow) (hw : string) :
  In s (sessions db) ->
  NoDup (map s_session_token (sessions db)) ->
  required (vb_session_token req) = Some (s_session_token s) ->
  required (vb_hardware_id req) = Some hw ->
  hw <> s_hardware_id s ->
  verify_session db env req = (fail 401 "Invalid or expired session", db).
Proof.
  intros Hs Hnd Htok Hhw Hne. unfold verify_session. rewrite Htok, Hhw.
  destruct (select_sessions _ _ _ _) as [|[s' u'] rest] eqn:Hsel;
    [reflexivity|].
  exfalso.
  assert (Hin : (s', u') ∈ select_sessions db env (s_session_token s) hw)
    by (rewrite Hsel; left).
  apply select_sessions_elem in Hin as (Hs' & _ & _ & Ht & Hh & _).
  assert (s' = s) by (eapply same_token_same_row; eauto).
  congruence.
Qed.

(** The token of a session presented with its own fingerprint, while the
    stored expiry compares greater than the current time, selects the
    session and its user. *)
Lemma sqlite_verify_same_device (db : Db) (env : Env) (req : VerifyBody)
    (s : SessionRow) (u : UserRow) :
  In s (sessions db) ->
  NoDup (map s_session_token (sessions db)) ->
  In u (users db) -> u_id u = s_user_id s ->
  NoDup (map u_id (users db)) ->
  required (vb_session_token req) = Some (s_session_token s) ->
  required (vb_hardware_id req) = Some (s_hardware_id s) ->
  Clock.text_gt (s_expires_at s) (Clock.sqlite_datetime (now env)) = true ->
  verify_session db env req =
  (ok_json (JObj [
     ("valid", JBool true);
     ("username", JStr (u_username u));
     ("license_code", JStr (u_license_code u));
     ("expires_at", JStr (s_expires_at s))]), db).
Proof.
  intros Hs Hnd Hu Hid Hids Htok Hhw Hexp.
  unfold verify_session. rewrite Htok, Hhw.
  destruct (select_sessions _ _ _ _) as [|[s' u'] rest] eqn:Hsel.
  - exfalso.
    assert (Hin : (s, u) ∈ select_sessions db env (s_session_token s)
                             (s_hardware_id s))
      by (apply select_sessions_elem; repeat split; auto).
    rewrite Hsel in Hin. by apply elem_of_nil in Hin.
  - assert (Hin : (s', u') ∈ select_sessions db env (s_session_token s)
                               (s_hardware_id s))
      by (rewrite Hsel; left).
    apply select_sessions_elem in Hin as (Hs' & Hu' & Hid' & Ht & _ & _).
    assert (s' = s) by (eapply same_token_same_row; eauto). subst s'.
    assert (u' = u) by (eapply same_id_same_row; eauto; congruence).
    by subst u'.
Qed.

End SqliteSessions.

(** ** The claims *)
Section Claims.
Import Js.
Context `{Crypto}.

(** C1. In both stateful variants no account ever holds more than
    MAX_DEVICES = 3 devices, whatever sequence of requests is handled
    (from a flat-file disk within the quota, from a consistent SQLite
    database; the fresh stores are both). At a login that passes the
    credential checks: a fingerprint the account already holds proceeds
    and the device set is unchanged, with no look at the count; a new
    fingerprint is refused with the device-limit error, the store
    unchanged, when the account holds 3 or more; otherwise it is
    registered as one more device. *)
Theorem device_quota_never_exceeded :
  (forall (d : FlatFile.Disk) (calls : list (FlatFile.Env * FlatFile.request)),
     FlatFileObs.quota_ok d -> FlatFileObs.quota_ok (FlatFile.run d calls))
  /\ (forall (db : Sqlite.Db) (calls : list (Sqlite.Env * Sqlite.request)),
     SqliteObs.consistent db -> SqliteObs.quota_ok (Sqlite.run db calls))
  /\ (forall calls : list (FlatFile.Env * FlatFile.request),
     FlatFileObs.quota_ok (FlatFile.run FlatFile.empty_disk calls))
  /\ (forall calls : list (Sqlite.Env * Sqlite.request),
     SqliteObs.quota_ok (Sqlite.run Sqlite.empty_db calls))
  /\ (forall (d : FlatFile.Disk) (env : FlatFile.Env)
        (req : FlatFile.LoginBody) (username hw : string)
        (user : FlatFile.User),
     FlatFileObs.credentials_pass d env req username hw user ->
     let r := FlatFile.login d env req in
     let devs := FlatFileObs.devices_of d username in
     (In hw devs ->
      status (fst r) = 200
      /\ FlatFileObs.devices_of (snd r) username = devs)
     /\ (~ In hw devs -> (3 <= length devs)%nat ->
         FlatFileObs.limit_reached (fst r) /\ snd r = d)
     /\ (~ In hw devs -> (length devs < 3)%nat ->
         status (fst r) = 200
         /\ (FlatFile.save_users_ok env = true ->
             FlatFileObs.devices_of (snd r) username = devs ++ [hw])))
  /\ (forall (db : Sqlite.Db) (env : Sqlite.Env) (req : Sqlite.LoginBody)
        (username hw : string) (user : Sqlite.UserRow),
     SqliteObs.credentials_pass db req username hw user ->
     let r := Sqlite.login db env req in
     let fps := SqliteObs.fingerprints db (Sqlite.u_id user) in
     (In hw fps ->
      SqliteObs.fingerprints (snd r) (Sqlite.u_id user) = fps
      /\ (SqliteObs.token_fresh db env -> status (fst r) = 200))
     /\ (~ In hw fps -> (3 <= length fps)%nat ->
         SqliteObs.limit_reached (fst r) /\ snd r = db)
     /\ (~ In hw fps -> (length fps < 3)%nat ->
         SqliteObs.fingerprints (snd r) (Sqlite.u_id user) = fps ++ [hw]
         /\ (SqliteObs.token_fresh db env -> status (fst r) = 200))).
Proof.
  split; [|split; [|split; [|split; [|split]]]].
  - intros d calls. apply run_quota.
  - intros db calls Hc. by apply run_consistent.
  - intros calls. apply run_quota, empty_disk_quota.
  - intros calls. apply run_consistent, empty_db_consistent.
  - intros d env req username hw user Hpass. cbv zeta.
    split; [|split].
    + by eapply flat_login_known_device.
    + by eapply flat_login_limit.
    + by eapply flat_login_new_device.
  - intros db env req username hw user Hpass. cbv zeta.
    split; [|split].
    + by eapply sqlite_login_known_device.
    + by eapply sqlite_login_limit.
    + by eapply sqlite_login_new_device.
Qed.

(** C2, amended. In the flat-file variant, activating an activated
    license code again with the fingerprint and the username on record
    (all four fields present, the documents readable) succeeds and
    leaves both documents as they were. In the SQLite variant the
    request carries no username and an activated license is never
    activated again: the call fails and the database is unchanged. *)
Theorem reactivation_leaves_state :
  (forall (d : FlatFile.Disk) (env : FlatFile.Env)
      (req : FlatFile.ActivateBody) (code username password hw : string)
      (lic : FlatFile.License),
     required (FlatFile.ab_code req) = Some code ->
     required (FlatFile.ab_username req) = Some username ->
     required (FlatFile.ab_password req) = Some password ->
     required (FlatFile.ab_hardwareID req) = Some hw ->
     In code FlatFile.VALID_LICENSE_CODES ->
     FlatFile.load_licenses_ok env = true ->
     FlatFile.load_users_ok env = true ->
     FlatFile.licenses d !! code = Some lic ->
     FlatFile.lic_hardwareID lic = hw ->
     FlatFile.lic_username lic = username ->
     FlatFile.activate_license d env req =
     (ok_json (JObj [
        ("success", JBool true);
        ("message", JStr "License re-activated");
        ("licenseType", FlatFile.licenseType code);
        ("user", JObj [
           ("username", JStr username);
           ("activatedAt", JStr (FlatFile.lic_activatedAt lic))])]), d))
  /\ (forall (db : Sqlite.Db) (env : Sqlite.Env) (req : Sqlite.ActivateBody)
        (code : string) (u : Sqlite.UserRow),
     required (Sqlite.ab_license_code req) = Some code ->
     Sqlite.get_user_by_license_code db code = Some u ->
     Sqlite.u_is_activated u = 1 ->
     status (fst (Sqlite.activate_license db env req)) <> 200
     /\ snd (Sqlite.activate_license db env req) = db).
Proof.
  split.
  - intros. by eapply flat_reactivation.
  - intros db env req code u Hc Hu Ha.
    destruct (sqlite_activation_rejected db env req code u Hc Hu Ha)
      as (H1 & H2 & _).
    by split.
Qed.

(** C3, amended. Activating an activated license with a fingerprint or
    username other than the one on record never succeeds and changes
    nothing. The failure is the already-activated error whenever the
    request passes the input validation that runs first (all fields
    present and, in the SQLite variant, a password of at least 6
    characters, counted as [password.length] counts them, in UTF-16
    code units). In the SQLite variant this holds for every
    fingerprint. *)
Theorem activated_license_rejects_other_identity :
  (forall (d : FlatFile.Disk) (env : FlatFile.Env)
      (req : FlatFile.ActivateBody) (code : string) (lic : FlatFile.License),
     FlatFile.ab_code req = Some code ->
     FlatFile.licenses d !! code = Some lic ->
     FlatFile.ab_hardwareID req <> Some (FlatFile.lic_hardwareID lic)
     \/ FlatFile.ab_username req <> Some (FlatFile.lic_username lic) ->
     status (fst (FlatFile.activate_license d env req)) <> 200
     /\ snd (FlatFile.activate_license d env req) = d
     /\ (truthy (FlatFile.ab_username req) = true ->
         truthy (FlatFile.ab_password req) = true ->
         truthy (FlatFile.ab_hardwareID req) = true ->
         In code FlatFile.VALID_LICENSE_CODES ->
         FlatFile.load_licenses_ok env = true ->
         FlatFile.load_users_ok env = true ->
         FlatFileObs.already_activated
           (fst (FlatFile.activate_license d env req))))
  /\ (forall (db : Sqlite.Db) (env : Sqlite.Env) (req : Sqlite.ActivateBody)
        (code : string) (u : Sqlite.UserRow),
     required (Sqlite.ab_license_code req) = Some code ->
     Sqlite.get_user_by_license_code db code = Some u ->
     Sqlite.u_is_activated u = 1 ->
     status (fst (Sqlite.activate_license db env req)) <> 200
     /\ snd (Sqlite.activate_license db env req) = db
     /\ (forall password,
         truthy (Sqlite.ab_hardware_id req) = true ->
         required (Sqlite.ab_password req) = Some password ->
         (6 <= str_length password)%nat ->
         fst (Sqlite.activate_license db env req) =
         Sqlite.fail 400
           "License already activated. Please use login instead.")).
Proof.
  split.
  - intros. by eapply flat_activation_mismatch.
  - intros. by eapply sqlite_activation_rejected.
Qed.

(** C6. The flat-file login looks the username up with
    [usersDB.users[username]], which also finds what the object inherits
    from [Object.prototype]. For a username that is not stored and names
    such a property ("constructor", "toString", "__proto__", ...) the
    handler does not reach its 401: it raises and answers 500 "Server
    error during login", while a known username with a password that
    does not verify is answered 401 "Invalid username or password"; the
    two answers differ and tell that the username is not stored. For
    every other unknown username, and for every unknown username in the
    SQLite variant, the two logins are answered alike, with the same 401
    body, and neither changes the store (both requests carrying their
    three fields; flat-file: the users document readable); more
    generally two such logins that differ in the username only get the
    same answer, also when the password or the hardware id is missing or
    the document cannot be read. *)
Theorem inherited_username_breaks_uniform_error :
  (forall (d : FlatFile.Disk) (env1 env2 : FlatFile.Env)
      (req1 req2 : FlatFile.LoginBody)
      (name1 pw1 hw1 name2 pw2 hw2 : string) (user : FlatFile.User),
     required (FlatFile.lb_username req1) = Some name1 ->
     required (FlatFile.lb_password req1) = Some pw1 ->
     required (FlatFile.lb_hardwareID req1) = Some hw1 ->
     required (FlatFile.lb_username req2) = Some name2 ->
     required (FlatFile.lb_password req2) = Some pw2 ->
     required (FlatFile.lb_hardwareID req2) = Some hw2 ->
     FlatFile.load_users_ok env1 = true ->
     FlatFile.load_users_ok env2 = true ->
     FlatFile.users d !! name1 = None ->
     In name1 object_prototype_keys ->
     FlatFile.users d !! name2 = Some user ->
     FlatFile.verifyPassword pw2 (FlatFile.u_salt user)
       (FlatFile.u_passwordHash user) = false ->
     FlatFile.login d env1 req1 =
       (FlatFile.fail 500 "Server error during login", d)
     /\ FlatFile.login d env2 req2 =
        (FlatFile.fail 401 "Invalid username or password", d)
     /\ fst (FlatFile.login d env1 req1) <> fst (FlatFile.login d env2 req2))
  /\ (forall (d : FlatFile.Disk) (env1 env2 : FlatFile.Env)
      (req1 req2 : FlatFile.LoginBody)
      (name1 pw1 hw1 name2 pw2 hw2 : string) (user : FlatFile.User),
     required (FlatFile.lb_username req1) = Some name1 ->
     required (FlatFile.lb_password req1) = Some pw1 ->
     required (FlatFile.lb_hardwareID req1) = Some hw1 ->
     required (FlatFile.lb_username req2) = Some name2 ->
     required (FlatFile.lb_password req2) = Some pw2 ->
     required (FlatFile.lb_hardwareID req2) = Some hw2 ->
     FlatFile.load_users_ok env1 = true ->
     FlatFile.load_users_ok env2 = true ->
     FlatFile.users d !! name1 = None ->
     ~ In name1 object_prototype_keys ->
     FlatFile.users d !! name2 = Some user ->
     FlatFile.verifyPassword pw2 (FlatFile.u_salt user)
       (FlatFile.u_passwordHash user) = false ->
     FlatFile.login d env1 req1 = FlatFile.login d env2 req2
     /\ FlatFile.login d env1 req1 =
        (FlatFile.fail 401 "Invalid username or password", d))
  /\ (forall (db : Sqlite.Db) (env1 env2 : Sqlite.Env)
        (req1 req2 : Sqlite.LoginBody)
        (name1 pw1 hw1 name2 pw2 hw2 : string) (user : Sqlite.UserRow),
     required (Sqlite.lb_username req1) = Some name1 ->
     required (Sqlite.lb_password req1) = Some pw1 ->
     required (Sqlite.lb_hardware_id req1) = Some hw1 ->
     required (Sqlite.lb_username req2) = Some name2 ->
     required (Sqlite.lb_password req2) = Some pw2 ->
     required (Sqlite.lb_hardware_id req2) = Some hw2 ->
     Sqlite.get_user_by_username db name1 = None ->
     Sqlite.get_user_by_username db name2 = Some user ->
     match required (Sqlite.u_password_hash user) with
     | Some password_hash => Sqlite.verifyPassword pw2 password_hash = false
     | None => True
     end ->
     Sqlite.login db env1 req1 = Sqlite.login db env2 req2
     /\ Sqlite.login db env1 req1 =
        (Sqlite.fail 401 "Invalid credentials", db))
  /\ (forall (d : FlatFile.Disk) (env1 env2 : FlatFile.Env)
        (name1 name2 : string) (pw hw : field) (user : FlatFile.User),
     name1 <> "" -> name2 <> "" ->
     FlatFile.load_users_ok env1 = FlatFile.load_users_ok env2 ->
     FlatFile.users d !! name1 = None ->
     ~ In name1 object_prototype_keys ->
     FlatFile.users d !! name2 = Some user ->
     (forall password, pw = Some password ->
        FlatFile.verifyPassword password (FlatFile.u_salt user)
          (FlatFile.u_passwordHash user) = false) ->
     FlatFile.login d env1 (FlatFile.mkLoginBody (Some name1) pw hw) =
     FlatFile.login d env2 (FlatFile.mkLoginBody (Some name2) pw hw))
  /\ (forall (db : Sqlite.Db) (env1 env2 : Sqlite.Env)
        (name1 name2 : string) (pw hw : field) (user : Sqlite.UserRow),
     name1 <> "" -> name2 <> "" ->
     Sqlite.get_user_by_username db name1 = None ->
     Sqlite.get_user_by_username db name2 = Some user ->
     (forall password password_hash, pw = Some password ->
        required (Sqlite.u_password_hash user) = Some password_hash ->
        Sqlite.verifyPassword password password_hash = false) ->
     Sqlite.login db env1 (Sqlite.mkLoginBody (Some name1) pw hw) =
     Sqlite.login db env2 (Sqlite.mkLoginBody (Some name2) pw hw)).
Proof.
  split; [|split; [|split; [|split;
    [apply flat_login_hides_usernames | apply sqlite_login_hides_usernames]]]].
  - intros d env1 env2 req1 req2 name1 pw1 hw1 name2 pw2 hw2 user
      Hn1 Hp1 Hh1 Hn2 Hp2 Hh2 Hl1 Hl2 Hu1 Hk1 Hu2 Hv.
    rewrite (flat_inherited_username d env1 req1 name1 pw1 hw1)
      by (auto).
    rewrite (flat_invalid_credentials d env2 req2 name2 pw2 hw2)
      by (eauto).
    split; [reflexivity|]. split; [reflexivity|]. discriminate.
  - intros d env1 env2 req1 req2 name1 pw1 hw1 name2 pw2 hw2 user
      Hn1 Hp1 Hh1 Hn2 Hp2 Hh2 Hl1 Hl2 Hu1 Hk1 Hu2 Hv.
    rewrite (flat_invalid_credentials d env1 req1 name1 pw1 hw1)
      by (auto).
    rewrite (flat_invalid_credentials d env2 req2 name2 pw2 hw2)
      by (eauto). by split.
  - intros db env1 env2 req1 req2 name1 pw1 hw1 name2 pw2 hw2 user
      Hn1 Hp1 Hh1 Hn2 Hp2 Hh2 Hu1 Hu2 Hv.
    rewrite (sqlite_invalid_credentials db env1 req1 name1 pw1 hw1)
      by (auto).
    rewrite (sqlite_invalid_credentials db env2 req2 name2 pw2 hw2)
      by (eauto). by split.
Qed.

(** C7, amended. In the SQLite variant an activation request that
    carries its three fields and a password shorter than 6 characters
    ([password.length], UTF-16 code units: a password of three accented
    letters is short whatever its byte count) fails with the
    weak-password error and changes nothing. The
    flat-file variant has no minimum length: it only refuses an absent
    or empty password, as a missing field, changing nothing. *)
Theorem short_password_rejected :
  (forall (db : Sqlite.Db) (env : Sqlite.Env) (req : Sqlite.ActivateBody)
      (password : string),
     truthy (Sqlite.ab_license_code req) = true ->
     truthy (Sqlite.ab_hardware_id req) = true ->
     required (Sqlite.ab_password req) = Some password ->
     (str_length password < 6)%nat ->
     Sqlite.activate_license db env req =
     (Sqlite.fail 400 "Password must be at least 6 characters", db))
  /\ (forall (d : FlatFile.Disk) (env : FlatFile.Env)
        (req : FlatFile.ActivateBody),
     falsy (FlatFile.ab_password req) = true ->
     FlatFile.activate_license d env req =
     (FlatFile.fail 400 "Missing required fields", d)).
Proof.
  split.
  - intros. by eapply sqlite_weak_password.
  - intros d env req Hp. unfold FlatFile.activate_license.
    assert (required (FlatFile.ab_password req) = None) as ->.
    { unfold falsy, required in *. destruct (FlatFile.ab_password req);
        [by rewrite Hp | reflexivity]. }
    by repeat case_match.
Qed.

(** C8. A password verifies against the credential derived from it, in
    both variants and for every salt. Another password verifies against
    that credential exactly when PBKDF2 maps both to the same key under
    the stored salt; that such collisions are improbable is a property
    of PBKDF2, which is a parameter here. *)
Theorem password_verifies_against_own_hash :
  (forall password salt : string,
     FlatFile.verifyPassword password salt
       (FlatFile.hashPassword password salt) = true)
  /\ (forall (env : Sqlite.Env) (password : string),
     Sqlite.verifyPassword password (Sqlite.hashPassword env password)
     = true)
  /\ (forall password other salt : string,
     FlatFile.verifyPassword other salt
       (FlatFile.hashPassword password salt) = true
     <-> pbkdf2Sync other salt 10000%N 64%N "sha512" =
         pbkdf2Sync password salt 10000%N 64%N "sha512")
  /\ (forall (env : Sqlite.Env) (password other : string),
     Sqlite.verifyPassword other (Sqlite.hashPassword env password) = true
     <-> pbkdf2Sync other (to_hex (Sqlite.random16 env)) 10000%N 64%N
           "sha512" =
         pbkdf2Sync password (to_hex (Sqlite.random16 env)) 10000%N 64%N
           "sha512").
Proof.
  split; [|split; [|split]].
  - apply flat_verify_own_hash.
  - apply sqlite_verify_own_hash.
  - apply flat_verify_other_hash.
  - apply sqlite_verify_other_hash.
Qed.

End Claims.

Section SessionClaims.
Import Js.

(** An expiry written at issuance is still greater, as TEXT, than the
    current time at every instant up to it. *)
Lemma text_gt_before_expiry (expiry today : Clock.instant) :
  0 <= today -> today <= expiry -> expiry < ClockObs.year_10000 ->
  Clock.text_gt (Clock.toISOString expiry) (Clock.sqlite_datetime today)
  = true.
Proof.
  intros H0 Hle Hmax. rewrite text_gt_iso_datetime by lia.
  apply Z.leb_le. unfold ClockObs.utc_day, Clock.ms_per_day.
  apply Z.div_le_mono; lia.
Qed.

(** What verify-session does with a session whose expiry was written by
    [toISOString]: presented with its own fingerprint, the session is
    accepted on every UTC day up to the day of its expiry, that whole
    day included, and refused from the next day on. *)
Lemma sqlite_verify_expiry_by_day (db : Sqlite.Db) (env : Sqlite.Env)
    (req : Sqlite.VerifyBody) (s : Sqlite.SessionRow) (u : Sqlite.UserRow)
    (expiry : Clock.instant) :
  In s (Sqlite.sessions db) ->
  NoDup (map Sqlite.s_session_token (Sqlite.sessions db)) ->
  In u (Sqlite.users db) -> Sqlite.u_id u = Sqlite.s_user_id s ->
  NoDup (map Sqlite.u_id (Sqlite.users db)) ->
  required (Sqlite.vb_session_token req) = Some (Sqlite.s_session_token s) ->
  required (Sqlite.vb_hardware_id req) = Some (Sqlite.s_hardware_id s) ->
  Sqlite.s_expires_at s = Clock.toISOString expiry ->
  0 <= Sqlite.now env < ClockObs.year_10000 ->
  0 <= expiry < ClockObs.year_10000 ->
  status (fst (Sqlite.verify_session db env req)) =
  if ClockObs.utc_day (Sqlite.now env) <=? ClockObs.utc_day expiry
  then 200 else 401.
Proof.
  intros Hs Hnd Hu Hid Hids Htok Hhw Hexp Hnow Hrange.
  pose proof (text_gt_iso_datetime expiry (Sqlite.now env) Hrange Hnow) as Hgt.
  destruct (ClockObs.utc_day (Sqlite.now env) <=? ClockObs.utc_day expiry).
  - erewrite sqlite_verify_same_device; eauto. by rewrite Hexp.
  - unfold Sqlite.verify_session. rewrite Htok, Hhw.
    destruct (Sqlite.select_sessions _ _ _ _) as [|[s' u'] rest] eqn:Hsel;
      [reflexivity|].
    exfalso.
    assert (Hin : (s', u') ∈ Sqlite.select_sessions db env
                               (Sqlite.s_session_token s)
                               (Sqlite.s_hardware_id s))
      by (rewrite Hsel; left).
    apply select_sessions_elem in Hin as (Hs' & _ & _ & Ht & _ & Hx).
    assert (s' = s) by (eapply same_token_same_row; eauto). subst s'.
    rewrite Hexp in Hx. congruence.
Qed.

(** C4, at the failing input. The session of the sample database
    expires on 2025-03-02 at 10:00:00Z; verified one hour later, on the
    same UTC day, with its token and fingerprint, it is still accepted:
    the stored ["2025-03-02T10:00:00.000Z"] is compared as TEXT with
    ["2025-03-02 11:00:00"], and ["T"] sorts after the space. *)
Theorem expired_session_accepted_same_day :
  let today := Samples.sql_expiry + 3600000 in
  Sqlite.sessions Samples.sql_db = [Samples.sql_session]
  /\ Sqlite.s_expires_at Samples.sql_session =
     Clock.toISOString Samples.sql_expiry
  /\ Samples.sql_expiry < today
  /\ Clock.sqlite_datetime today = "2025-03-02 11:00:00"
  /\ fst (Sqlite.verify_session Samples.sql_db (Samples.sql_env today [])
            (Sqlite.mkVerifyBody (Some "aa00") (Some "HW1"))) =
     ok_json (JObj [
       ("valid", JBool true);
       ("username", JStr "alice");
       ("license_code", JStr "0102");
       ("expires_at", JStr "2025-03-02T10:00:00.000Z")]).
Proof. vm_compute. repeat split; reflexivity. Qed.

(** C5, amended. In the SQLite variant the token of a stored session,
    presented with any other fingerprint, is refused with the one error
    this variant has for unknown, expired and mismatched sessions, and
    presented with the fingerprint it was issued for, at any instant up
    to its expiry, is accepted and answers the owning account. In the
    flat-file variant no session is stored: verification accepts every
    fingerprint registered to the account, whatever the token, and
    refuses a fingerprint that is not registered. *)
Theorem session_token_bound_to_device :
  (forall (db : Sqlite.Db) (env : Sqlite.Env) (req : Sqlite.VerifyBody)
      (s : Sqlite.SessionRow) (hw : string),
     In s (Sqlite.sessions db) ->
     NoDup (map Sqlite.s_session_token (Sqlite.sessions db)) ->
     required (Sqlite.vb_session_token req) = Some (Sqlite.s_session_token s) ->
     required (Sqlite.vb_hardware_id req) = Some hw ->
     hw <> Sqlite.s_hardware_id s ->
     Sqlite.verify_session db env req =
     (Sqlite.fail 401 "Invalid or expired session", db))
  /\ (forall (db : Sqlite.Db) (env : Sqlite.Env) (req : Sqlite.VerifyBody)
        (s : Sqlite.SessionRow) (u : Sqlite.UserRow)
        (expiry : Clock.instant),
     In s (Sqlite.sessions db) ->
     NoDup (map Sqlite.s_session_token (Sqlite.sessions db)) ->
     In u (Sqlite.users db) -> Sqlite.u_id u = Sqlite.s_user_id s ->
     NoDup (map Sqlite.u_id (Sqlite.users db)) ->
     required (Sqlite.vb_session_token req) = Some (Sqlite.s_session_token s) ->
     required (Sqlite.vb_hardware_id req) = Some (Sqlite.s_hardware_id s) ->
     Sqlite.s_expires_at s = Clock.toISOString expiry ->
     0 <= Sqlite.now env -> Sqlite.now env <= expiry ->
     expiry < ClockObs.year_10000 ->
     Sqlite.verify_session db env req =
     (ok_json (JObj [
        ("valid", JBool true);
        ("username", JStr (Sqlite.u_username u));
        ("license_code", JStr (Sqlite.u_license_code u));
        ("expires_at", JStr (Sqlite.s_expires_at s))]), db))
  /\ (forall (d : FlatFile.Disk) (env : FlatFile.Env) (username hw : string)
        (token : field) (user : FlatFile.User),
     FlatFile.load_users_ok env = true ->
     FlatFile.users d !! username = Some user ->
     (In hw (FlatFileObs.devices_of d username) ->
      FlatFile.verify_session d env
        (FlatFile.mkVerifyBody (Some username) token (Some hw)) =
      (ok_json (JObj [
         ("success", JBool true);
         ("user", JObj [
            ("username", JStr (FlatFile.u_username user));
            ("licenseType",
             FlatFile.licenseType (FlatFile.u_licenseCode user))])]), d))
     /\ (forall devs, FlatFile.u_devices user = Some devs -> ~ In hw devs ->
         FlatFile.verify_session d env
           (FlatFile.mkVerifyBody (Some username) token (Some hw)) =
         (FlatFile.fail 403 "Device not authorized", d))).
Proof.
  split; [|split].
  - intros. by eapply sqlite_verify_other_device.
  - intros db env req s u expiry Hs Hnd Hu Hid Hids Htok Hhw Hexp H0 Hle Hmax.
    eapply sqlite_verify_same_device; eauto.
    rewrite Hexp. by apply text_gt_before_expiry.
  - intros d env username hw token user Hl Hu. split.
    + intros Hin. by apply flat_verify_registered.
    + intros devs Hd Hin. by eapply flat_verify_unregistered.
Qed.

(** C9. In the flat-file variant verify-session never looks at the
    token: two requests that differ in the token only get the same
    answer and leave the same disk, and any token is accepted for an
    existing username with a fingerprint from its device list (the
    users document being readable). *)
Theorem flat_verify_session_ignores_token :
  (forall (d : FlatFile.Disk) (env : FlatFile.Env) (username t1 t2 hw : field),
     FlatFile.verify_session d env (FlatFile.mkVerifyBody username t1 hw) =
     FlatFile.verify_session d env (FlatFile.mkVerifyBody username t2 hw))
  /\ (forall (d : FlatFile.Disk) (env : FlatFile.Env) (username hw : string)
        (token : field) (user : FlatFile.User),
     FlatFile.load_users_ok env = true ->
     FlatFile.users d !! username = Some user ->
     In hw (FlatFileObs.devices_of d username) ->
     FlatFile.verify_session d env
       (FlatFile.mkVerifyBody (Some username) token (Some hw)) =
     (ok_json (JObj [
        ("success", JBool true);
        ("user", JObj [
           ("username", JStr (FlatFile.u_username user));
           ("licenseType",
            FlatFile.licenseType (FlatFile.u_licenseCode user))])]), d)).
Proof.
  split.
  - apply flat_verify_ignores_token.
  - intros. by apply flat_verify_registered.
Qed.

(** C10. In the security-code variant a request handed to the /validate
    handler is answered [valid: true] exactly when the [code] of its
    body is in [validSecurityCodes], and [valid: false] for any other
    body. The answers of /validate and /authenticate do not depend on
    the state of the process or on the clock; /authenticate leaves the
    state as it is and /validate only appends to the console. *)
Theorem validate_answers_whitelist_membership :
  (forall (w : SecurityCode.World) (env : SecurityCode.Env)
      (req : SecurityCode.Request),
     SecurityCode.reaches_validate w req ->
     (fst (SecurityCode.app w env req) = ok_json (JObj [("valid", JBool true)])
      <-> exists b code,
            SecurityCode.body req = Some b
            /\ SecurityCode.b_code b = Some code
            /\ In code SecurityCode.validSecurityCodes)
     /\ (forall b, SecurityCode.body req = Some b ->
         fst (SecurityCode.app w env req) =
         ok_json (JObj [
           ("valid",
            JBool (includes SecurityCode.validSecurityCodes
                     (SecurityCode.b_code b)))])))
  /\ (forall (w1 w2 : SecurityCode.World) (env1 env2 : SecurityCode.Env)
        (req : SecurityCode.Request),
     fst (SecurityCode.validate w1 env1 req) =
     fst (SecurityCode.validate w2 env2 req)
     /\ fst (SecurityCode.authenticate w1 env1 req) =
        fst (SecurityCode.authenticate w2 env2 req))
  /\ (forall (w : SecurityCode.World) (env : SecurityCode.Env)
        (req : SecurityCode.Request),
     snd (SecurityCode.authenticate w env req) = w
     /\ exists lines,
          SecurityCode.console (snd (SecurityCode.validate w env req)) =
          SecurityCode.console w ++ lines).
Proof.
  split; [|split].
  - intros w env req Hreach. rewrite (app_reaches_validate w env req Hreach).
    unfold SecurityCode.validate.
    destruct (SecurityCode.body req) as [b|] eqn:Hb; simpl.
    + split.
      * split.
        -- intros [= Hv]. destruct (SecurityCode.b_code b) as [code|] eqn:Hc;
             [|discriminate]. exists b, code.
           split; [reflexivity|]. split; [exact Hc|].
           exact (proj1 (includes_str_In SecurityCode.validSecurityCodes code)
                    Hv).
        -- intros (b' & code & [= <-] & Hc & Hin). rewrite Hc.
           apply (proj2 (includes_str_In SecurityCode.validSecurityCodes code))
             in Hin.
           unfold includes. by rewrite Hin.
      * by intros b' [= <-].
    + split; [|discriminate].
      split; [discriminate|]. by intros (b & code & ? & _).
  - intros w1 w2 env1 env2 req.
    unfold SecurityCode.validate, SecurityCode.authenticate.
    by repeat case_match.
  - intros w env req.
    unfold SecurityCode.validate, SecurityCode.authenticate, SecurityCode.log.
    split; [by repeat case_match|].
    destruct (SecurityCode.body req); simpl; [by eexists|].
    exists []. by rewrite app_nil_r.
Qed.

End SessionClaims.

(** ** The claims on concrete runs *)
Section Runs.
Import Js Samples.

(** C1 on the sample runs: the stores the sample calls leave are within
    the quota, and with three devices registered a login from HW4 is
    refused in both variants, the store unchanged. *)
Lemma device_quota_never_exceeded_witness :
  FlatFileObs.quota_ok flat_disk
  /\ SqliteObs.quota_ok sql_db
  /\ (FlatFileObs.limit_reached
        (fst (FlatFile.login (H := sample_crypto) flat_disk3
                (flat_env [xaa; x04])
                (FlatFile.mkLoginBody (Some "alice") (Some "secret1")
                   (Some "HW4"))))
      /\ snd (FlatFile.login (H := sample_crypto) flat_disk3
                (flat_env [xaa; x04])
                (FlatFile.mkLoginBody (Some "alice") (Some "secret1")
                   (Some "HW4"))) = flat_disk3)
  /\ (SqliteObs.limit_reached
        (fst (Sqlite.login (H := sample_crypto) sql_db3
                (sql_env t0 [xaa; x04]) (sql_login "HW4")))
      /\ snd (Sqlite.login (H := sample_crypto) sql_db3
                (sql_env t0 [xaa; x04]) (sql_login "HW4")) = sql_db3).
Proof.
  destruct (device_quota_never_exceeded (H := sample_crypto))
    as (Hflat & Hsql & _ & _ & Hadmit & Hadmit').
  split; [exact (Hflat FlatFile.empty_disk flat_calls empty_disk_quota)|].
  split; [exact (Hsql Sqlite.empty_db sql_calls empty_db_consistent)|].
  split.
  - assert (Hpass : FlatFileObs.credentials_pass (H := sample_crypto)
                      flat_disk3 (flat_env [xaa; x04])
                      (FlatFile.mkLoginBody (Some "alice") (Some "secret1")
                         (Some "HW4")) "alice" "HW4" flat_alice3).
    { repeat split; try reflexivity. exists "secret1". by split. }
    apply (proj1 (proj2 (Hadmit _ _ _ _ _ _ Hpass))).
    + vm_compute. intuition discriminate.
    + vm_compute. lia.
  - assert (Hpass : SqliteObs.credentials_pass (H := sample_crypto) sql_db3
                      (sql_login "HW4") "alice" "HW4" sql_alice3).
    { repeat split; try reflexivity; [discriminate|].
      exists "secret1", "0102:7365637265743130313032". by repeat split. }
    apply (proj1 (proj2 (Hadmit' _ (sql_env t0 [xaa; x04]) _ _ _ _ Hpass))).
    + vm_compute. intuition discriminate.
    + vm_compute. lia.
Defined.

(** The scenario of the specification, in the SQLite variant: after the
    activation on HW1, logins from HW2 and HW3 are admitted, and a login
    from HW4 is refused with three devices registered. *)
Example sqlite_fourth_device_refused :
  let db3 :=
    Sqlite.run (H := sample_crypto) sql_db
      [(sql_env t0 [xaa; x02], Sqlite.Login (sql_login "HW2"));
       (sql_env t0 [xaa; x03], Sqlite.Login (sql_login "HW3"))] in
  SqliteObs.fingerprints db3 1 = ["HW1"; "HW2"; "HW3"]
  /\ Sqlite.login (H := sample_crypto) db3 (sql_env t0 [xaa; x04])
       (sql_login "HW4") =
     (Response 403 (JObj [
        ("error", JStr
           "Maximum device limit reached (3 devices). Please deactivate a device first.");
        ("device_count", JNum 3)]), db3).
Proof. vm_compute. split; reflexivity. Qed.

(** The same scenario in the flat-file variant. *)
Example flat_fourth_device_refused :
  let d3 :=
    FlatFile.run (H := sample_crypto) flat_disk
      [(flat_env [xaa; x03], flat_login "HW3")] in
  FlatFileObs.devices_of d3 "alice" = ["HW1"; "HW2"; "HW3"]
  /\ FlatFile.login (H := sample_crypto) d3 (flat_env [xaa; x04])
       (FlatFile.mkLoginBody (Some "alice") (Some "secret1") (Some "HW4")) =
     (Response 403 (JObj [
        ("success", JBool false);
        ("error", JStr "Maximum device limit reached (3 devices)");
        ("devices", JNum 3)]), d3).
Proof. vm_compute. split; reflexivity. Qed.

(** C2, the claim as stated fails in the SQLite variant: alice's license
    is activated on HW1, and activating it again from HW1 with the same
    password is refused. *)
Lemma sqlite_refuses_identical_reactivation :
  Sqlite.get_user_by_license_code sql_db "0102" = Some sql_alice
  /\ Sqlite.u_is_activated sql_alice = 1
  /\ SqliteObs.fingerprints sql_db 1 = ["HW1"]
  /\ Sqlite.activate_license (H := sample_crypto) sql_db
       (sql_env t0 [xaa; x01]) (sql_activate "secret1" "HW1") =
     (Sqlite.fail 400 "License already activated. Please use login instead.",
      sql_db).
Proof. vm_compute. repeat split; reflexivity. Qed.

(** C2 amended, on the sample stores: alice activates again from HW1. *)
Lemma reactivation_leaves_state_witness :
  FlatFile.activate_license (H := sample_crypto) flat_disk
    (flat_env [])
    (FlatFile.mkActivateBody (Some "PSYSTUDIO-2024-PRO") (Some "alice")
       (Some "secret1") (Some "HW1")) =
  (ok_json (JObj [
     ("success", JBool true);
     ("message", JStr "License re-activated");
     ("licenseType", FlatFile.licenseType "PSYSTUDIO-2024-PRO");
     ("user", JObj [
        ("username", JStr "alice");
        ("activatedAt",
         JStr (FlatFile.lic_activatedAt flat_license))])]), flat_disk)
  /\ (status (fst (Sqlite.activate_license (H := sample_crypto) sql_db
                     (sql_env t0 [xaa; x01])
                     (sql_activate "secret1" "HW1"))) <> 200
      /\ snd (Sqlite.activate_license (H := sample_crypto) sql_db
                (sql_env t0 [xaa; x01]) (sql_activate "secret1" "HW1")) =
         sql_db).
Proof.
  destruct (reactivation_leaves_state (H := sample_crypto)) as [Hflat Hsql].
  split.
  - assert (Hlic : FlatFile.licenses flat_disk !! "PSYSTUDIO-2024-PRO"
                   = Some flat_license) by (vm_compute; reflexivity).
    apply (Hflat flat_disk (flat_env []) _ "PSYSTUDIO-2024-PRO" "alice"
             "secret1" "HW1" flat_license);
      first [reflexivity | exact Hlic | simpl; tauto].
  - exact (Hsql sql_db (sql_env t0 [xaa; x01]) (sql_activate "secret1" "HW1")
             "0102" sql_alice eq_refl eq_refl eq_refl).
Defined.

(** C3, the claim as stated fails in the SQLite variant: alice's license
    is activated on HW1; an activation from HW2 with a 3-character
    password is answered with the weak-password error, not with the
    already-activated one. *)
Lemma weak_password_error_on_activated_license :
  Sqlite.get_user_by_license_code sql_db "0102" = Some sql_alice
  /\ Sqlite.u_is_activated sql_alice = 1
  /\ SqliteObs.fingerprints sql_db 1 = ["HW1"]
  /\ Sqlite.activate_license (H := sample_crypto) sql_db
       (sql_env t0 [xaa; x01]) (sql_activate "abc" "HW2") =
     (Sqlite.fail 400 "Password must be at least 6 characters", sql_db).
Proof. vm_compute. repeat split; reflexivity. Qed.

(** C3 amended, on the sample stores: activation from HW2. *)
Lemma activated_license_rejects_other_identity_witness :
  FlatFileObs.already_activated
    (fst (FlatFile.activate_license (H := sample_crypto) flat_disk
            (flat_env [])
            (FlatFile.mkActivateBody (Some "PSYSTUDIO-2024-PRO")
               (Some "alice") (Some "secret1") (Some "HW2"))))
  /\ Sqlite.activate_license (H := sample_crypto) sql_db
       (sql_env t0 [xaa; x01]) (sql_activate "secret1" "HW2") =
     (Sqlite.fail 400 "License already activated. Please use login instead.",
      sql_db).
Proof.
  destruct (activated_license_rejects_other_identity (H := sample_crypto))
    as [Hflat Hsql].
  split.
  - apply (Hflat flat_disk (flat_env []) _ "PSYSTUDIO-2024-PRO" flat_license);
      first [reflexivity | left; discriminate | simpl; tauto].
  - destruct (Hsql sql_db (sql_env t0 [xaa; x01])
                (sql_activate "secret1" "HW2") "0102" sql_alice
                eq_refl eq_refl eq_refl)
      as (_ & Hdb & Hfail).
    apply injective_projections; [|exact Hdb].
    apply (Hfail "secret1"); first [reflexivity | simpl; lia].
Defined.

(** C5, the claim as stated fails in the flat-file variant: the login
    from HW1 is answered with token ["aa01"], and that token presented
    from HW2, another device of alice, is accepted. *)
Lemma flat_token_accepted_from_other_device :
  fst (FlatFile.handle (H := sample_crypto)
         (FlatFile.run (H := sample_crypto) FlatFile.empty_disk
            (firstn 2 flat_calls))
         (flat_env [xaa; x01], flat_login "HW1")) =
  ok_json (JObj [
    ("success", JBool true);
    ("message", JStr "Login successful");
    ("token", JStr "aa01");
    ("user", JObj [
       ("username", JStr "alice");
       ("licenseCode", JStr "PSYSTUDIO-2024-PRO");
       ("licenseType", JStr "full");
       ("devicesUsed", JNum 2)])])
  /\ fst (FlatFile.verify_session flat_disk (flat_env [])
            (FlatFile.mkVerifyBody (Some "alice") (Some "aa01")
               (Some "HW2"))) =
     ok_json (JObj [
       ("success", JBool true);
       ("user", JObj [
          ("username", JStr "alice"); ("licenseType", JStr "full")])]).
Proof. vm_compute. split; reflexivity. Qed.

(** C5 amended, on the sample database: the session of HW1 presented
    from HW2, and from HW1 one second after it was issued. *)
Lemma session_token_bound_to_device_witness :
  Sqlite.verify_session sql_db (sql_env (t0 + 1000) [])
    (Sqlite.mkVerifyBody (Some "aa00") (Some "HW2")) =
  (Sqlite.fail 401 "Invalid or expired session", sql_db)
  /\ Sqlite.verify_session sql_db (sql_env (t0 + 1000) [])
       (Sqlite.mkVerifyBody (Some "aa00") (Some "HW1")) =
     (ok_json (JObj [
        ("valid", JBool true);
        ("username", JStr "alice");
        ("license_code", JStr "0102");
        ("expires_at", JStr (Clock.toISOString sql_expiry))]), sql_db)
  /\ FlatFile.verify_session flat_disk (flat_env [])
       (FlatFile.mkVerifyBody (Some "alice") (Some "aa01") (Some "HW3")) =
     (FlatFile.fail 403 "Device not authorized", flat_disk).
Proof.
  destruct session_token_bound_to_device as (Hother & Hsame & Hflat).
  assert (Hs : In sql_session (Sqlite.sessions sql_db))
    by (vm_compute; left; reflexivity).
  assert (Hu : In sql_alice (Sqlite.users sql_db))
    by (vm_compute; left; reflexivity).
  assert (Hnd : NoDup (map Sqlite.s_session_token (Sqlite.sessions sql_db)))
    by (vm_compute; apply NoDup_singleton).
  assert (Hids : NoDup (map Sqlite.u_id (Sqlite.users sql_db)))
    by (vm_compute; apply NoDup_singleton).
  split; [|split].
  - apply (Hother sql_db _ _ sql_session "HW2" Hs Hnd);
      [reflexivity | reflexivity | discriminate].
  - apply (Hsame sql_db _ _ sql_session sql_alice sql_expiry Hs Hnd Hu);
      first [reflexivity | exact Hids | vm_compute; congruence].
  - assert (Hl : FlatFile.load_users_ok (flat_env []) = true)
      by reflexivity.
    assert (Hus : FlatFile.users flat_disk !! "alice" = Some flat_alice)
      by (vm_compute; reflexivity).
    apply (proj2 (Hflat flat_disk (flat_env []) "alice" "HW3"
                    (Some "aa01") flat_alice Hl Hus) ["HW1"; "HW2"]);
      [reflexivity | simpl; intuition discriminate].
Defined.

(** C6 on the sample stores: nobody is called constructor or bob, and
    alice's password is not ["guess"]. The login as constructor is
    answered 500, the login as alice 401; the login as bob is answered
    as the login as alice is, in both variants. *)
Lemma inherited_username_breaks_uniform_error_witness :
  (FlatFile.login (H := sample_crypto) flat_disk (flat_env [x01])
     (FlatFile.mkLoginBody (Some "constructor") (Some "guess") (Some "HW1")) =
   (FlatFile.fail 500 "Server error during login", flat_disk)
   /\ FlatFile.login (H := sample_crypto) flat_disk (flat_env [x02])
        (FlatFile.mkLoginBody (Some "alice") (Some "guess") (Some "HW1")) =
      (FlatFile.fail 401 "Invalid username or password", flat_disk))
  /\ FlatFile.login (H := sample_crypto) flat_disk (flat_env [x01])
       (FlatFile.mkLoginBody (Some "bob") (Some "guess") (Some "HW1")) =
     FlatFile.login (H := sample_crypto) flat_disk (flat_env [x02])
       (FlatFile.mkLoginBody (Some "alice") (Some "guess") (Some "HW1"))
  /\ Sqlite.login (H := sample_crypto) sql_db (sql_env t0 [x01])
       (Sqlite.mkLoginBody (Some "bob") (Some "guess") (Some "HW1")) =
     Sqlite.login (H := sample_crypto) sql_db (sql_env t0 [x02])
       (Sqlite.mkLoginBody (Some "alice") (Some "guess") (Some "HW1")).
Proof.
  destruct (inherited_username_breaks_uniform_error (H := sample_crypto))
    as (Hproto & Hflat & Hsql & _).
  split; [|split].
  - destruct (Hproto flat_disk (flat_env [x01]) (flat_env [x02])
                (FlatFile.mkLoginBody (Some "constructor") (Some "guess")
                   (Some "HW1"))
                (FlatFile.mkLoginBody (Some "alice") (Some "guess")
                   (Some "HW1"))
                "constructor" "guess" "HW1" "alice" "guess" "HW1" flat_alice
                eq_refl eq_refl eq_refl eq_refl eq_refl eq_refl
                eq_refl eq_refl eq_refl (or_introl eq_refl) eq_refl eq_refl)
      as (H500 & H401 & _).
    split; [exact H500 | exact H401].
  - refine (proj1 (Hflat flat_disk (flat_env [x01]) (flat_env [x02])
                     (FlatFile.mkLoginBody (Some "bob") (Some "guess")
                        (Some "HW1"))
                     (FlatFile.mkLoginBody (Some "alice") (Some "guess")
                        (Some "HW1"))
                     "bob" "guess" "HW1" "alice" "guess" "HW1" flat_alice
                     eq_refl eq_refl eq_refl eq_refl eq_refl eq_refl
                     eq_refl eq_refl eq_refl _ eq_refl eq_refl)).
    intros Hin. apply includes_str_In in Hin. discriminate Hin.
  - refine (proj1 (Hsql sql_db (sql_env t0 [x01]) (sql_env t0 [x02])
                     (Sqlite.mkLoginBody (Some "bob") (Some "guess")
                        (Some "HW1"))
                     (Sqlite.mkLoginBody (Some "alice") (Some "guess")
                        (Some "HW1"))
                     "bob" "guess" "HW1" "alice" "guess" "HW1" sql_alice
                     _ _ _ _ _ _ _ _ _));
      first [reflexivity | vm_compute; reflexivity].
Defined.

(** C7, the claim as stated fails in the flat-file variant: an
    activation with the 3-character password ["abc"] succeeds and
    stores the account, its device and the license. *)
Lemma flat_accepts_short_password :
  (str_length "abc" < 6)%nat
  /\ status (fst (FlatFile.handle (H := sample_crypto) FlatFile.empty_disk
                    (flat_env [], flat_activate "abc" "HW1"))) = 200
  /\ FlatFileObs.devices_of
       (snd (FlatFile.handle (H := sample_crypto) FlatFile.empty_disk
               (flat_env [], flat_activate "abc" "HW1"))) "alice" = ["HW1"]
  /\ FlatFile.lic_username
       <$> FlatFile.licenses
             (snd (FlatFile.handle (H := sample_crypto) FlatFile.empty_disk
                     (flat_env [], flat_activate "abc" "HW1")))
           !! "PSYSTUDIO-2024-PRO" = Some "alice".
Proof. vm_compute. repeat split; lia || reflexivity. Qed.

(** C7 amended, on the fresh stores: a password of three accented
    letters (six bytes, three UTF-16 code units) in the SQLite variant,
    no password in the flat-file variant. *)
Lemma short_password_rejected_witness :
  Sqlite.activate_license (H := sample_crypto) Sqlite.empty_db
    (sql_env t0 []) (sql_activate "ééé" "HW1") =
  (Sqlite.fail 400 "Password must be at least 6 characters", Sqlite.empty_db)
  /\ FlatFile.activate_license (H := sample_crypto) FlatFile.empty_disk
       (flat_env [])
       (FlatFile.mkActivateBody (Some "PSYSTUDIO-2024-PRO") (Some "alice")
          (Some "") (Some "HW1")) =
     (FlatFile.fail 400 "Missing required fields", FlatFile.empty_disk).
Proof.
  destruct (short_password_rejected (H := sample_crypto)) as [Hsql Hflat].
  split.
  - apply (Hsql Sqlite.empty_db _ _ "ééé");
      first [reflexivity | vm_compute; lia].
  - apply Hflat. reflexivity.
Defined.

(** C8 with the stand-in derivation. *)
Lemma password_verifies_against_own_hash_witness :
  FlatFile.verifyPassword (H := sample_crypto) "secret1" "0102"
    (FlatFile.hashPassword (H := sample_crypto) "secret1" "0102") = true.
Proof.
  exact (proj1 (password_verifies_against_own_hash (H := sample_crypto))
           "secret1" "0102").
Defined.

(** C9 on the sample disk: HW2 with a token nobody issued. *)
Lemma flat_verify_session_ignores_token_witness :
  FlatFile.verify_session flat_disk (flat_env [])
    (FlatFile.mkVerifyBody (Some "alice") (Some "no such token")
       (Some "HW2")) =
  (ok_json (JObj [
     ("success", JBool true);
     ("user", JObj [
        ("username", JStr "alice");
        ("licenseType", FlatFile.licenseType "PSYSTUDIO-2024-PRO")])]),
   flat_disk).
Proof.
  apply (proj2 flat_verify_session_ignores_token flat_disk _ "alice" "HW2" _
           flat_alice);
    first [reflexivity | vm_compute; reflexivity
          | vm_compute; right; left; reflexivity].
Defined.

(** C10 on two requests: a listed code and another one. *)
Lemma validate_answers_whitelist_membership_witness :
  fst (SecurityCode.app (SecurityCode.mkWorld []) (SecurityCode.mkEnv t0)
         (code_request (Some "0a2x0c9xwy9z6262y392010"))) =
  ok_json (JObj [("valid", JBool true)])
  /\ fst (SecurityCode.app (SecurityCode.mkWorld []) (SecurityCode.mkEnv t0)
            (code_request (Some "letmein"))) =
     ok_json (JObj [("valid", JBool false)]).
Proof.
  destruct validate_answers_whitelist_membership as (Hvalid & _).
  assert (Hreach : forall code,
            SecurityCode.reaches_validate (SecurityCode.mkWorld [])
              (code_request code)) by (intros code; repeat split).
  split.
  - exact (proj2 (Hvalid _ (SecurityCode.mkEnv t0) _ (Hreach _))
             (SecurityCode.mkBody None None None
                (Some "0a2x0c9xwy9z6262y392010")) eq_refl).
  - exact (proj2 (Hvalid _ (SecurityCode.mkEnv t0) _ (Hreach _))
             (SecurityCode.mkBody None None None (Some "letmein")) eq_refl).
Defined.

End Runs.

(** ** Further properties: the security-code variant *)
Section SecurityGate.
Import Js SecurityCode.

(** X1. The security gate. Outside /health, a request whose security
    code (the header, or the body's [securityCode] when the header is
    absent or empty) is not listed is answered 401 by the middleware,
    whatever its method and path, and nothing but the console line is
    written. A header that is present and not listed is refused even
    when the body carries a listed [securityCode]: the header is looked
    at first. GET /health is answered without any code. *)
Theorem security_gate :
  (forall (w : World) (env : Env) (req : Request),
     path req <> "/health" ->
     includes validSecurityCodes
       (or_else (x_security_code req) (body_securityCode req)) = false ->
     app w env req =
     (Response 401 (JObj [
        ("valid", JBool false);
        ("error", JStr "Unauthorized: Invalid security code")]),
      log w "[Security] Unauthorized access attempt - Invalid or missing security code"))
  /\ (forall (w : World) (env : Env) (req : Request) (header : string),
     path req <> "/health" ->
     x_security_code req = Some header -> header <> "" ->
     ~ In header validSecurityCodes ->
     fst (app w env req) =
     Response 401 (JObj [
       ("valid", JBool false);
       ("error", JStr "Unauthorized: Invalid security code")]))
  /\ (forall (w : World) (env : Env) (req : Request),
     method req = "GET" -> path req = "/health" ->
     app w env req =
     (ok_json (JObj [("status", JStr "Server is running")]), w)).
Proof.
  assert (Hfirst : forall (w : World) (env : Env) (req : Request),
     path req <> "/health" ->
     includes validSecurityCodes
       (or_else (x_security_code req) (body_securityCode req)) = false ->
     app w env req =
     (Response 401 (JObj [
        ("valid", JBool false);
        ("error", JStr "Unauthorized: Invalid security code")]),
      log w "[Security] Unauthorized access attempt - Invalid or missing security code")).
  { intros w env req Hpath Hinc. unfold app, security_middleware.
    destruct (String.eqb_spec (path req) "/health") as [He|_]; [done|].
    rewrite Hinc. cbn [negb]. by rewrite orb_true_r. }
  split; [exact Hfirst|]. split.
  - intros w env req header Hpath Hh Hne Hnot.
    rewrite Hfirst; [reflexivity | exact Hpath |].
    unfold or_else, truthy, falsy. rewrite Hh.
    destruct (String.eqb_spec header "") as [He|_]; [done|].
    cbn [negb includes]. by apply includes_str_false.
  - intros w env req Hm Hp. unfold app, security_middleware, route.
    by rewrite Hm, Hp.
Qed.

(** X2. A POST /authenticate that gets past the middleware and has a
    body is answered [authenticated: true] when the body's [code] is
    listed and 401 [authenticated: false] otherwise, so a listed code in
    the header does not authenticate a body without a listed [code]; the
    state is left as it was. *)
Theorem authenticate_needs_listed_code (w : World) (env : Env)
    (req : Request) (b : Body) :
  fst (security_middleware w req) = Next ->
  method req = "POST" -> path req = "/authenticate" ->
  body req = Some b ->
  app w env req =
  (if includes validSecurityCodes (b_code b)
   then ok_json (JObj [
          ("authenticated", JBool true);
          ("message", JStr "Authentication successful")])
   else Response 401 (JObj [
          ("authenticated", JBool false);
          ("error", JStr "Authentication failed: Invalid security code")]),
   w).
Proof.
  intros Hmw Hm Hp Hb. unfold app, security_middleware in *.
  rewrite Hp in *. cbn [String.eqb] in *.
  change (String.eqb "/authenticate" "/health") with false in *.
  cbv iota in *.
  destruct (falsy _ || negb _); [discriminate|].
  unfold route. rewrite Hm, Hp.
  change (String.eqb "POST" "GET") with false.
  change (String.eqb "POST" "POST") with true.
  change (String.eqb "/authenticate" "/validate") with false.
  change (String.eqb "/authenticate" "/authenticate") with true.
  cbn [andb]. unfold authenticate. rewrite Hb.
  by destruct (includes validSecurityCodes (b_code b)).
Qed.

End SecurityGate.

(** ** Further properties: the flat-file variant *)
Section FlatFileSteps.
Import Js FlatFile FlatFileObs FlatFileInv.
Context `{Crypto}.

Lemma activate_license_fresh (d : Disk) (env : Env) (req : ActivateBody)
    (code username password hw : string) :
  required (ab_code req) = Some code ->
  required (ab_username req) = Some username ->
  required (ab_password req) = Some password ->
  required (ab_hardwareID req) = Some hw ->
  In code VALID_LICENSE_CODES ->
  load_licenses_ok env = true -> load_users_ok env = true ->
  licenses d !! code = None ->
  users d !! username = None ->
  ~ In username object_prototype_keys ->
  snd (activate_license d env req) =
    mkDisk
      (if save_licenses_ok env
       then <[code := new_license env code username hw]> (licenses d)
       else licenses d)
      (if save_users_ok env
       then <[username := new_user env code username password hw]> (users d)
       else users d)
  /\ status (fst (activate_license d env req)) =
     (if save_users_ok env && save_licenses_ok env then 200 else 500).
Proof.
  intros Hc Hn Hp Hh Hvalid Hll Hlu Hlic Hus Hkey.
  unfold activate_license. rewrite Hc, Hn, Hp, Hh.
  apply includes_str_In in Hvalid. rewrite Hvalid, Hll, Hlu. simpl.
  rewrite Hlic, (proj2 (get_property_Undefined _ _) (conj Hus Hkey)).
  unfold saveDatabase.
  by destruct (save_users_ok env), (save_licenses_ok env).
Qed.

Lemma activate_license_cases (d : Disk) (env : Env) (req : ActivateBody) :
  snd (activate_license d env req) = d
  \/ exists code username password hw,
       In code VALID_LICENSE_CODES
       /\ licenses d !! code = None /\ users d !! username = None
       /\ snd (activate_license d env req) =
          mkDisk
            (if save_licenses_ok env
             then <[code := new_license env code username hw]> (licenses d)
             else licenses d)
            (if save_users_ok env
             then <[username := new_user env code username password hw]>
                    (users d)
             else users d).
Proof.
  unfold activate_license, loadDatabase.
  repeat (case_match; try (by left)); simplify_eq; right.
  all: match goal with
       | Hc : required _ = Some ?c, Hn : required (ab_username _) = Some ?n,
         Hp : required (ab_password _) = Some ?p,
         Hh : required (ab_hardwareID _) = Some ?h |- _ =>
         exists c, n, p, h
       end.
  all: match goal with
       | Hv : negb (includes_str _ _) = false |- _ =>
         apply negb_false_iff, includes_str_In in Hv
       end.
  all: match goal with
       | Hg : get_property _ _ = Undefined |- _ =>
         apply get_property_Undefined in Hg as [Hg _]
       end.
  all: unfold saveDatabase in *;
       destruct (save_users_ok env), (save_licenses_ok env); simplify_eq;
       by repeat split.
Qed.

Lemma login_cases (d : Disk) (env : Env) (req : LoginBody) :
  snd (login d env req) = d
  \/ exists username hw user devs,
       users d !! username = Some user
       /\ admit_device (u_devices user) hw = Some devs
       /\ snd (login d env req) =
          mkDisk (licenses d)
            (<[username :=
                 mkUser (u_username user) (u_passwordHash user) (u_salt user)
                   (u_licenseCode user) (u_hardwareID user) (Some devs)
                   (u_createdAt user) (Clock.toISOString (now env))]>
               (users d)).
Proof.
  unfold login, loadDatabase.
  repeat (case_match; try (by left)); simplify_eq.
  match goal with
  | Hg : get_property _ _ = Own _ |- _ => apply get_property_Own in Hg
  end.
  unfold saveDatabase in *.
  destruct (save_users_ok env); simplify_eq; [|left; by destruct d].
  right. do 4 eexists. by repeat split.
Qed.

Lemma handle_reads (d : Disk) (env : Env) (r : request) :
  match r with
  | VerifySession _ | CheckLicense _ => snd (handle d (env, r)) = d
  | _ => True
  end.
Proof.
  destruct r; try exact I; simpl.
  - unfold verify_session. by repeat case_match.
  - unfold check_license. by repeat case_match.
Qed.

(** A property of disks that every write of the two handlers keeps is
    kept by every sequence of calls. *)
Lemma run_invariant (P : Disk -> Prop) :
  (forall d env req, P d -> P (snd (activate_license d env req))) ->
  (forall d env req, P d -> P (snd (login d env req))) ->
  forall calls d, P d -> P (run d calls).
Proof.
  intros Hact Hlog calls. induction calls as [|[env r] calls IH];
    intros d HP; [exact HP|].
  apply IH. destruct r as [b|b|b|b]; simpl.
  - by apply Hact.
  - by apply Hlog.
  - pose proof (handle_reads d env (VerifySession b)) as Hr. simpl in Hr.
    by rewrite Hr.
  - pose proof (handle_reads d env (CheckLicense b)) as Hr. simpl in Hr.
    by rewrite Hr.
Qed.

Lemma admit_device_cases (devices : option (list string)) (hw : string)
    (devs : list string) :
  admit_device devices hw = Some devs ->
  (devs = default [] devices /\ In hw devs)
  \/ (devs = default [] devices ++ [hw] /\ ~ In hw (default [] devices)
      /\ (length (default [] devices) < 3)%nat).
Proof.
  unfold admit_device. intros Hadm.
  destruct devices as [l|]; simpl; repeat case_match; simplify_eq.
  - right. split; [reflexivity|].
    split; [by apply includes_str_false, negb_true_iff|].
    by apply Nat.leb_gt.
  - left. split; [reflexivity|]. by apply includes_str_In, negb_false_iff.
  - right. simpl. split; [reflexivity|]. split; [tauto | lia].
Qed.

Lemma keyed_activate (d : Disk) (env : Env) (req : ActivateBody) :
  keyed d -> keyed (snd (activate_license d env req)).
Proof.
  intros [Hl Hu].
  destruct (activate_license_cases d env req)
    as [-> | (code & username & password & hw & Hv & _ & _ & ->)];
    [by split|].
  split; simpl.
  - intros c lic. destruct (save_licenses_ok env); [|apply Hl].
    rewrite lookup_insert. case_decide; [|apply Hl].
    intros [= <-]. by subst.
  - intros n u. destruct (save_users_ok env); [|apply Hu].
    rewrite lookup_insert. case_decide; [|apply Hu].
    by intros [= <-].
Qed.

Lemma keyed_login (d : Disk) (env : Env) (req : LoginBody) :
  keyed d -> keyed (snd (login d env req)).
Proof.
  intros [Hl Hu].
  destruct (login_cases d env req)
    as [-> | (username & hw & user & devs & Hus & _ & ->)]; [by split|].
  split; simpl; [exact Hl|].
  intros n u. rewrite lookup_insert. case_decide; [|apply Hu].
  intros [= <-]. simpl. subst. by apply Hu.
Qed.

Lemma distinct_activate (d : Disk) (env : Env) (req : ActivateBody) :
  devices_distinct d -> devices_distinct (snd (activate_license d env req)).
Proof.
  intros Hd.
  destruct (activate_license_cases d env req)
    as [-> | (code & username & password & hw & _ & _ & _ & ->)];
    [exact Hd|].
  intros other. destruct (save_users_ok env); [|apply Hd].
  rewrite devices_of_insert. case_decide; [|apply Hd].
  simpl. apply NoDup_singleton.
Qed.

Lemma distinct_login (d : Disk) (env : Env) (req : LoginBody) :
  devices_distinct d -> devices_distinct (snd (login d env req)).
Proof.
  intros Hd.
  destruct (login_cases d env req)
    as [-> | (username & hw & user & devs & Hus & Hadm & ->)]; [exact Hd|].
  intros other. rewrite devices_of_insert. case_decide; [|apply Hd].
  simpl. specialize (Hd username). unfold devices_of in Hd.
  rewrite Hus in Hd.
  destruct (admit_device_cases _ _ _ Hadm) as [[-> _] | (-> & Hnot & _)];
    [exact Hd|].
  apply NoDup_app. split; [exact Hd|]. split; [|apply NoDup_singleton].
  intros x Hx ->%list_elem_of_singleton. by apply Hnot, list_elem_of_In.
Qed.

Lemma prefix_activate (d : Disk) (env : Env) (req : ActivateBody)
    (name : string) :
  devices_of d name `prefix_of`
    devices_of (snd (activate_license d env req)) name.
Proof.
  destruct (activate_license_cases d env req)
    as [-> | (code & username & password & hw & _ & _ & Hfree & ->)];
    [done|].
  destruct (save_users_ok env); [|done].
  rewrite devices_of_insert. case_decide; [|done].
  subst. unfold devices_of. rewrite Hfree. apply prefix_nil.
Qed.

Lemma prefix_login (d : Disk) (env : Env) (req : LoginBody) (name : string) :
  devices_of d name `prefix_of` devices_of (snd (login d env req)) name.
Proof.
  destruct (login_cases d env req)
    as [-> | (username & hw & user & devs & Hus & Hadm & ->)]; [done|].
  rewrite devices_of_insert. case_decide; [|done].
  subst. unfold devices_of. rewrite Hus. simpl.
  destruct (admit_device_cases _ _ _ Hadm) as [[-> _] | (-> & _)];
    [done | by apply prefix_app_r].
Qed.

Lemma identity_activate (d : Disk) (env : Env) (req : ActivateBody)
    (name : string) (u : User) :
  users d !! name = Some u ->
  users (snd (activate_license d env req)) !! name = Some u.
Proof.
  intros Hu.
  destruct (activate_license_cases d env req)
    as [-> | (code & username & password & hw & _ & _ & Hfree & ->)];
    [exact Hu|].
  simpl. destruct (save_users_ok env); [|exact Hu].
  rewrite lookup_insert_ne; [exact Hu | congruence].
Qed.

Lemma identity_login (d : Disk) (env : Env) (req : LoginBody)
    (name : string) (u : User) :
  users d !! name = Some u ->
  exists u', users (snd (login d env req)) !! name = Some u'
             /\ identity u' = identity u.
Proof.
  intros Hu.
  destruct (login_cases d env req)
    as [-> | (username & hw & user & devs & Hus & Hadm & ->)]; [by exists u|].
  simpl. rewrite lookup_insert. case_decide; [|by exists u].
  subst. rewrite Hus in Hu. injection Hu as <-. by eexists.
Qed.

Lemma license_kept_activate (d : Disk) (env : Env) (req : ActivateBody)
    (code : string) (lic : License) :
  licenses d !! code = Some lic ->
  licenses (snd (activate_license d env req)) !! code = Some lic.
Proof.
  intros Hl.
  destruct (activate_license_cases d env req)
    as [-> | (c & username & password & hw & _ & Hfree & _ & ->)];
    [exact Hl|].
  simpl. destruct (save_licenses_ok env); [|exact Hl].
  rewrite lookup_insert_ne; [exact Hl | congruence].
Qed.

Lemma license_kept_login (d : Disk) (env : Env) (req : LoginBody) :
  licenses (snd (login d env req)) = licenses d.
Proof.
  destruct (login_cases d env req)
    as [-> | (username & hw & user & devs & _ & _ & ->)]; reflexivity.
Qed.

End FlatFileSteps.

Section FlatFileLifecycle.
Import Js FlatFile FlatFileObs FlatFileInv.
Context `{Crypto}.

(** X3. Whatever calls are handled, the two documents stay well formed:
    every license is stored under its own code, a listed one, so the
    licenses document never holds more than three entries; every user is
    stored under their own username; no device list repeats a
    fingerprint. *)
Theorem flat_store_stays_well_formed (d : Disk)
    (calls : list (Env * request)) :
  keyed d -> devices_distinct d ->
  keyed (run d calls) /\ devices_distinct (run d calls)
  /\ (size (licenses (run d calls)) <= 3)%nat.
Proof.
  intros Hk Hd.
  assert (Hk' : keyed (run d calls)).
  { clear Hd. revert d Hk. apply run_invariant.
    - intros. by apply keyed_activate.
    - intros. by apply keyed_login. }
  split; [exact Hk'|]. split.
  - clear Hk Hk'. revert d Hd. apply run_invariant.
    + intros. by apply distinct_activate.
    + intros. by apply distinct_login.
  - destruct Hk' as [Hl _].
    assert (Hsub : dom (licenses (run d calls))
                   ⊆ (list_to_set VALID_LICENSE_CODES : gset string)).
    { intros code [lic Hlic]%elem_of_dom.
      apply elem_of_list_to_set, list_elem_of_In. by apply (Hl code lic). }
    apply subseteq_size in Hsub. rewrite size_dom in Hsub.
    etrans; [exact Hsub|]. by vm_compute.
Qed.

(** X4. When the calls are handled one after the other, each handler
    finishing before the next one starts (which is what [run] is), no
    call removes a device: the device list of an account before such a
    sequence of calls is a prefix of its list afterwards. Calls that
    overlap between a handler's read and its rewrite of the users
    document are not covered. *)
Theorem flat_devices_only_grow (d : Disk) (calls : list (Env * request))
    (username : string) :
  devices_of d username `prefix_of` devices_of (run d calls) username.
Proof.
  apply (run_invariant
           (fun d' => devices_of d username `prefix_of` devices_of d' username));
    [| |done].
  - intros d' env req Hp. etrans; [exact Hp | apply prefix_activate].
  - intros d' env req Hp. etrans; [exact Hp | apply prefix_login].
Qed.

(** X5. When the calls are handled one after the other, each handler
    finishing before the next one starts (which is what [run] is), what
    is stored at activation stays: a license record is never changed or
    removed by later calls, and a user record keeps its username,
    password hash, salt, license code, first hardware id and creation
    time (later calls touch its device list and last login only). Calls
    that overlap between a handler's reads and its rewrites of the
    documents are not covered. *)
Theorem flat_activation_is_permanent (d : Disk)
    (calls : list (Env * request)) :
  (forall code lic, licenses d !! code = Some lic ->
     licenses (run d calls) !! code = Some lic)
  /\ (forall name u, users d !! name = Some u ->
      exists u', users (run d calls) !! name = Some u'
                 /\ identity u' = identity u).
Proof.
  split.
  - intros code lic Hl. revert d Hl.
    apply (run_invariant (fun d' => licenses d' !! code = Some lic)).
    + intros. by apply license_kept_activate.
    + intros d env req Hl. by rewrite license_kept_login.
  - intros name u Hu.
    apply (run_invariant
             (fun d' => exists u', users d' !! name = Some u'
                                   /\ identity u' = identity u));
      [| |by exists u].
    + intros d' env req (u' & Hu' & Hid). exists u'.
      split; [by apply identity_activate | exact Hid].
    + intros d' env req (u' & Hu' & Hid).
      destruct (identity_login d' env req name u' Hu') as (u'' & Hu'' & Hid').
      exists u''. split; [exact Hu'' | congruence].
Qed.

(** X6. A first activation (listed code not yet activated, all fields
    present, documents readable) with a free username, one that is
    neither stored nor the name of a property of [Object.prototype],
    writes the users document and the licenses document independently of
    each other: each gets its new entry exactly when its own write goes
    through, and the answer is 200 only when both do, 500 otherwise, so
    a failed write of one document leaves the other one written. With a
    username that is already stored, or that names a property of
    [Object.prototype] ("constructor", "toString", ...), the activation
    is refused as "Username already taken" and nothing is written. *)
Theorem first_activation_writes_each_document (d : Disk) (env : Env)
    (req : ActivateBody) (code username password hw : string) :
  required (ab_code req) = Some code ->
  required (ab_username req) = Some username ->
  required (ab_password req) = Some password ->
  required (ab_hardwareID req) = Some hw ->
  In code VALID_LICENSE_CODES ->
  load_licenses_ok env = true -> load_users_ok env = true ->
  licenses d !! code = None ->
  (users d !! username = None -> ~ In username object_prototype_keys ->
   snd (activate_license d env req) =
     mkDisk
       (if save_licenses_ok env
        then <[code := new_license env code username hw]> (licenses d)
        else licenses d)
       (if save_users_ok env
        then <[username := new_user env code username password hw]> (users d)
        else users d)
   /\ status (fst (activate_license d env req)) =
      (if save_users_ok env && save_licenses_ok env then 200 else 500))
  /\ (is_Some (users d !! username) \/ In username object_prototype_keys ->
      activate_license d env req = (fail 400 "Username already taken", d)).
Proof.
  intros Hc Hn Hp Hh Hvalid Hll Hlu Hlic. split.
  - intros Hus Hkey. by apply activate_license_fresh.
  - intros Htaken. unfold activate_license. rewrite Hc, Hn, Hp, Hh.
    apply includes_str_In in Hvalid. rewrite Hvalid, Hll, Hlu. simpl.
    rewrite Hlic. unfold get_property.
    destruct (users d !! username) as [u|] eqn:Hus; [reflexivity|].
    destruct Htaken as [[u Hu] | Hin]; [discriminate|].
    apply includes_str_In in Hin. by rewrite Hin.
Qed.

(** X7. The password chosen at a successful first activation (of a
    username that is neither stored nor the name of a property of
    [Object.prototype]) logs in:
    right after it, a login with the same username and password is
    answered 200 from the activating device and from any other one, and
    (the write going through) the account then holds the activating
    device, followed by the other one if it is new. *)
Theorem flat_login_after_activation (d : Disk) (env env' : Env)
    (req : ActivateBody) (req' : LoginBody)
    (code username password hw hw' : string) :
  required (ab_code req) = Some code ->
  required (ab_username req) = Some username ->
  required (ab_password req) = Some password ->
  required (ab_hardwareID req) = Some hw ->
  In code VALID_LICENSE_CODES ->
  load_licenses_ok env = true -> load_users_ok env = true ->
  save_licenses_ok env = true -> save_users_ok env = true ->
  licenses d !! code = None -> users d !! username = None ->
  ~ In username object_prototype_keys ->
  required (lb_username req') = Some username ->
  required (lb_password req') = Some password ->
  required (lb_hardwareID req') = Some hw' ->
  load_users_ok env' = true ->
  let d1 := snd (activate_license d env req) in
  status (fst (activate_license d env req)) = 200
  /\ status (fst (login d1 env' req')) = 200
  /\ (save_users_ok env' = true ->
      devices_of (snd (login d1 env' req')) username =
      if String.eqb hw hw' then [hw] else [hw; hw']).
Proof.
  intros Hc Hn Hp Hh Hvalid Hll Hlu Hsl Hsu Hlic Hus Hkey Hn' Hp' Hh' Hlu'.
  destruct (activate_license_fresh d env req code username password hw)
    as [Hd1 Hst]; try assumption.
  rewrite Hsl, Hsu in Hd1, Hst. cbv zeta. rewrite Hd1.
  split; [exact Hst|].
  set (d1 := mkDisk _ _).
  assert (Hu1 : users d1 !! username
                = Some (new_user env code username password hw))
    by (simpl; apply lookup_insert_eq).
  assert (Hpass : credentials_pass d1 env' req' username hw'
                    (new_user env code username password hw)).
  { repeat split; try assumption. exists password.
    split; [assumption | apply flat_verify_own_hash]. }
  assert (Hdevs : devices_of d1 username = [hw])
    by (unfold devices_of; by rewrite Hu1).
  destruct (String.eqb_spec hw hw') as [<- | Hne].
  - destruct (flat_login_known_device d1 env' req' username hw _ Hpass)
      as [Hs Hd]; [rewrite Hdevs; by left|].
    split; [exact Hs|]. intros _. by rewrite Hd.
  - destruct (flat_login_new_device d1 env' req' username hw' _ Hpass)
      as [Hs Hd].
    + rewrite Hdevs. simpl. intuition.
    + rewrite Hdevs. simpl. lia.
    + split; [exact Hs|]. intros Hsave. by rewrite (Hd Hsave), Hdevs.
Qed.

End FlatFileLifecycle.

Section FlatFileReadOnlyRoutes.
Import Js FlatFile FlatFileObs FlatFileInv.

(** X8. check-license tells what activation will do. When it answers
    [available: true] for a code, a first activation of that code with a
    free username, one that is neither stored nor the name of a property
    of [Object.prototype] (all fields present, reads and writes going
    through), succeeds, and check-license then answers [available: false] with the
    time of that activation. When it answers [valid: false], every
    activation with that code is refused with status 400 and nothing is
    written. *)
Theorem check_license_predicts_activation `{Crypto} (d : Disk) (env : Env)
    (code : string) :
  (fst (check_license d env (mkCheckBody (Some code))) =
   ok_json (JObj [
     ("success", JBool true); ("valid", JBool true);
     ("available", JBool true); ("activated", JNull)]) ->
   forall (env' : Env) (req : ActivateBody) (username password hw : string),
     ab_code req = Some code ->
     required (ab_username req) = Some username ->
     required (ab_password req) = Some password ->
     required (ab_hardwareID req) = Some hw ->
     load_licenses_ok env' = true -> load_users_ok env' = true ->
     save_licenses_ok env' = true -> save_users_ok env' = true ->
     users d !! username = None ->
     ~ In username object_prototype_keys ->
     status (fst (activate_license d env' req)) = 200
     /\ fst (check_license (snd (activate_license d env' req)) env
               (mkCheckBody (Some code))) =
        ok_json (JObj [
          ("success", JBool true); ("valid", JBool true);
          ("available", JBool false);
          ("activated", JStr (Clock.toISOString (now env')))]))
  /\ (fst (check_license d env (mkCheckBody (Some code))) =
      ok_json (JObj [
        ("success", JBool true); ("valid", JBool false);
        ("available", JBool false);
        ("error", JStr "Invalid license code")]) ->
      forall (env' : Env) (req : ActivateBody),
        ab_code req = Some code ->
        status (fst (activate_license d env' req)) = 400
        /\ snd (activate_license d env' req) = d).
Proof.
  split.
  - intros Hcheck env' req username password hw Hc Hn Hp Hh Hll Hlu Hsl Hsu
      Hus Hkey.
    unfold check_license in Hcheck. cbn [cb_code] in Hcheck.
    destruct (required (Some code)) as [c|] eqn:Hr; [|discriminate].
    apply required_Some in Hr as [[= <-] Hne].
    destruct (includes_str VALID_LICENSE_CODES code) eqn:Hv;
      [|discriminate]. cbn [negb] in Hcheck.
    unfold loadDatabase in Hcheck.
    destruct (load_licenses_ok env) eqn:Hle; [|discriminate].
    destruct (licenses d !! code) as [lic|] eqn:Hlic.
    { rewrite bool_decide_eq_true_2 in Hcheck by eauto. discriminate. }
    assert (Hrc : required (ab_code req) = Some code)
      by (rewrite Hc; by apply required_Some).
    apply includes_str_In in Hv.
    destruct (activate_license_fresh d env' req code username password hw)
      as [Hd1 Hst]; try assumption.
    rewrite Hsl, Hsu in Hd1, Hst. split; [exact Hst|].
    rewrite Hd1. unfold check_license. cbn [cb_code licenses].
    rewrite (proj2 (required_Some (Some code) code)) by auto.
    apply includes_str_In in Hv. rewrite Hv. cbn [negb].
    unfold loadDatabase. rewrite Hle, lookup_insert_eq.
    by rewrite bool_decide_eq_true_2 by eauto.
  - intros Hcheck env' req Hc.
    unfold check_license in Hcheck. cbn [cb_code] in Hcheck.
    destruct (required (Some code)) as [c|] eqn:Hr; [|discriminate].
    apply required_Some in Hr as [[= <-] Hne].
    destruct (includes_str VALID_LICENSE_CODES code) eqn:Hv.
    { cbn [negb] in Hcheck. unfold loadDatabase in Hcheck.
      destruct (load_licenses_ok env); discriminate. }
    unfold activate_license. rewrite Hc.
    rewrite (proj2 (required_Some (Some code) code)) by auto.
    rewrite Hv. cbn [negb]. by repeat case_match.
Qed.

(** X9. The admin listing is refused exactly when the [x-admin-key]
    header differs both from the [ADMIN_KEY] environment variable and
    from the built-in key. So the built-in key is accepted whatever
    [ADMIN_KEY] is, and when [ADMIN_KEY] is not set a request without
    the header is let in. A caller who is let in gets, the documents
    being readable, every license and one entry per user. *)
Theorem admin_listing_access (d : Disk) (env : Env)
    (ADMIN_KEY adminKey : field) :
  (FlatFileAdmin.admin_activations d env ADMIN_KEY adminKey
   = FlatFileAdmin.Unauthorized
   <-> adminKey <> ADMIN_KEY /\ adminKey <> Some "PSYSTUDIO-ADMIN-2024")
  /\ FlatFileAdmin.admin_activations d env ADMIN_KEY
       (Some "PSYSTUDIO-ADMIN-2024") <> FlatFileAdmin.Unauthorized
  /\ FlatFileAdmin.admin_activations d env None None
     <> FlatFileAdmin.Unauthorized
  /\ (load_licenses_ok env = true -> load_users_ok env = true ->
      adminKey = ADMIN_KEY \/ adminKey = Some "PSYSTUDIO-ADMIN-2024" ->
      exists listed,
        FlatFileAdmin.admin_activations d env ADMIN_KEY adminKey
        = FlatFileAdmin.Listing (licenses d) listed
        /\ dom listed = dom (users d)
        /\ forall name u, users d !! name = Some u ->
             listed !! name = Some (FlatFileAdmin.summary u)).
Proof.
  assert (Hiff : forall a k : field,
            FlatFileAdmin.admin_activations d env k a
            = FlatFileAdmin.Unauthorized
            <-> a <> k /\ a <> Some "PSYSTUDIO-ADMIN-2024").
  { intros a k. unfold FlatFileAdmin.admin_activations,
      FlatFileAdmin.key_refused, loadDatabase.
    repeat case_bool_decide; cbn [negb andb];
      repeat case_match; split; try done; intros [? ?]; done. }
  split; [apply Hiff|]. split; [|split].
  - intros [_ Hne]%Hiff. done.
  - intros [Hne _]%Hiff. done.
  - intros Hll Hlu Hkey. exists (FlatFileAdmin.summary <$> users d).
    split; [|split].
    + unfold FlatFileAdmin.admin_activations, FlatFileAdmin.key_refused.
      rewrite Hll, Hlu. unfold loadDatabase.
      destruct Hkey as [-> | ->]; repeat case_bool_decide; done.
    + apply dom_fmap_L.
    + intros name u Hu. by rewrite lookup_fmap, Hu.
Qed.

End FlatFileReadOnlyRoutes.

Section FlatFileLoginSteps.
Import Js FlatFile FlatFileObs FlatFileInv.
Context `{Crypto}.

(** X20. The login handler does not look at what [saveDatabase]
    returns. A login that passes the credential check and is answered
    200 was answered so whether or not the users document could be
    written. When it was written, verify-session for that user and
    device succeeds afterwards, whatever token is sent. When it was not,
    nothing is stored, and a device that was not yet on the user's list
    is refused by verify-session although the login handed it a
    token. *)
Theorem flat_login_unsaved_device_not_verified (d : Disk) (env env' : Env)
    (req : LoginBody) (username hw : string) (user : User) (token : field) :
  credentials_pass d env req username hw user ->
  status (fst (login d env req)) = 200 ->
  load_users_ok env' = true ->
  (save_users_ok env = true ->
   fst (verify_session (snd (login d env req)) env'
          (mkVerifyBody (Some username) token (Some hw))) =
   ok_json (JObj [
     ("success", JBool true);
     ("user", JObj [
        ("username", JStr (u_username user));
        ("licenseType", licenseType (u_licenseCode user))])]))
  /\ (save_users_ok env = false ->
      snd (login d env req) = d
      /\ forall devs, u_devices user = Some devs -> ~ In hw devs ->
         fst (verify_session (snd (login d env req)) env'
                (mkVerifyBody (Some username) token (Some hw))) =
         fail 403 "Device not authorized").
Proof.
  intros (Hu & Hh & Hload & Huser & password & Hp & Hver) Hst Hload'.
  unfold login in *. rewrite Hu, Hp, Hh, Hload in *.
  cbn [loadDatabase] in *.
  rewrite (proj2 (get_property_Own _ _ _) Huser), Hver in *.
  cbn [negb] in *.
  destruct (admit_device (u_devices user) hw) as [devs|] eqn:Hadm;
    [|discriminate Hst].
  unfold saveDatabase in *. split; intros Hsave; rewrite Hsave in *.
  - cbn [snd]. unfold verify_session. rewrite Hload'.
    cbn [loadDatabase users vb_username prop_key vb_hardwareID].
    rewrite (proj2 (get_property_Own _ _ _) (lookup_insert_eq _ _ _)).
    cbn [u_devices includes u_username u_licenseCode].
    assert (Hin : In hw devs).
    { destruct (admit_device_cases _ _ _ Hadm) as [[_ Hin] | [-> _]];
        [exact Hin | apply in_app_iff; right; by left]. }
    apply includes_str_In in Hin. by rewrite Hin.
  - cbn [snd]. split; [by destruct d|].
    intros devs' Hdevs Hnot. unfold verify_session. rewrite Hload'.
    cbn [loadDatabase users vb_username prop_key vb_hardwareID].
    rewrite (proj2 (get_property_Own _ _ _) Huser), Hdevs. cbn [includes].
    apply includes_str_false in Hnot. by rewrite Hnot.
Qed.

End FlatFileLoginSteps.

(** ** Further properties: the SQLite variant *)

(** A property of databases that every statement keeps is kept by every
    handler, hence by every sequence of calls. *)
Section SqliteStatements.
Import Js Sqlite SqliteObs.
Context `{Crypto}.
Variable P : Db -> Prop.
Hypothesis P_insert_user : forall db env name code id db',
  insert_user db env name code = Done (id, db') -> P db -> P db'.
Hypothesis P_insert_device : forall db env uid hw name db',
  insert_device db env uid hw name = Done db' -> P db -> P db'.
Hypothesis P_touch_device : forall db env id, P db -> P (touch_device db env id).
Hypothesis P_insert_session : forall db env uid tok hw exp db',
  insert_session db env uid tok hw exp = Done db' -> P db -> P db'.
Hypothesis P_touch_user : forall db env id, P db -> P (touch_user db env id).
Hypothesis P_activate : forall db h u,
  In u (users db) -> u_is_activated u <> 1 -> P db ->
  P (set_password_and_activate db h (u_id u)).
Hypothesis P_delete_session : forall db tok, P db -> P (delete_session db tok).

Lemma statements_login (db : Db) (env : Env) (req : LoginBody) :
  P db -> P (snd (login db env req)).
Proof using P_insert_device P_touch_device P_insert_session P_touch_user.
  intros HP. unfold login.
  repeat (case_match; try exact HP); simplify_eq; simpl; eauto 6.
Qed.

Lemma statements_activate (db : Db) (env : Env) (req : ActivateBody) :
  P db -> P (snd (activate_license db env req)).
Proof using P_insert_device P_insert_session P_activate.
  intros HP. unfold activate_license.
  repeat (case_match; try exact HP); simplify_eq; simpl.
  all: repeat match goal with
       | Hf : get_user_by_license_code _ _ = Some _ |- _ =>
           apply find_In in Hf as [? _]
       | Hz : (_ =? 1) = false |- _ => apply Z.eqb_neq in Hz
       end.
  all: eauto 6.
Qed.

Lemma statements_handle (db : Db) (call : Env * request) :
  P db -> P (snd (handle db call)).
Proof using All.
  intros HP. destruct call as [env [b|b|b|b|b]]; simpl.
  - unfold register. repeat (case_match; try exact HP); simplify_eq; simpl.
    eauto.
  - by apply statements_login.
  - by apply statements_activate.
  - unfold verify_session. by repeat case_match.
  - case_match; [by apply P_delete_session | exact HP].
Qed.

Lemma statements_run (calls : list (Env * request)) (db : Db) :
  P db -> P (run db calls).
Proof using All.
  revert db. induction calls as [|call calls IH]; intros db HP; [exact HP|].
  apply IH. by apply statements_handle.
Qed.

End SqliteStatements.

Section SqliteInvariants.
Import Js Sqlite SqliteObs SqliteInv.
Context `{Crypto}.

Lemma existsb_false_not_in {A B : Type} (f : A -> B) (test : A -> bool)
    (l : list A) (y : B) :
  (forall x, f x = y -> test x = true) ->
  existsb test l = false -> y ∉ map f l.
Proof.
  intros Htest Hex Hin. apply list_elem_of_In, in_map_iff in Hin
    as (x & Hx & Hin).
  assert (existsb test l = true); [|congruence].
  apply existsb_exists. exists x. split; [exact Hin | by apply Htest].
Qed.

Lemma NoDup_map_snoc {A B : Type} (f : A -> B) (l : list A) (x : A) :
  NoDup (map f l) -> f x ∉ map f l -> NoDup (map f (l ++ [x])).
Proof.
  intros Hnd Hnot. rewrite map_app. apply NoDup_app. split; [exact Hnd|].
  split; [|apply NoDup_singleton].
  by intros y Hy ->%list_elem_of_singleton.
Qed.

Lemma map_map_same {A B : Type} (f : A -> B) (g : A -> A) (l : list A) :
  (forall x, f (g x) = f x) -> map f (map g l) = map f l.
Proof. intros Hfg. rewrite map_map. by apply map_ext. Qed.

Lemma NoDup_map_filter {A B : Type} (f : A -> B) (P : A -> Prop)
    `{!forall x, Decision (P x)} (l : list A) :
  NoDup (map f l) -> NoDup (map f (filter P l)).
Proof.
  intros Hnd. eapply sublist_NoDup; [exact Hnd|].
  change (map f (filter P l)) with (f <$> filter P l).
  change (map f l) with (f <$> l).
  apply fmap_sublist, sublist_filter.
Qed.

Lemma constraints_run (calls : list (Env * request)) (db : Db) :
  constraints db -> constraints (run db calls).
Proof.
  apply statements_run.
  - intros d env name code id d' Hi [Hu Hc Ht Hd].
    unfold insert_user in Hi.
    destruct (existsb _ (users d)) eqn:He1; [discriminate|].
    destruct (existsb _ (users d)) eqn:He2 in Hi; [discriminate|].
    injection Hi as <- <-. split; simpl; try assumption.
    + apply NoDup_map_snoc; [exact Hu|]. simpl.
      eapply existsb_false_not_in; [|exact He1].
      intros x <-. apply String.eqb_refl.
    + apply NoDup_map_snoc; [exact Hc|]. simpl.
      eapply existsb_false_not_in; [|exact He2].
      intros x <-. apply String.eqb_refl.
  - intros d env uid hw name d' Hi [Hu Hc Ht Hd].
    unfold insert_device in Hi.
    destruct (existsb _ (devices d)) eqn:He; [discriminate|].
    injection Hi as <-. split; simpl; try assumption.
    apply NoDup_map_snoc; [exact Hd|]. simpl.
    eapply existsb_false_not_in; [|exact He].
    intros x [= <- <-]. by rewrite Z.eqb_refl, String.eqb_refl.
  - intros d env id [Hu Hc Ht Hd]. split; simpl; try assumption.
    rewrite map_map_same; [exact Hd|]. intros x. by destruct (dev_id x =? id).
  - intros d env uid tok hw exp d' Hi [Hu Hc Ht Hd].
    unfold insert_session in Hi.
    destruct (existsb _ (sessions d)) eqn:He; [discriminate|].
    injection Hi as <-. split; simpl; try assumption.
    apply NoDup_map_snoc; [exact Ht|]. simpl.
    eapply existsb_false_not_in; [|exact He].
    intros x <-. apply String.eqb_refl.
  - intros d env id [Hu Hc Ht Hd]. split; simpl; try assumption.
    + rewrite map_map_same; [exact Hu|]. intros x. by destruct (u_id x =? id).
    + rewrite map_map_same; [exact Hc|]. intros x. by destruct (u_id x =? id).
  - intros d h u _ _ [Hu Hc Ht Hd]. split; simpl; try assumption.
    + rewrite map_map_same; [exact Hu|].
      intros x. by destruct (u_id x =? u_id u).
    + rewrite map_map_same; [exact Hc|].
      intros x. by destruct (u_id x =? u_id u).
  - intros d tok [Hu Hc Ht Hd]. split; simpl; try assumption.
    by apply NoDup_map_filter.
Qed.

Lemma empty_db_constraints : constraints empty_db.
Proof. split; simpl; apply NoDup_nil_2. Qed.

Lemma unactivated_run (calls : list (Env * request)) (db : Db) :
  unactivated_without_password db ->
  unactivated_without_password (run db calls).
Proof.
  apply statements_run.
  - intros d env name code id d' Hi Hinv. unfold insert_user in Hi.
    repeat case_match; simplify_eq.
    intros u [Hu | [<- | []]]%in_app_iff; [by apply Hinv | done].
  - intros d env uid hw name d' Hi Hinv. unfold insert_device in Hi.
    repeat case_match; simplify_eq. exact Hinv.
  - intros d env id Hinv. exact Hinv.
  - intros d env uid tok hw exp d' Hi Hinv. unfold insert_session in Hi.
    repeat case_match; simplify_eq. exact Hinv.
  - intros d env id Hinv u (u0 & <- & Hu0)%in_map_iff.
    destruct (u_id u0 =? id); simpl; by apply Hinv.
  - intros d h v _ _ Hinv u (u0 & <- & Hu0)%in_map_iff.
    destruct (u_id u0 =? u_id v); simpl; [discriminate | by apply Hinv].
  - intros d tok Hinv. exact Hinv.
Qed.

Lemma fingerprints_prefix_run (calls : list (Env * request)) (db : Db)
    (uid : Z) :
  fingerprints db uid `prefix_of` fingerprints (run db calls) uid.
Proof.
  apply (statements_run
           (fun d => fingerprints db uid `prefix_of` fingerprints d uid));
    try done.
  - intros d env name code id d' Hi Hp. unfold insert_user in Hi.
    repeat case_match; by simplify_eq.
  - intros d env u hw name d' Hi Hp.
    destruct (insert_device_devices _ _ _ _ _ _ Hi) as (row & Hd & _).
    etrans; [exact Hp|]. unfold fingerprints, all_devices_of.
    rewrite Hd, filter_app, map_app. by apply prefix_app_r.
  - intros d env id Hp. by rewrite fingerprints_touch.
  - intros d env u tok hw exp d' Hi Hp.
    apply insert_session_devices in Hi as [Hd _].
    unfold fingerprints, all_devices_of in *. by rewrite Hd.
Qed.

End SqliteInvariants.

Section SqliteInvariantTheorems.
Import Js Sqlite SqliteObs SqliteInv.
Context `{Crypto}.

Lemma activated_row_kept (calls : list (Env * request)) (db : Db)
    (u : UserRow) :
  u_is_activated u = 1 ->
  (NoDup (map u_id (users db))
   /\ (forall v, In v (users db) -> u_id v <= seq_users db)
   /\ exists u', In u' (users db) /\ identity u' = identity u) ->
  (NoDup (map u_id (users (run db calls)))
   /\ (forall v, In v (users (run db calls)) ->
         u_id v <= seq_users (run db calls))
   /\ exists u', In u' (users (run db calls)) /\ identity u' = identity u).
Proof.
  intros Hact.
  apply (statements_run
           (fun d => NoDup (map u_id (users d))
                     /\ (forall v, In v (users d) -> u_id v <= seq_users d)
                     /\ exists u', In u' (users d)
                                   /\ identity u' = identity u)).
  - intros d env name code id d' Hi. unfold insert_user in Hi.
    repeat case_match; simplify_eq.
    intros (Hnd & Hseq & u' & Hu' & Hid). simpl.
    split; [|split].
    + apply NoDup_map_snoc; [exact Hnd|]. simpl.
      intros Hin. apply list_elem_of_In, in_map_iff in Hin as (v & Hv & Hin).
      apply Hseq in Hin. lia.
    + intros v [Hv | [<- | []]]%in_app_iff; simpl; [apply Hseq in Hv|]; lia.
    + exists u'. split; [apply in_app_iff; by left | exact Hid].
  - intros d env uid hw name d' Hi HP.
    destruct (insert_device_devices _ _ _ _ _ _ Hi) as (_ & _ & _ & _ & Hu & _).
    unfold insert_device in Hi. repeat case_match; simplify_eq. exact HP.
  - intros d env id HP. exact HP.
  - intros d env uid tok hw exp d' Hi HP.
    unfold insert_session in Hi. repeat case_match; simplify_eq. exact HP.
  - intros d env id (Hnd & Hseq & u' & Hu' & Hid). simpl.
    split; [|split].
    + rewrite map_map_same; [exact Hnd|]. intros x. by destruct (u_id x =? id).
    + intros v (v0 & <- & Hv0)%in_map_iff.
      destruct (u_id v0 =? id); simpl; by apply Hseq.
    + eexists. split; [apply in_map; exact Hu'|].
      rewrite <- Hid. by destruct (u_id u' =? id).
  - intros d h v Hv Hnact (Hnd & Hseq & u' & Hu' & Hid). simpl.
    split; [|split].
    + rewrite map_map_same; [exact Hnd|].
      intros x. by destruct (u_id x =? u_id v).
    + intros w (w0 & <- & Hw0)%in_map_iff.
      destruct (u_id w0 =? u_id v); simpl; by apply Hseq.
    + eexists. split; [apply in_map; exact Hu'|].
      destruct (Z.eqb_spec (u_id u') (u_id v)) as [Heq|_]; [|exact Hid].
      exfalso. assert (u' = v) by (eapply same_id_same_row; eauto).
      subst v. apply Hnact.
      unfold identity in Hid. by injection Hid as _ _ _ _ ->.
  - intros d tok HP. exact HP.
Qed.

Lemma row_names_kept (calls : list (Env * request)) (db : Db) (u : UserRow) :
  In u (users db) ->
  exists u', In u' (users (run db calls))
             /\ u_id u' = u_id u /\ u_username u' = u_username u
             /\ u_license_code u' = u_license_code u.
Proof.
  intros Hu.
  apply (statements_run
           (fun d => exists u', In u' (users d)
                       /\ u_id u' = u_id u /\ u_username u' = u_username u
                       /\ u_license_code u' = u_license_code u));
    [..|by exists u].
  - intros d env name code id d' Hi. unfold insert_user in Hi.
    repeat case_match; simplify_eq. intros (u' & Hu' & Hid).
    exists u'. split; [apply in_app_iff; by left | exact Hid].
  - intros d env uid hw name d' Hi HP.
    unfold insert_device in Hi. repeat case_match; simplify_eq. exact HP.
  - intros d env id HP. exact HP.
  - intros d env uid tok hw exp d' Hi HP.
    unfold insert_session in Hi. repeat case_match; simplify_eq. exact HP.
  - intros d env id (u' & Hu' & Hid).
    eexists. split; [apply in_map; exact Hu'|].
    by destruct (u_id u' =? id).
  - intros d h v _ _ (u' & Hu' & Hid).
    eexists. split; [apply in_map; exact Hu'|].
    by destruct (u_id u' =? u_id v).
  - intros d tok HP. exact HP.
Qed.

(** X10. The UNIQUE constraints of the schema hold after every sequence
    of calls: no two users share a username or a license code, no two
    sessions share a token, and no user holds the same hardware id
    twice. *)
Theorem sqlite_unique_constraints_kept (db : Db)
    (calls : list (Env * request)) :
  constraints db -> constraints (run db calls).
Proof. apply constraints_run. Qed.

(** X11. The answer "License not activated" is never given: an account
    that has not activated has no password, and a login to it is
    refused as invalid credentials before the activation flag is looked
    at. This holds in every database reached from one where the
    accounts that have not activated have no password, the empty one
    for instance. *)
Theorem login_never_answers_not_activated (db : Db)
    (calls : list (Env * request)) (env : Env) (req : LoginBody) :
  unactivated_without_password db ->
  fst (login (run db calls) env req)
  <> fail 401 "License not activated. Please activate first.".
Proof.
  intros Hinv. apply (unactivated_run calls) in Hinv.
  unfold login. repeat (case_match; try discriminate); simplify_eq.
  match goal with
  | Hf : get_user_by_username _ _ = Some ?u, Hz : (_ =? 0) = true,
    Hr : required (u_password_hash ?u) = Some _ |- _ =>
    apply find_In in Hf as [Hin _]; apply Z.eqb_eq in Hz;
    rewrite (Hinv u Hin Hz) in Hr; discriminate
  end.
Qed.

(** X12. No call ever removes a device: the hardware ids registered to
    a user before a sequence of calls are a prefix of those registered
    afterwards. *)
Theorem sqlite_devices_only_grow (db : Db) (calls : list (Env * request))
    (user_id : Z) :
  fingerprints db user_id `prefix_of` fingerprints (run db calls) user_id.
Proof. apply fingerprints_prefix_run. Qed.

(** X13. No call removes a user or changes an id, a username or a
    license code; and in a consistent database an activated user stays
    activated with the same password hash, whatever is called
    afterwards. *)
Theorem sqlite_activation_is_permanent (db : Db)
    (calls : list (Env * request)) (u : UserRow) :
  In u (users db) ->
  (exists u', In u' (users (run db calls))
              /\ u_id u' = u_id u /\ u_username u' = u_username u
              /\ u_license_code u' = u_license_code u)
  /\ (consistent db -> u_is_activated u = 1 ->
      exists u', In u' (users (run db calls)) /\ identity u' = identity u).
Proof.
  intros Hu. split; [by apply row_names_kept|].
  intros Hc Hact.
  destruct (activated_row_kept calls db u Hact) as (_ & _ & Hex);
    [|exact Hex].
  split; [apply Hc|]. split; [apply Hc|]. by exists u.
Qed.

End SqliteInvariantTheorems.

Section SqliteRoutes.
Import Js Sqlite SqliteObs SqliteInv.

Lemma existsb_eqb_false {A : Type} (f : A -> string) (l : list A)
    (y : string) :
  ~ In y (map f l) -> existsb (fun x => String.eqb (f x) y) l = false.
Proof.
  intros Hn. destruct (existsb _ l) eqn:He; [|reflexivity].
  apply existsb_exists in He as (x & Hx & Heq%String.eqb_eq).
  exfalso. apply Hn. apply in_map_iff. by exists x.
Qed.

Lemma existsb_eqb_true {A : Type} (f : A -> string) (l : list A)
    (y : string) :
  In y (map f l) -> existsb (fun x => String.eqb (f x) y) l = true.
Proof.
  intros (x & Hx & Hin)%in_map_iff. apply existsb_exists. exists x.
  split; [exact Hin | by apply String.eqb_eq].
Qed.

(** X14. Registration is for the admin key only and writes one row or
    nothing. With the key, a username of at least 3 characters
    ([username.length], UTF-16 code units) that is not taken and a drawn
    license code that is not in use, it appends an unactivated user
    without password under the next id and answers that id and the
    code; with a username or a code already in use it answers 400
    "Username already exists" in both cases; a username of fewer than 3
    characters is refused before anything is written, whatever its byte
    count; and whenever the answer is not 200 the database is
    unchanged. *)
Theorem register_adds_one_unactivated_user (db : Db) (env : Env)
    (req : RegisterBody) :
  (rb_adminKey req <> Some "PSYPOWER_ADMIN_2025" ->
   register db env req = (fail 403 "Unauthorized", db))
  /\ (status (fst (register db env req)) <> 200 ->
      snd (register db env req) = db)
  /\ (forall name,
      rb_adminKey req = Some "PSYPOWER_ADMIN_2025" ->
      required (rb_username req) = Some name ->
      (3 <= str_length name)%nat ->
      (~ In name (map u_username (users db)) ->
       ~ In (generateLicenseCode env) (map u_license_code (users db)) ->
       register db env req =
       (ok_json (JObj [
          ("success", JBool true);
          ("username", JStr name);
          ("license_code", JStr (generateLicenseCode env));
          ("user_id", JNum (seq_users db + 1))]),
        mkDb (users db ++
                [mkUserRow (seq_users db + 1) name None
                   (generateLicenseCode env)
                   (Clock.sqlite_datetime (now env)) None 0])
          (devices db) (sessions db) (seq_users db + 1) (seq_devices db)
          (seq_sessions db)))
      /\ (In name (map u_username (users db))
          \/ In (generateLicenseCode env) (map u_license_code (users db)) ->
          register db env req = (fail 400 "Username already exists", db)))
  /\ (forall name,
      rb_adminKey req = Some "PSYPOWER_ADMIN_2025" ->
      rb_username req = Some name ->
      (str_length name < 3)%nat ->
      register db env req =
      (fail 400 "Username must be at least 3 characters", db)).
Proof.
  split; [|split; [|split]].
  - intros Hk. unfold register. by rewrite bool_decide_eq_false_2.
  - unfold register, insert_user. repeat case_match; simplify_eq; simpl;
      done.
  - intros name Hk Hn Hlen. unfold register, insert_user.
    rewrite Hk, bool_decide_eq_true_2, Hn by done. cbn [negb].
    apply Nat.ltb_ge in Hlen. rewrite Hlen. split.
    + intros Hfree Hcode.
      by rewrite (existsb_eqb_false u_username), (existsb_eqb_false u_license_code).
    + intros [Hused | Hused].
      * by rewrite (existsb_eqb_true u_username).
      * rewrite (existsb_eqb_true u_license_code) by done.
        by destruct (existsb _ (users db)).
  - intros name Hk Hn Hlen. unfold register, required.
    rewrite Hk, bool_decide_eq_true_2, Hn by done. cbn [negb].
    destruct (String.eqb name ""); [reflexivity|].
    apply Nat.ltb_lt in Hlen. by rewrite Hlen.
Qed.

Lemma select_no_user (s : SessionRow) (us : list UserRow)
    (cond : UserRow -> bool) :
  (forall u, cond u = false) ->
  (u ← us; if cond u then [(s, u)] else []) = [].
Proof.
  intros Hc. induction us as [|u us IH]; [reflexivity|].
  cbn. rewrite Hc. exact IH.
Qed.

Lemma select_sessions_cons (db : Db) (env : Env) (tok hw : string)
    (s : SessionRow) (ss : list SessionRow) (a b c : Z) :
  select_sessions (mkDb (users db) (devices db) (s :: ss) a b c) env tok hw =
  select_sessions (mkDb (users db) (devices db) [s] a b c) env tok hw
  ++ select_sessions (mkDb (users db) (devices db) ss a b c) env tok hw.
Proof.
  unfold select_sessions. simpl. by rewrite app_nil_r.
Qed.

Lemma select_sessions_other_token (db : Db) (env : Env) (tok hw : string)
    (s : SessionRow) (a b c : Z) :
  s_session_token s <> tok ->
  select_sessions (mkDb (users db) (devices db) [s] a b c) env tok hw = [].
Proof.
  intros Hne. unfold select_sessions. simpl. rewrite app_nil_r.
  apply select_no_user. intros u.
  destruct (String.eqb_spec (s_session_token s) tok); [done|].
  by rewrite andb_false_r.
Qed.

Lemma select_sessions_delete (db : Db) (env : Env) (tok tok' hw : string) :
  select_sessions (delete_session db tok) env tok' hw =
  if String.eqb tok tok' then [] else select_sessions db env tok' hw.
Proof.
  unfold delete_session.
  destruct db as [us ds ss a b c]. simpl.
  induction ss as [|s ss IH].
  - by destruct (String.eqb tok tok').
  - rewrite filter_cons.
    rewrite (select_sessions_cons (mkDb us ds [] a b c) env tok' hw s ss).
    simpl. case_decide as Hs.
    + rewrite (select_sessions_cons (mkDb us ds [] a b c) env tok' hw s
                 (filter _ ss)). simpl. rewrite IH.
      destruct (String.eqb_spec tok tok') as [<-|Hne]; [|reflexivity].
      by rewrite (select_sessions_other_token (mkDb us ds [] a b c)).
    + rewrite IH.
      destruct (String.eqb_spec tok tok') as [<-|Hne]; [reflexivity|].
      rewrite (select_sessions_other_token (mkDb us ds [] a b c));
        [reflexivity | congruence].
Qed.

(** X15. Logout revokes: after a logout with a token, verify-session
    with that token is refused for every hardware id and at every time,
    while every other token is verified as before; users and devices
    are untouched, and a second logout with the token changes
    nothing. *)
Theorem logout_revokes_session (db : Db) (env : Env) (req : LogoutBody)
    (tok : string) :
  required (ob_session_token req) = Some tok ->
  let db' := snd (logout db env req) in
  (forall env' vreq,
     required (vb_session_token vreq) = Some tok ->
     status (fst (verify_session db' env' vreq)) <> 200)
  /\ (forall env' vreq tok',
      required (vb_session_token vreq) = Some tok' -> tok' <> tok ->
      fst (verify_session db' env' vreq) = fst (verify_session db env' vreq))
  /\ users db' = users db /\ devices db' = devices db
  /\ (forall env', snd (logout db' env' req) = db').
Proof.
  intros Hr. unfold logout. cbn [snd]. rewrite Hr. cbv zeta.
  split; [|split; [|split; [|split]]]; try reflexivity.
  - intros env' vreq Hv. unfold verify_session. rewrite Hv.
    destruct (required (vb_hardware_id vreq)); [|discriminate].
    rewrite select_sessions_delete, String.eqb_refl. discriminate.
  - intros env' vreq tok' Hv Hne. unfold verify_session. rewrite Hv.
    destruct (required (vb_hardware_id vreq)); [|reflexivity].
    rewrite select_sessions_delete.
    destruct (String.eqb_spec tok tok'); [congruence|].
    by destruct (select_sessions db env' tok' s) as [|[? ?] ?].
  - intros env'. unfold delete_session. simpl. f_equal.
    apply list_filter_filter_l. done.
Qed.

(** X16. The user route checks that some session is live, not whose it
    is: with the token of any session whose expiry compares greater
    than the current time, the row of any user is answered, whoever
    the session belongs to and from whatever device; without such a
    session the answer is 401. *)
Theorem any_live_session_reads_any_user (db : Db) (env : Env) :
  (forall (s : SessionRow) (u : UserRow),
     In s (sessions db) ->
     Clock.text_gt (s_expires_at s) (Clock.sqlite_datetime (now env)) = true ->
     In u (users db) ->
     NoDup (map u_username (users db)) ->
     SqliteUser.get_user db env (u_username u) (s_session_token s) =
     ok_json (JObj [
       ("username", JStr (u_username u));
       ("license_code", JStr (u_license_code u));
       ("created_at", JStr (u_created_at u));
       ("last_login", SqliteUser.nullable (u_last_login u))]))
  /\ (forall (username tok : string),
      (forall s, In s (sessions db) -> s_session_token s = tok ->
         Clock.text_gt (s_expires_at s) (Clock.sqlite_datetime (now env))
         = false) ->
      SqliteUser.get_user db env username tok = fail 401 "Unauthorized").
Proof.
  split.
  - intros s u Hs Hlive Hu Hnd. unfold SqliteUser.get_user.
    destruct (SqliteUser.get_live_session db env (s_session_token s))
      as [s'|] eqn:Hf.
    + destruct (get_user_by_username db (u_username u)) as [u'|] eqn:Hg.
      * apply find_In in Hg as [Hu' Heq%String.eqb_eq].
        assert (u' = u); [|by subst].
        clear -Hu Hu' Heq Hnd. induction (users db) as [|x l IH];
          [destruct Hu|].
        simpl in Hnd. apply NoDup_cons in Hnd as [Hx Hnd].
        destruct Hu as [-> | Hu], Hu' as [-> | Hu'];
          [reflexivity | | | by apply IH].
        -- exfalso. apply Hx. rewrite <- Heq. apply list_elem_of_In.
           by apply in_map.
        -- exfalso. apply Hx. rewrite Heq. apply list_elem_of_In.
           by apply in_map.
      * exfalso. eapply find_none in Hg; [|exact Hu].
        by rewrite String.eqb_refl in Hg.
    + exfalso. unfold SqliteUser.get_live_session in Hf.
      eapply find_none in Hf; [|exact Hs].
      by rewrite String.eqb_refl, Hlive in Hf.
  - intros username tok Hdead. unfold SqliteUser.get_user.
    destruct (SqliteUser.get_live_session db env tok) as [s|] eqn:Hf;
      [|reflexivity].
    apply find_In in Hf as [Hs [Ht Hl]%andb_prop].
    apply String.eqb_eq in Ht. by rewrite (Hdead s Hs Ht) in Hl.
Qed.

End SqliteRoutes.

Section SqliteLifecycle.
Import Js Sqlite SqliteObs SqliteInv.
Context `{Crypto}.

Lemma hashPassword_nonempty (env : Env) (password : string) :
  hashPassword env password <> "".
Proof.
  unfold hashPassword. cbv zeta.
  destruct (to_hex (random16 env)); cbn; discriminate.
Qed.

Lemma to_hex_nonempty (buf : list byte) : buf <> [] -> to_hex buf <> "".
Proof. destruct buf; [done | discriminate]. Qed.

Lemma find_username_map (f : UserRow -> UserRow) (l : list UserRow)
    (name : string) :
  (forall u, u_username (f u) = u_username u) ->
  find (fun u => String.eqb (u_username u) name) (map f l) =
  option_map f (find (fun u => String.eqb (u_username u) name) l).
Proof.
  intros Hf. induction l as [|u l IH]; [reflexivity|].
  simpl. rewrite Hf. by destruct (String.eqb (u_username u) name).
Qed.

Lemma get_user_by_username_unique (db : Db) (u : UserRow) :
  NoDup (map u_username (users db)) -> In u (users db) ->
  get_user_by_username db (u_username u) = Some u.
Proof.
  unfold get_user_by_username.
  induction (users db) as [|x l IH]; [intros _ []|].
  simpl. intros [Hx Hnd]%NoDup_cons [-> | Hu].
  - by rewrite String.eqb_refl.
  - destruct (String.eqb_spec (u_username x) (u_username u)) as [Heq|_];
      [|by apply IH].
    exfalso. apply Hx. rewrite Heq. apply list_elem_of_In. by apply in_map.
Qed.

Lemma insert_session_row (db db' : Db) (env : Env) (uid : Z)
    (tok hw exp : string) :
  insert_session db env uid tok hw exp = Done db' ->
  sessions db' = sessions db ++
    [mkSessionRow (seq_sessions db + 1) uid tok hw exp
       (Clock.sqlite_datetime (now env))]
  /\ users db' = users db /\ devices db' = devices db.
Proof.
  unfold insert_session. case_match; [discriminate|]. by intros [= <-].
Qed.

(** X17. The password chosen at activation logs in. In a consistent
    database with its UNIQUE constraints, activating an unactivated
    license with a password of at least 6 characters
    ([password.length], UTF-16 code units) and a token not yet in use
    succeeds, and right after it a login with the account's
    username and that password is answered 200, from the activating
    device and from any other one (the token drawn for the login being
    unused). *)
Theorem sqlite_login_after_activation (db : Db) (env : Env)
    (req : ActivateBody) (code hw password : string) (u : UserRow) :
  consistent db -> constraints db ->
  required (ab_license_code req) = Some code ->
  required (ab_hardware_id req) = Some hw ->
  required (ab_password req) = Some password ->
  (6 <= str_length password)%nat ->
  get_user_by_license_code db code = Some u ->
  u_is_activated u <> 1 ->
  token_fresh db env ->
  status (fst (activate_license db env req)) = 200
  /\ fingerprints (snd (activate_license db env req)) (u_id u) = [hw]
  /\ forall (env' : Env) (req' : LoginBody) (hw' : string),
       required (lb_username req') = Some (u_username u) ->
       required (lb_password req') = Some password ->
       required (lb_hardware_id req') = Some hw' ->
       token_fresh (snd (activate_license db env req)) env' ->
       status (fst (login (snd (activate_license db env req)) env' req'))
       = 200.
Proof.
  intros Hcons Hcst Hc Hh Hp Hlen Hu Hna Hfresh.
  pose proof (find_In _ _ _ Hu) as [Hin _].
  pose proof (unactivated_no_device db u Hcons Hin Hna) as Hnodev.
  unfold activate_license. rewrite Hc, Hh, Hp.
  apply Nat.ltb_ge in Hlen. rewrite Hlen, Hu.
  apply Z.eqb_neq in Hna. rewrite Hna.
  set (db1 := set_password_and_activate db (hashPassword env password)
                (u_id u)).
  assert (Hfp1 : fingerprints db1 (u_id u) = [])
    by (unfold fingerprints, db1, set_password_and_activate;
        by rewrite all_devices_of_same, Hnodev).
  assert (Huniq : ~ In hw (fingerprints db1 (u_id u)))
    by (rewrite Hfp1; intros []).
  apply unique_device_check in Huniq.
  destruct (insert_device db1 env (u_id u) hw "Device 1") as [db2|msg]
    eqn:Hi; [|unfold insert_device in Hi; rewrite Huniq in Hi; discriminate].
  destruct (insert_device_devices _ _ _ _ _ _ Hi)
    as (row & Hd2 & Hru & Hrh & Hus2 & Hss2).
  destruct (insert_session_fresh db2 env (u_id u) (generateSessionToken env)
              hw (Clock.toISOString (now env + Clock.session_validity_ms)))
    as [db3 Hs3]; [rewrite Hss2; exact Hfresh|].
  rewrite Hs3. cbn [fst snd status ok_json].
  destruct (insert_session_row _ _ _ _ _ _ _ Hs3) as (_ & Hus3 & Hd3).
  assert (Hfp3 : fingerprints db3 (u_id u) = [hw]).
  { unfold fingerprints, all_devices_of. rewrite Hd3, Hd2.
    change (devices db1) with (devices db).
    rewrite filter_app, map_app.
    fold (all_devices_of db (u_id u)). rewrite Hnodev.
    rewrite filter_cons, decide_True by exact Hru. simpl. by rewrite Hrh. }
  split; [reflexivity|]. split; [exact Hfp3|].
  intros env' req' hw' Hn' Hp' Hh' Hfresh'.
  set (u1 := mkUserRow (u_id u) (u_username u)
               (Some (hashPassword env password)) (u_license_code u)
               (u_created_at u) (u_last_login u) 1).
  assert (Hfind : get_user_by_username db3 (u_username u) = Some u1).
  { unfold get_user_by_username. rewrite Hus3, Hus2. unfold db1. simpl.
    rewrite find_username_map by (intros x; by destruct (u_id x =? u_id u)).
    fold (get_user_by_username db (u_username u)).
    rewrite get_user_by_username_unique by (apply Hcst || exact Hin).
    simpl. by rewrite Z.eqb_refl. }
  assert (Hpass : credentials_pass db3 req' (u_username u) hw' u1).
  { split; [exact Hn'|]. split; [exact Hh'|]. split; [exact Hfind|].
    split; [discriminate|].
    exists password, (hashPassword env password).
    split; [exact Hp'|]. split.
    - apply required_Some. split; [reflexivity | apply hashPassword_nonempty].
    - apply sqlite_verify_own_hash. }
  destruct (in_dec string_dec hw' (fingerprints db3 (u_id u))) as [Hk|Hk].
  - by apply (sqlite_login_known_device db3 env' req' _ hw' u1 Hpass Hk).
  - apply (sqlite_login_new_device db3 env' req' _ hw' u1 Hpass Hk);
      [|exact Hfresh'].
    change (u_id u1) with (u_id u). rewrite Hfp3. simpl. lia.
Qed.

Lemma login_success_shape (db : Db) (env : Env) (req : LoginBody)
    (name hw : string) (user : UserRow) :
  required (lb_username req) = Some name ->
  required (lb_hardware_id req) = Some hw ->
  get_user_by_username db name = Some user ->
  status (fst (login db env req)) = 200 ->
  exists db1 db2,
    users db1 = users db /\ sessions db1 = sessions db
    /\ insert_session db1 env (u_id user) (generateSessionToken env) hw
         (Clock.toISOString (now env + Clock.session_validity_ms)) = Done db2
    /\ snd (login db env req) = touch_user db2 env (u_id user).
Proof.
  intros Hn Hh Hu. unfold login. rewrite Hn, Hh, Hu.
  repeat (case_match; try discriminate); simplify_eq; intros _.
  - eexists _, _. split; [|split; [|split; [eassumption | reflexivity]]];
      reflexivity.
  - match goal with Hi : insert_device _ _ _ _ _ = Done _ |- _ =>
      destruct (insert_device_devices _ _ _ _ _ _ Hi)
        as (row & _ & _ & _ & Hus & Hss) end.
    eexists _, _. split; [exact Hus|]. split; [exact Hss|].
    split; [eassumption | reflexivity].
Qed.

(** X18. A session issued by a successful login verifies: in a
    consistent database with its UNIQUE constraints, the token answered
    by the login, presented with the hardware id of that login at any
    time from the epoch up to 30 days after the login, is accepted and
    answers the username and license code of the account. *)
Theorem sqlite_login_session_verifies (db : Db) (env env' : Env)
    (req : LoginBody) (name hw : string) (user : UserRow) :
  consistent db -> constraints db ->
  required (lb_username req) = Some name ->
  required (lb_hardware_id req) = Some hw ->
  get_user_by_username db name = Some user ->
  status (fst (login db env req)) = 200 ->
  random32 env <> [] ->
  0 <= now env' ->
  now env' <= now env + Clock.session_validity_ms ->
  now env + Clock.session_validity_ms < ClockObs.year_10000 ->
  verify_session (snd (login db env req)) env'
    (mkVerifyBody (Some (generateSessionToken env)) (Some hw)) =
  (ok_json (JObj [
     ("valid", JBool true);
     ("username", JStr name);
     ("license_code", JStr (u_license_code user));
     ("expires_at",
      JStr (Clock.toISOString (now env + Clock.session_validity_ms)))]),
   snd (login db env req)).
Proof.
  intros Hcons Hcst Hn Hh Hu Hst Hrnd H0 Hle Hmax.
  pose proof (run_consistent [(env, Login req)] db Hcons) as Hcons'.
  pose proof (constraints_run [(env, Login req)] db Hcst) as Hcst'.
  change (run db [(env, Login req)]) with (snd (login db env req))
    in Hcons', Hcst'.
  destruct (login_success_shape db env req name hw user Hn Hh Hu Hst)
    as (db1 & db2 & Hus1 & Hss1 & Hi & Hfinal).
  destruct (insert_session_row _ _ _ _ _ _ _ Hi) as (Hss2 & Hus2 & _).
  pose proof (find_In _ _ _ Hu) as [Hin Hname%String.eqb_eq].
  set (s := mkSessionRow (seq_sessions db1 + 1) (u_id user)
              (generateSessionToken env) hw
              (Clock.toISOString (now env + Clock.session_validity_ms))
              (Clock.sqlite_datetime (now env))).
  set (u1 := mkUserRow (u_id user) (u_username user) (u_password_hash user)
               (u_license_code user) (u_created_at user)
               (Some (Clock.sqlite_datetime (now env))) (u_is_activated user)).
  assert (Hs : In s (sessions (snd (login db env req)))).
  { rewrite Hfinal. simpl. rewrite Hss2. apply in_app_iff. right. by left. }
  assert (Hu1 : In u1 (users (snd (login db env req)))).
  { rewrite Hfinal. simpl. rewrite Hus2, Hus1. apply in_map_iff.
    exists user. split; [|exact Hin]. by rewrite Z.eqb_refl. }
  rewrite (sqlite_verify_same_device (snd (login db env req)) env' _ s u1);
    try assumption; try reflexivity.
  - by rewrite <- Hname.
  - apply Hcst'.
  - apply Hcons'.
  - apply required_Some. split; [reflexivity|].
    by apply to_hex_nonempty.
  - apply required_Some. split; [reflexivity|].
    by apply required_Some in Hh as [_ ?].
  - by apply text_gt_before_expiry.
Qed.

End SqliteLifecycle.

Section SqliteLoginSteps.
Import Js Sqlite SqliteObs SqliteInv.
Context `{Crypto}.
#[local] Arguments Nat.leb : simpl never.

(** X19. A login is not one transaction: when a login from a new
    device, admitted under the quota, draws a token that a stored
    session already holds, the session insert fails and the answer is
    500 "Login failed", but the device it registered stays. *)
Theorem sqlite_login_keeps_device_on_token_clash (db : Db) (env : Env)
    (req : LoginBody) (username hw : string) (user : UserRow) :
  credentials_pass db req username hw user ->
  ~ In hw (fingerprints db (u_id user)) ->
  (length (fingerprints db (u_id user)) < 3)%nat ->
  In (generateSessionToken env) (map s_session_token (sessions db)) ->
  fst (login db env req) = fail 500 "Login failed"
  /\ fingerprints (snd (login db env req)) (u_id user) =
     fingerprints db (u_id user) ++ [hw].
Proof.
  intros Hpass Hnew Hlen Hclash.
  split; [|by apply (sqlite_login_new_device db env req username hw user)].
  destruct Hpass as (Hn & Hh & Hu & Ha & pw & ph & Hp & Hph & Hv).
  unfold login. rewrite Hn, Hp, Hh, Hu, Hph, Hv. simpl.
  apply Z.eqb_neq in Ha. rewrite Ha.
  rewrite (find_fingerprint_None _ _ Hnew).
  unfold fingerprints in Hlen. rewrite length_map in Hlen.
  apply Nat.leb_gt in Hlen. rewrite Hlen.
  pose proof (unique_device_check db (u_id user) hw Hnew) as Huniq.
  destruct (insert_device db env (u_id user) hw _) as [db1|msg] eqn:Hi;
    [|unfold insert_device in Hi; rewrite Huniq in Hi; discriminate].
  destruct (insert_device_devices _ _ _ _ _ _ Hi)
    as (row & _ & _ & _ & _ & Hss).
  unfold insert_session. rewrite Hss.
  by rewrite (existsb_eqb_true s_session_token).
Qed.

End SqliteLoginSteps.

(** ** The further properties on concrete runs *)
Section MoreRuns.
Import Js Samples MoreSamples.

Lemma alice_not_inherited : ~ In "alice" object_prototype_keys.
Proof. intros Hin. apply includes_str_In in Hin. discriminate Hin. Qed.

(** X1: an unlisted header is refused although the body carries a listed
    [securityCode]. *)
Lemma security_gate_witness :
  fst (SecurityCode.app (SecurityCode.mkWorld []) (SecurityCode.mkEnv t0)
         gate_request) =
  Response 401 (JObj [
    ("valid", JBool false);
    ("error", JStr "Unauthorized: Invalid security code")]).
Proof.
  refine (proj1 (proj2 security_gate) (SecurityCode.mkWorld [])
            (SecurityCode.mkEnv t0) gate_request "letmein" _ eq_refl _ _).
  - discriminate.
  - discriminate.
  - intros Hin. apply includes_str_In in Hin. discriminate Hin.
Defined.

(** X2: a listed header does not authenticate an unlisted [code]. *)
Lemma authenticate_needs_listed_code_witness :
  SecurityCode.app (SecurityCode.mkWorld []) (SecurityCode.mkEnv t0)
    auth_request =
  (Response 401 (JObj [
     ("authenticated", JBool false);
     ("error", JStr "Authentication failed: Invalid security code")]),
   SecurityCode.mkWorld []).
Proof.
  exact (authenticate_needs_listed_code (SecurityCode.mkWorld [])
           (SecurityCode.mkEnv t0) auth_request
           (SecurityCode.mkBody None None None (Some "letmein"))
           eq_refl eq_refl eq_refl eq_refl).
Defined.

(** X3 on the sample run of the flat-file variant. *)
Lemma flat_store_stays_well_formed_witness :
  FlatFileInv.keyed flat_disk /\ FlatFileInv.devices_distinct flat_disk
  /\ (size (FlatFile.licenses flat_disk) <= 3)%nat.
Proof.
  refine (flat_store_stays_well_formed (H := sample_crypto)
            FlatFile.empty_disk flat_calls _ _).
  - split; intros k v Hk; simpl in Hk; by rewrite lookup_empty in Hk.
  - intros name. unfold FlatFileObs.devices_of. simpl.
    rewrite lookup_empty. apply NoDup_nil_2.
Defined.

(** X5: the license and the account stored by the sample run are still
    there after a login from a third device. *)
Lemma flat_activation_is_permanent_witness :
  FlatFile.licenses flat_disk3 !! "PSYSTUDIO-2024-PRO" = Some flat_license
  /\ exists u', FlatFile.users flat_disk3 !! "alice" = Some u'
                /\ FlatFileInv.identity u' = FlatFileInv.identity flat_alice.
Proof.
  destruct (flat_activation_is_permanent (H := sample_crypto) flat_disk
              [(flat_env [xaa; x03], flat_login "HW3")]) as [Hlic Huser].
  split.
  - apply (Hlic "PSYSTUDIO-2024-PRO" flat_license). vm_compute. reflexivity.
  - apply (Huser "alice" flat_alice). vm_compute. reflexivity.
Defined.

(** X6: when only the license document cannot be written, the
    activation answers 500 and the account is stored all the same; an
    activation under the username ["constructor"], which nobody holds,
    is refused as taken. *)
Lemma first_activation_writes_each_document_witness :
  (snd (FlatFile.activate_license (H := sample_crypto) FlatFile.empty_disk
          flat_env_unsaved flat_activation) =
   FlatFile.mkDisk ∅
     (<["alice" := FlatFileInv.new_user (H := sample_crypto) flat_env_unsaved
                     "PSYSTUDIO-2024-PRO" "alice" "secret1" "HW1"]> ∅)
   /\ status (fst (FlatFile.activate_license (H := sample_crypto)
                     FlatFile.empty_disk flat_env_unsaved flat_activation))
      = 500)
  /\ FlatFile.activate_license (H := sample_crypto) FlatFile.empty_disk
       (flat_env [])
       (FlatFile.mkActivateBody (Some "PSYSTUDIO-2024-PRO")
          (Some "constructor") (Some "secret1") (Some "HW1")) =
     (FlatFile.fail 400 "Username already taken", FlatFile.empty_disk).
Proof.
  split.
  - exact (proj1 (first_activation_writes_each_document (H := sample_crypto)
                    FlatFile.empty_disk flat_env_unsaved flat_activation
                    "PSYSTUDIO-2024-PRO" "alice" "secret1" "HW1"
                    eq_refl eq_refl eq_refl eq_refl
                    (or_intror (or_introl eq_refl))
                    eq_refl eq_refl (lookup_empty _))
             (lookup_empty _) alice_not_inherited).
  - exact (proj2 (first_activation_writes_each_document (H := sample_crypto)
                    FlatFile.empty_disk (flat_env [])
                    (FlatFile.mkActivateBody (Some "PSYSTUDIO-2024-PRO")
                       (Some "constructor") (Some "secret1") (Some "HW1"))
                    "PSYSTUDIO-2024-PRO" "constructor" "secret1" "HW1"
                    eq_refl eq_refl eq_refl eq_refl
                    (or_intror (or_introl eq_refl))
                    eq_refl eq_refl (lookup_empty _))
             (or_intror (or_introl eq_refl))).
Defined.

(** X7: alice activates on HW1 and logs in from HW2. *)
Lemma flat_login_after_activation_witness :
  status (fst (FlatFile.activate_license (H := sample_crypto)
                 FlatFile.empty_disk (flat_env []) flat_activation)) = 200
  /\ status (fst (FlatFile.login (H := sample_crypto)
                    (snd (FlatFile.activate_license (H := sample_crypto)
                            FlatFile.empty_disk (flat_env []) flat_activation))
                    (flat_env [xaa]) (flat_login_body "HW2"))) = 200
  /\ FlatFileObs.devices_of
       (snd (FlatFile.login (H := sample_crypto)
               (snd (FlatFile.activate_license (H := sample_crypto)
                       FlatFile.empty_disk (flat_env []) flat_activation))
               (flat_env [xaa]) (flat_login_body "HW2"))) "alice"
     = ["HW1"; "HW2"].
Proof.
  destruct (flat_login_after_activation (H := sample_crypto)
              FlatFile.empty_disk (flat_env []) (flat_env [xaa])
              flat_activation (flat_login_body "HW2")
              "PSYSTUDIO-2024-PRO" "alice" "secret1" "HW1" "HW2"
              eq_refl eq_refl eq_refl eq_refl
              (or_intror (or_introl eq_refl))
              eq_refl eq_refl eq_refl eq_refl
              (lookup_empty _) (lookup_empty _) alice_not_inherited
              eq_refl eq_refl eq_refl eq_refl)
    as (Hact & Hlog & Hdev).
  split; [exact Hact|]. split; [exact Hlog|]. exact (Hdev eq_refl).
Defined.

(** X8: on the empty store check-license reports the PRO code
    available, so alice's activation succeeds and the code is then
    reported taken. *)
Lemma check_license_predicts_activation_witness :
  status (fst (FlatFile.activate_license (H := sample_crypto)
                 FlatFile.empty_disk (flat_env []) flat_activation)) = 200
  /\ fst (FlatFile.check_license
            (snd (FlatFile.activate_license (H := sample_crypto)
                    FlatFile.empty_disk (flat_env []) flat_activation))
            (flat_env [])
            (FlatFile.mkCheckBody (Some "PSYSTUDIO-2024-PRO"))) =
     ok_json (JObj [
       ("success", JBool true); ("valid", JBool true);
       ("available", JBool false);
       ("activated", JStr (Clock.toISOString t0))]).
Proof.
  exact (proj1 (check_license_predicts_activation (H := sample_crypto)
                  FlatFile.empty_disk (flat_env []) "PSYSTUDIO-2024-PRO")
           eq_refl (flat_env []) flat_activation "alice" "secret1" "HW1"
           eq_refl eq_refl eq_refl eq_refl eq_refl eq_refl eq_refl eq_refl
           (lookup_empty _) alice_not_inherited).
Defined.

(** X9: with no ADMIN_KEY set and no header sent, the listing is
    served. *)
Lemma admin_listing_access_witness :
  exists listed,
    FlatFileAdmin.admin_activations flat_disk (flat_env []) None None
    = FlatFileAdmin.Listing (FlatFile.licenses flat_disk) listed
    /\ dom listed = dom (FlatFile.users flat_disk)
    /\ forall name u, FlatFile.users flat_disk !! name = Some u ->
         listed !! name = Some (FlatFileAdmin.summary u).
Proof.
  exact (proj2 (proj2 (proj2 (admin_listing_access flat_disk (flat_env [])
                                None None)))
           eq_refl eq_refl (or_introl eq_refl)).
Defined.

(** X10 on the sample run of the SQLite variant. *)
Lemma sqlite_unique_constraints_kept_witness : SqliteInv.constraints sql_db3.
Proof.
  refine (sqlite_unique_constraints_kept (H := sample_crypto) Sqlite.empty_db
            (sql_calls ++
             [(sql_env t0 [xaa; x02], Sqlite.Login (sql_login "HW2"));
              (sql_env t0 [xaa; x03], Sqlite.Login (sql_login "HW3"))]) _).
  split; simpl; apply NoDup_nil_2.
Defined.

(** X11: a login with the right name before activation is answered
    otherwise. *)
Lemma login_never_answers_not_activated_witness :
  fst (Sqlite.login (H := sample_crypto) sql_registered (sql_env t0 [xaa])
         (sql_login "HW1"))
  <> Sqlite.fail 401 "License not activated. Please activate first.".
Proof.
  refine (login_never_answers_not_activated (H := sample_crypto)
            Sqlite.empty_db [(sql_env t0 [], sql_register)]
            (sql_env t0 [xaa]) (sql_login "HW1") _).
  intros u [].
Defined.

(** X13: alice's row after two more logins. *)
Lemma sqlite_activation_is_permanent_witness :
  exists u', In u' (Sqlite.users sql_db3)
             /\ SqliteInv.identity u' = SqliteInv.identity sql_alice.
Proof.
  refine (proj2 (sqlite_activation_is_permanent (H := sample_crypto) sql_db
                   [(sql_env t0 [xaa; x02], Sqlite.Login (sql_login "HW2"));
                    (sql_env t0 [xaa; x03], Sqlite.Login (sql_login "HW3"))]
                   sql_alice _) _ eq_refl).
  - vm_compute. left. reflexivity.
  - exact (run_consistent (H := sample_crypto) sql_calls Sqlite.empty_db
             empty_db_consistent).
Defined.

(** X14: with alice registered, bob is added as user 2 under the drawn
    code; a second registration of alice writes nothing; and a name of
    two characters, one of them accented (three bytes), is refused. *)
Lemma register_adds_one_unactivated_user_witness :
  Sqlite.register sql_registered (Sqlite.mkEnv t0 [x03; x04] [])
    (Sqlite.mkRegisterBody (Some "bob") (Some "PSYPOWER_ADMIN_2025")) =
  (ok_json (JObj [
     ("success", JBool true);
     ("username", JStr "bob");
     ("license_code", JStr "0304");
     ("user_id", JNum 2)]),
   Sqlite.mkDb (Sqlite.users sql_registered ++ [sql_bob]) [] [] 2 0 0)
  /\ Sqlite.register sql_registered (Sqlite.mkEnv t0 [x03; x04] [])
       (Sqlite.mkRegisterBody (Some "alice") (Some "PSYPOWER_ADMIN_2025")) =
     (Sqlite.fail 400 "Username already exists", sql_registered)
  /\ Sqlite.register sql_registered (Sqlite.mkEnv t0 [x03; x04] [])
       (Sqlite.mkRegisterBody (Some "éa") (Some "PSYPOWER_ADMIN_2025")) =
     (Sqlite.fail 400 "Username must be at least 3 characters",
      sql_registered).
Proof.
  split; [|split].
  - refine (proj1 (proj1 (proj2 (proj2 (register_adds_one_unactivated_user
                                   sql_registered
                                   (Sqlite.mkEnv t0 [x03; x04] [])
                                   (Sqlite.mkRegisterBody (Some "bob")
                                      (Some "PSYPOWER_ADMIN_2025")))))
                     "bob" eq_refl eq_refl _) _ _).
    + vm_compute. lia.
    + vm_compute. intros [Hin|[]]. discriminate Hin.
    + vm_compute. intros [Hin|[]]. discriminate Hin.
  - refine (proj2 (proj1 (proj2 (proj2 (register_adds_one_unactivated_user
                                   sql_registered
                                   (Sqlite.mkEnv t0 [x03; x04] [])
                                   (Sqlite.mkRegisterBody (Some "alice")
                                      (Some "PSYPOWER_ADMIN_2025")))))
                     "alice" eq_refl eq_refl _) _).
    + vm_compute. lia.
    + left. vm_compute. left. reflexivity.
  - refine (proj2 (proj2 (proj2 (register_adds_one_unactivated_user
                                   sql_registered
                                   (Sqlite.mkEnv t0 [x03; x04] [])
                                   (Sqlite.mkRegisterBody (Some "éa")
                                      (Some "PSYPOWER_ADMIN_2025")))))
              "éa" eq_refl eq_refl _).
    vm_compute. lia.
Defined.

(** X15: after logout the sample session no longer verifies. *)
Lemma logout_revokes_session_witness :
  status (fst (Sqlite.verify_session
                 (snd (Sqlite.logout sql_db (sql_env t0 [])
                         (Sqlite.mkLogoutBody (Some "aa00"))))
                 (sql_env (t0 + 1000) [])
                 (Sqlite.mkVerifyBody (Some "aa00") (Some "HW1")))) <> 200.
Proof.
  exact (proj1 (logout_revokes_session sql_db (sql_env t0 [])
                  (Sqlite.mkLogoutBody (Some "aa00")) "aa00" eq_refl)
           (sql_env (t0 + 1000) [])
           (Sqlite.mkVerifyBody (Some "aa00") (Some "HW1")) eq_refl).
Defined.

(** X16: alice's session reads bob's row. *)
Lemma any_live_session_reads_any_user_witness :
  SqliteUser.get_user sql_two_users (sql_env (t0 + 1000) []) "bob" "aa00" =
  ok_json (JObj [
    ("username", JStr "bob");
    ("license_code", JStr "0304");
    ("created_at", JStr (Clock.sqlite_datetime t0));
    ("last_login", JNull)]).
Proof.
  refine (proj1 (any_live_session_reads_any_user sql_two_users
                   (sql_env (t0 + 1000) []))
            sql_session sql_bob _ _ _ _).
  - vm_compute. left. reflexivity.
  - vm_compute. reflexivity.
  - vm_compute. right. left. reflexivity.
  - vm_compute. apply NoDup_cons_2; [|apply NoDup_singleton].
    intros Hin. apply list_elem_of_singleton in Hin.
    discriminate Hin.
Defined.

(** X17: alice activates her registered license on HW1 and logs in from
    HW2. *)
Lemma sqlite_login_after_activation_witness :
  status (fst (Sqlite.activate_license (H := sample_crypto) sql_registered
                 (sql_env t0 [xaa; x00]) (sql_activate "secret1" "HW1")))
  = 200
  /\ SqliteObs.fingerprints
       (snd (Sqlite.activate_license (H := sample_crypto) sql_registered
               (sql_env t0 [xaa; x00]) (sql_activate "secret1" "HW1"))) 1
     = ["HW1"]
  /\ status (fst (Sqlite.login (H := sample_crypto)
                    (snd (Sqlite.activate_license (H := sample_crypto)
                            sql_registered (sql_env t0 [xaa; x00])
                            (sql_activate "secret1" "HW1")))
                    (sql_env t0 [xaa; x01]) (sql_login "HW2"))) = 200.
Proof.
  assert (Hfresh : SqliteObs.token_fresh sql_registered
                     (sql_env t0 [xaa; x00])) by (intros s []).
  destruct (sqlite_login_after_activation (H := sample_crypto) sql_registered
              (sql_env t0 [xaa; x00]) (sql_activate "secret1" "HW1")
              "0102" "HW1" "secret1" sql_alice0
              (run_consistent (H := sample_crypto)
                 [(sql_env t0 [], sql_register)] Sqlite.empty_db
                 empty_db_consistent)
              (constraints_run (H := sample_crypto)
                 [(sql_env t0 [], sql_register)] Sqlite.empty_db
                 empty_db_constraints)
              eq_refl eq_refl eq_refl
              (le_S _ _ (le_n 6)) eq_refl ltac:(discriminate) Hfresh)
    as (Hact & Hdev & Hlogin).
  split; [exact Hact|]. split; [exact Hdev|].
  apply (Hlogin (sql_env t0 [xaa; x01]) (sql_login "HW2") "HW2");
    try reflexivity.
  intros s Hs. vm_compute in Hs. destruct Hs as [<-|[]]. discriminate.
Defined.

(** X18: the session issued to alice on HW2 verifies a second later. *)
Lemma sqlite_login_session_verifies_witness :
  Sqlite.verify_session
    (snd (Sqlite.login (H := sample_crypto) sql_db (sql_env t0 [xaa; x02])
            (sql_login "HW2")))
    (sql_env (t0 + 1000) [])
    (Sqlite.mkVerifyBody (Some "aa02") (Some "HW2")) =
  (ok_json (JObj [
     ("valid", JBool true);
     ("username", JStr "alice");
     ("license_code", JStr "0102");
     ("expires_at", JStr (Clock.toISOString sql_expiry))]),
   snd (Sqlite.login (H := sample_crypto) sql_db (sql_env t0 [xaa; x02])
          (sql_login "HW2"))).
Proof.
  refine (sqlite_login_session_verifies (H := sample_crypto) sql_db
            (sql_env t0 [xaa; x02]) (sql_env (t0 + 1000) [])
            (sql_login "HW2") "alice" "HW2" sql_alice
            (run_consistent (H := sample_crypto) sql_calls Sqlite.empty_db
               empty_db_consistent)
            (constraints_run (H := sample_crypto) sql_calls Sqlite.empty_db
               empty_db_constraints)
            eq_refl eq_refl eq_refl _ _ _ _ _).
  - vm_compute. reflexivity.
  - discriminate.
  - vm_compute. discriminate.
  - vm_compute. discriminate.
  - vm_compute. reflexivity.
Defined.

(** X19: a login from HW2 that draws the token of alice's live session
    is answered 500 and HW2 is registered all the same. *)
Lemma sqlite_login_keeps_device_on_token_clash_witness :
  fst (Sqlite.login (H := sample_crypto) sql_db (sql_env t0 [xaa; x00])
         (sql_login "HW2")) = Sqlite.fail 500 "Login failed"
  /\ SqliteObs.fingerprints
       (snd (Sqlite.login (H := sample_crypto) sql_db
               (sql_env t0 [xaa; x00]) (sql_login "HW2"))) 1
     = ["HW1"; "HW2"].
Proof.
  refine (sqlite_login_keeps_device_on_token_clash (H := sample_crypto)
            sql_db (sql_env t0 [xaa; x00]) (sql_login "HW2") "alice" "HW2"
            sql_alice _ _ _ _).
  - split; [reflexivity|]. split; [reflexivity|]. split; [reflexivity|].
    split; [discriminate|].
    exists "secret1",
      (Sqlite.hashPassword (H := sample_crypto) (sql_env t0 [xaa; x00])
         "secret1").
    split; [reflexivity|]. split; [reflexivity|]. vm_compute. reflexivity.
  - vm_compute. intros [Hin|[]]. discriminate Hin.
  - vm_compute. lia.
  - vm_compute. left. reflexivity.
Defined.

(** X20: alice logs in from HW3 while the users document cannot be
    written; the login is answered 200 and verify-session refuses
    HW3. *)
Lemma flat_login_unsaved_device_not_verified_witness :
  fst (FlatFile.verify_session
         (snd (FlatFile.login (H := sample_crypto) flat_disk
                 flat_env_users_unsaved (flat_login_body "HW3")))
         (flat_env [])
         (FlatFile.mkVerifyBody (Some "alice") (Some "aa03") (Some "HW3"))) =
  FlatFile.fail 403 "Device not authorized".
Proof.
  refine (proj2 (proj2 (flat_login_unsaved_device_not_verified
                          (H := sample_crypto) flat_disk
                          flat_env_users_unsaved (flat_env [])
                          (flat_login_body "HW3") "alice" "HW3" flat_alice
                          (Some "aa03") _ _ eq_refl) eq_refl)
            ["HW1"; "HW2"] eq_refl _).
  - split; [reflexivity|]. split; [reflexivity|]. split; [reflexivity|].
    split; [vm_compute; reflexivity|].
    exists "secret1". split; [reflexivity|]. vm_compute. reflexivity.
  - vm_compute. reflexivity.
  - simpl. intros [Hin|[Hin|[]]]; discriminate Hin.
Defined.

End MoreRuns.
